(** * nemdata.mmsdm: file resolution and the download/cache pipeline

    A shallow embedding of [nemdata/mmsdm.py].  Python values are modelled
    as follows:
    - [int] as [Z], [str] as [string], [pathlib.Path] as the list of its
      parts;
    - an exception as the left summand of a result, in a state-and-error
      monad over the [World] the module acts on (file system, standard
      output, warnings, HTTP traffic and the Python list objects shared
      between the catalog and its users);
    - the libraries the module calls (pandas, requests, zipfile) by what
      the module uses of them. *)

From Stdlib Require Import ZArith Lia List Ascii String.
From stdpp Require Import base option list gmap strings pretty.

Local Open Scope string_scope.
Local Open Scope Z_scope.
Local Open Scope list_scope.

(** ** Python built-ins used by the module *)

Module Py.

(** [str(n)] for an [int]. *)
Definition str (n : Z) : string := pretty n.

Fixpoint zeros (n : nat) : string :=
  match n with
  | O => ""
  | S k => String "0" (zeros k)
  end.

(** [s.zfill(width)]: zeros go after a leading sign. *)
Definition zfill (width : nat) (s : string) : string :=
  let pad := zeros (width - String.length s) in
  match s with
  | String c rest =>
      if (Ascii.eqb c "+" || Ascii.eqb c "-")%bool
      then String c (pad +:+ rest)
      else pad +:+ s
  | EmptyString => pad
  end.

(** [sub in s]. *)
Fixpoint contains (sub s : string) : bool :=
  (String.prefix sub s ||
   match s with
   | EmptyString => false
   | String _ rest => contains sub rest
   end)%bool.

(** [s.replace(old, new)] for a non-empty [old]: leftmost occurrences,
    not overlapping.  [skip] counts the characters of a match that are
    still to be dropped. *)
Fixpoint replace_go (old new : string) (skip : nat) (s : string) : string :=
  match s with
  | EmptyString => ""
  | String c rest =>
      match skip with
      | S k => replace_go old new k rest
      | O =>
          if String.prefix old s
          then new +:+ replace_go old new (String.length old - 1) rest
          else String c (replace_go old new 0 rest)
      end
  end.

Fixpoint intersperse (new s : string) : string :=
  match s with
  | EmptyString => new
  | String c rest => new +:+ String c (intersperse new rest)
  end.

Definition replace (old new s : string) : string :=
  match old with
  | EmptyString => intersperse new s
  | _ => replace_go old new 0 s
  end.

(** [sep.join(l)]. *)
Fixpoint join (sep : string) (l : list string) : string :=
  match l with
  | [] => ""
  | [x] => x
  | x :: rest => x +:+ sep +:+ join sep rest
  end.

(** [s.split(sep)] for a separator of one character. *)
Fixpoint split (sep : ascii) (s : string) : list string :=
  match s with
  | EmptyString => [""]
  | String c rest =>
      if Ascii.eqb c sep then "" :: split sep rest
      else
        match split sep rest with
        | cur :: more => String c cur :: more
        | [] => [String c ""]
        end
  end.

(** [l[-n:]]. *)
Definition last_n {A} (n : nat) (l : list A) : list A :=
  drop (length l - n) l.

Definition squote : ascii := "'"%char.
Definition dquote : ascii := ascii_of_nat 34.
Definition backslash : ascii := ascii_of_nat 92.

Fixpoint has_char (c : ascii) (s : string) : bool :=
  match s with
  | EmptyString => false
  | String d rest => (Ascii.eqb c d || has_char c rest)%bool
  end.

Definition hex_digit (n : nat) : ascii :=
  match n with
  | 0 => "0" | 1 => "1" | 2 => "2" | 3 => "3" | 4 => "4" | 5 => "5"
  | 6 => "6" | 7 => "7" | 8 => "8" | 9 => "9" | 10 => "a" | 11 => "b"
  | 12 => "c" | 13 => "d" | 14 => "e" | _ => "f"
  end%char%nat.

Fixpoint repr_body (q : ascii) (s : string) : string :=
  match s with
  | EmptyString => ""
  | String c rest =>
      let n := nat_of_ascii c in
      (if (Ascii.eqb c q || Ascii.eqb c backslash)%bool
       then String backslash (String c "")
       else if (n =? 10)%nat then String backslash "n"
       else if (n =? 13)%nat then String backslash "r"
       else if (n =? 9)%nat then String backslash "t"
       else if ((n <? 32) || (n =? 127))%nat%bool
       then String backslash
              (String "x" (String (hex_digit (n / 16))
                                  (String (hex_digit (n mod 16)) "")))
       else String c "") +:+ repr_body q rest
  end.

(** [repr(s)] of an ASCII [str]: single quotes unless the text has a
    single quote and no double quote. *)
Definition repr_str (s : string) : string :=
  let q := if (has_char squote s && negb (has_char dquote s))%bool
           then dquote else squote in
  String q (repr_body q s +:+ String q "").

(** [repr(l)] of a list of [str], as an f-string prints it. *)
Definition repr_list (l : list string) : string :=
  "[" +:+ join ", " (map repr_str l) +:+ "]".

(** [(a, b) >= (c, d)] on pairs of [int]. *)
Definition pair_geb (x y : Z * Z) : bool :=
  ((y.1 <? x.1) || ((x.1 =? y.1) && (y.2 <=? x.2)))%bool%Z.

End Py.

(** ** Exceptions and the monad of the module *)

Inductive Exception : Type :=
| ValueError (msg : string)
| AssertionError
| KeyError (key : string)
| TypeError (msg : string)
| AttributeError (msg : string)
| OSError (msg : string)
| ParserError (msg : string).

(** ** The table catalog *)

Record VariableFrequency : Type := {
  frequency_minutes_before : Z;
  frequency_minutes_after : Z;
  transition_datetime_interval_end : Z
}.

Inductive Frequency : Type :=
| Minutes (n : Z)
| Varying (v : VariableFrequency).

(** [datetime_columns] holds a Python list, which [make_datetime_columns]
    extends in place: the field is the address of the list object in the
    store of the [World]. *)
Record MMSDMTable : Type := {
  name : string;
  table : string;
  directory : string;
  datetime_columns : option nat;
  interval_column : option string;
  frequency : option Frequency;
  legacy_table : option string
}.

(** A [pathlib.Path] (POSIX), by its [parts]: the root, when the path is
    absolute, is the first part. *)
Definition Path : Type := list string.

Module MMSDMFile.
Record t : Type := {
  year : Z;
  month : Z;
  table : MMSDMTable;
  url : string;
  csv_name : string;
  data_directory : Path;
  zipfile_path : Path
}.
End MMSDMFile.

(** ** Tabular data (pandas) *)

(** A cell holds text as read from a CSV file, a timestamp (wall-clock
    seconds, with the time zone attached to it if any) or a missing
    value. *)
Inductive Cell : Type :=
| CStr (s : string)
| CTime (seconds : Z) (tz : option string)
| CNaN.

Record DataFrame : Type := {
  index : list Z;
  columns : list (string * list Cell)
}.

(** ** The world the module acts on *)

Inductive Content : Type :=
| Bytes (s : string)
| Archive (members : list (string * string))
| Parquet (d : DataFrame).

Inductive Node : Type :=
| Dir
| File (c : Content).

Inductive Method : Type := HEAD | GET.

Record World : Type := {
  store : list (list string);
  fs : gmap Path Node;
  stdout : list string;
  warned : list string;
  sent : list (Method * string)
}.

(** A calendar date, as pandas parses the [start] and [end] strings. *)
Record Date : Type := { dyear : Z; dmonth : Z; dday : Z }.

(** What the module takes from outside: the constants of
    [nemdata.constants], the parsers and writers of pandas, what pyarrow
    reads from the entries of a directory that is not empty
    ([read_dataset]), and the remote server ([None] from [http_head] is a
    [requests.RequestException]; [None] from [http_get] is a resource the
    server does not have). *)
Record Env : Type := {
  nem_tz : string;
  transition : Z;
  to_timestamp : string -> option Date;
  to_datetime : string -> option Z;
  read_csv : string -> nat -> Exception + DataFrame;
  to_csv : DataFrame -> string;
  read_dataset : gmap Path Node -> Exception + DataFrame;
  http_head : string -> option Z;
  http_get : string -> option Content
}.

Definition M (A : Type) : Type := World -> (Exception + A) * World.

Definition ret {A} (a : A) : M A := fun w => (inr a, w).

Definition raise {A} (e : Exception) : M A := fun w => (inl e, w).

Definition bind {A B} (m : M A) (k : A -> M B) : M B :=
  fun w =>
    match m w with
    | (inr a, w') => k a w'
    | (inl e, w') => (inl e, w')
    end.

Definition lift {A} (r : Exception + A) : M A := fun w => (r, w).

Declare Scope py_scope.
Delimit Scope py_scope with py.
Notation "x <- m ;; k" := (bind m (fun x => k))
  (at level 100, m at next level, right associativity) : py_scope.
Notation "m ;;; k" := (bind m (fun _ => k))
  (at level 100, right associativity) : py_scope.
Local Open Scope py_scope.

Fixpoint for_each {A B} (body : A -> M B) (l : list A) : M (list B) :=
  match l with
  | [] => ret []
  | a :: rest =>
      b <- body a ;; bs <- for_each body rest ;; ret (b :: bs)
  end.

(** *** Output, warnings, requests *)

Definition print (line : string) : M unit :=
  fun w => (inr tt, {| store := store w; fs := fs w;
                       stdout := stdout w ++ [line];
                       warned := warned w; sent := sent w |}).

Definition warn (msg : string) : M unit :=
  fun w => (inr tt, {| store := store w; fs := fs w; stdout := stdout w;
                       warned := warned w ++ [msg]; sent := sent w |}).

Definition send (m : Method) (u : string) : M unit :=
  fun w => (inr tt, {| store := store w; fs := fs w; stdout := stdout w;
                       warned := warned w; sent := sent w ++ [(m, u)] |}).

(** *** Python list objects *)

Definition load (l : nat) : M (list string) :=
  fun w =>
    match store w !! l with
    | Some xs => (inr xs, w)
    | None => (inl (AttributeError "dangling list"), w)
    end.

(** [xs += ys] on the list object at [l]. *)
Definition extend (l : nat) (ys : list string) : M unit :=
  fun w =>
    match store w !! l with
    | Some xs =>
        (inr tt, {| store := <[l := xs ++ ys]> (store w); fs := fs w;
                    stdout := stdout w; warned := warned w;
                    sent := sent w |})
    | None => (inl (AttributeError "dangling list"), w)
    end.

(** *** The file system *)

Definition set_fs (f : gmap Path Node) (w : World) : World :=
  {| store := store w; fs := f; stdout := stdout w; warned := warned w;
     sent := sent w |}.

(** The root of a string that names an absolute path: exactly two
    leading slashes are a root of their own, any other number is "/". *)
Definition path_root (s : string) : option string :=
  match s with
  | String "/" (String "/" (String "/" _)) => Some "/"
  | String "/" (String "/" _) => Some "//"
  | String "/" _ => Some "/"
  | _ => None
  end.

(** The parts of a string: it is cut at every '/', and empty parts and
    "." are dropped. *)
Definition path_parts (s : string) : list string :=
  List.filter (fun x => negb (String.eqb x "" || String.eqb x "."))
              (Py.split "/" s).

(** [path / s]: the parts of [s] are added to the path; an absolute [s]
    takes the place of the path. *)
Definition div (p : Path) (s : string) : Path :=
  match path_root s with
  | Some r => r :: path_parts s
  | None => p ++ path_parts s
  end.
Infix "//" := div (at level 40, left associativity) : py_scope.
#[global] Arguments div : simpl never.

(** The entry named [x] of the directory [dd]. *)
Definition entry (dd : Path) (x : string) : Path := dd ++ [x].

Definition parent (p : Path) : Path := take (length p - 1) p.

(** [str(path)]. *)
Definition path_str (p : Path) : string :=
  match p with
  | root :: rest =>
      if (String.eqb root "/" || String.eqb root "//")%bool
      then root +:+ Py.join "/" rest
      else Py.join "/" p
  | [] => "."
  end.

(** [path.exists()]. *)
Definition exists_ (p : Path) : M bool :=
  fun w => (inr (bool_decide (is_Some (fs w !! p))), w).

(** The prefixes of a path, shortest first, the path itself last. *)
Definition prefixes (p : Path) : list Path :=
  map (fun n => take n p) (seq 1 (length p)).

Definition is_file (f : gmap Path Node) (p : Path) : bool :=
  match f !! p with
  | Some (File _) => true
  | _ => false
  end.

(** [path.mkdir(exist_ok=True, parents=True)]: fails only where a regular
    file is in the way. *)
Definition mkdir (p : Path) : M unit :=
  fun w =>
    if existsb (is_file (fs w)) (prefixes p)
    then (inl (OSError "file exists"), w)
    else (inr tt,
          set_fs (foldr (fun q f => <[q := Dir]> f) (fs w) (prefixes p)) w).

(** Writing a file: its directory must exist and the path must not be a
    directory. *)
Definition write (p : Path) (c : Content) : M unit :=
  fun w =>
    match fs w !! parent p, fs w !! p with
    | Some Dir, Some Dir => (inl (OSError "is a directory"), w)
    | Some Dir, _ => (inr tt, set_fs (<[p := File c]> (fs w)) w)
    | _, _ => (inl (OSError "no such directory"), w)
    end.

Definition read (p : Path) : M Content :=
  fun w =>
    match fs w !! p with
    | Some (File c) => (inr c, w)
    | Some Dir => (inl (OSError "is a directory"), w)
    | None => (inl (OSError "no such file"), w)
    end.

(** [Path.with_suffix]: the text after the last dot of the last part is
    replaced; a leading or a trailing dot starts no suffix. *)
Fixpoint split_last_dot (s : string) : option (string * string) :=
  match s with
  | EmptyString => None
  | String c rest =>
      match split_last_dot rest with
      | Some (a, b) => Some (String c a, b)
      | None => if Ascii.eqb c "." then Some ("", rest) else None
      end
  end.

Definition stem (s : string) : string :=
  match split_last_dot s with
  | Some (a, b) =>
      if (String.eqb a "" || String.eqb b "")%bool then s else a
  | None => s
  end.

Definition with_suffix (p : Path) (suffix : string) : Path :=
  match reverse p with
  | last :: front => reverse front ++ [stem last +:+ suffix]
  | [] => []
  end.

(** *** Data frame operations *)

Definition empty_frame : DataFrame := {| index := []; columns := [] |}.

(** [data[col]]. *)
Fixpoint lookup_column (col : string) (cs : list (string * list Cell))
  : option (list Cell) :=
  match cs with
  | [] => None
  | (c, v) :: rest =>
      if String.eqb c col then Some v else lookup_column col rest
  end.

Definition getitem (data : DataFrame) (col : string)
  : Exception + list Cell :=
  match lookup_column col (columns data) with
  | Some v => inr v
  | None => inl (KeyError col)
  end.

(** [data[col] = v]: an existing column is replaced in place, a new one
    goes last. *)
Fixpoint assign_column (col : string) (v : list Cell)
  (cs : list (string * list Cell)) : list (string * list Cell) :=
  match cs with
  | [] => [(col, v)]
  | (c, old) :: rest =>
      if String.eqb c col then (c, v) :: rest
      else (c, old) :: assign_column col v rest
  end.

Definition setitem (data : DataFrame) (col : string) (v : list Cell)
  : DataFrame :=
  {| index := index data; columns := assign_column col v (columns data) |}.

(** [l[:stop]] with Python's reading of a negative [stop]. *)
Definition slice_to {A} (stop : Z) (l : list A) : list A :=
  let n := Z.of_nat (length l) in
  take (Z.to_nat (if stop <? 0 then Z.max 0 (n + stop) else Z.min stop n)) l.

(** [data.iloc[:tail, :]]. *)
Definition iloc_rows_to (tail : Z) (data : DataFrame) : DataFrame :=
  {| index := slice_to tail (index data);
     columns := map (fun cv => (cv.1, slice_to tail cv.2)) (columns data) |}.

(** [pd.concat(frames, axis=0)] of a non-empty list: the rows of all
    frames in order, under the union of their columns in order of first
    appearance; a frame without a column contributes missing values. *)
Definition column_names (frames : list DataFrame) : list string :=
  foldl (fun acc d =>
           foldl (fun acc c =>
                    if existsb (String.eqb c) acc then acc else acc ++ [c])
                 acc (map fst (columns d)))
        [] frames.

Definition column_or_missing (col : string) (d : DataFrame) : list Cell :=
  match lookup_column col (columns d) with
  | Some v => v
  | None => map (fun _ => CNaN) (index d)
  end.

Definition pd_concat (frames : list DataFrame) : Exception + DataFrame :=
  match frames with
  | [] => inl (ValueError "No objects to concatenate")
  | _ =>
      inr {| index := flat_map index frames;
             columns :=
               map (fun c => (c, flat_map (column_or_missing c) frames))
                   (column_names frames) |}
  end.

(** Results without state: [pd.to_datetime] and the like. *)
Definition and_then {A B} (r : Exception + A) (k : A -> Exception + B)
  : Exception + B :=
  match r with
  | inr a => k a
  | inl e => inl e
  end.

Fixpoint traverse {A B} (f : A -> Exception + B) (l : list A)
  : Exception + list B :=
  match l with
  | [] => inr []
  | a :: rest =>
      and_then (f a) (fun b =>
      and_then (traverse f rest) (fun bs => inr (b :: bs)))
  end.

(** [series.dt.tz_localize(tz)]: only for timestamps without a zone. *)
Definition tz_localize_cell (tz : string) (c : Cell) : Exception + Cell :=
  match c with
  | CTime s None => inr (CTime s (Some tz))
  | CTime _ (Some _) => inl (TypeError "Already tz-aware")
  | CNaN => inr CNaN
  | CStr _ => inl (AttributeError "Can only use .dt accessor with datetimelike values")
  end.

Definition tz_localize (tz : string) (v : list Cell)
  : Exception + list Cell :=
  traverse (tz_localize_cell tz) v.

(** What a directory holds: the entries of the file system below it. *)
Definition below (p : Path) (f : gmap Path Node) : gmap Path Node :=
  filter (fun kv => p `prefix_of` kv.1 /\ kv.1 <> p) f.

(** [pd.read_parquet(path)].  A parquet file gives its frame.  Any other
    file is refused by pyarrow with [ArrowInvalid], a [ValueError].  A
    directory is read as a dataset: the empty frame when it holds
    nothing, and what pyarrow makes of its entries otherwise. *)
Definition read_parquet (E : Env) (p : Path) : M DataFrame :=
  fun w =>
    match fs w !! p with
    | Some (File (Parquet d)) => (inr d, w)
    | Some (File _) =>
        (inl (ValueError "ArrowInvalid: Parquet magic bytes not found in footer"), w)
    | Some Dir =>
        match map_to_list (below p (fs w)) with
        | [] => (inr empty_frame, w)
        | _ :: _ => (read_dataset E (below p (fs w)), w)
        end
    | None => (inl (OSError "No such file or directory"), w)
    end.

(** The catalog's [datetime_columns] lists, as the module creates them:
    the list of entry [i] of [mmsdm_tables] is at address [i]. *)
Definition initial_store : list (list string) :=
  [ ["SETTLEMENTDATE"];
    ["LASTCHANGED"; "DATETIME"];
    ["LASTCHANGED"; "SETTLEMENTDATE"];
    ["SETTLEMENTDATE"];
    ["LASTCHANGED"; "SETTLEMENTDATE"];
    ["LASTCHANGED"; "SETTLEMENTDATE"];
    ["RUN_DATETIME"; "INTERVAL_DATETIME"; "LASTCHANGED"];
    ["LASTCHANGED"; "DATETIME"];
    ["LASTCHANGED"; "DATETIME"] ].

(** ** Dates: [pd.date_range(start, end, freq="MS")] *)

(** Months are counted from year 0: the month [(y, m)] has number
    [12 y + (m - 1)]. *)
Definition month_number (y m : Z) : Z := 12 * y + (m - 1).

Definition month_of_number (k : Z) : Z * Z := (k `div` 12, k `mod` 12 + 1).

(** The first month start not before [start], then every month start up
    to [end_], as (year, month) pairs. *)
Definition month_starts (start end_ : Date) : list (Z * Z) :=
  let first :=
    if dday start =? 1 then month_number (dyear start) (dmonth start)
    else month_number (dyear start) (dmonth start) + 1 in
  let last := month_number (dyear end_) (dmonth end_) in
  map month_of_number (seqZ first (last - first + 1)).

(** Dates in calendar order. *)
Definition date_le (a b : Date) : Prop :=
  dyear a < dyear b \/
  (dyear a = dyear b /\
   (dmonth a < dmonth b \/ (dmonth a = dmonth b /\ dday a <= dday b))).

Definition valid_date (d : Date) : Prop :=
  1 <= dmonth d <= 12 /\ 1 <= dday d <= 31.

Section Mmsdm.

Variable E : Env.

Definition mmsdm_tables : list MMSDMTable :=
  [ {| name := "dispatch-price"; table := "DISPATCHPRICE";
       directory := "DATA"; datetime_columns := Some 0%nat;
       interval_column := Some "SETTLEMENTDATE";
       frequency := Some (Minutes 5); legacy_table := None |};
    {| name := "predispatch"; table := "PREDISPATCHPRICE#ALL#FILE01";
       directory := "PREDISP_ALL_DATA"; datetime_columns := Some 1%nat;
       interval_column := Some "DATETIME";
       frequency := Some (Minutes 30);
       legacy_table := Some "PREDISPATCHPRICE" |};
    {| name := "unit-scada"; table := "DISPATCH_UNIT_SCADA";
       directory := "DATA"; datetime_columns := Some 2%nat;
       interval_column := Some "SETTLEMENTDATE";
       frequency := Some (Minutes 5); legacy_table := None |};
    {| name := "trading-price"; table := "TRADINGPRICE";
       directory := "DATA"; datetime_columns := Some 3%nat;
       interval_column := Some "SETTLEMENTDATE";
       frequency :=
         Some (Varying
                 {| frequency_minutes_before := 30;
                    transition_datetime_interval_end := transition E;
                    frequency_minutes_after := 5 |});
       legacy_table := None |};
    {| name := "demand"; table := "DISPATCHREGIONSUM";
       directory := "DATA"; datetime_columns := Some 4%nat;
       interval_column := Some "SETTLEMENTDATE";
       frequency := Some (Minutes 5); legacy_table := None |};
    {| name := "interconnectors"; table := "DISPATCHINTERCONNECTORRES";
       directory := "DATA"; datetime_columns := Some 5%nat;
       interval_column := Some "SETTLEMENTDATE";
       frequency := Some (Minutes 5); legacy_table := None |};
    {| name := "p5min"; table := "P5MIN_REGIONSOLUTION_ALL#ALL#FILE01";
       directory := "P5MIN_ALL_DATA"; datetime_columns := Some 6%nat;
       interval_column := Some "INTERVAL_DATETIME";
       frequency := Some (Minutes 5);
       legacy_table := Some "P5MIN_REGIONSOLUTION_ALL" |};
    {| name := "predispatch-sensitivities";
       table := "PREDISPATCHPRICESENSITIVITIE_D";
       directory := "DATA"; datetime_columns := Some 7%nat;
       interval_column := Some "DATETIME";
       frequency := Some (Minutes 30); legacy_table := None |};
    {| name := "predispatch-demand";
       table := "PREDISPATCHREGIONSUM#ALL#FILE01";
       directory := "PREDISP_ALL_DATA"; datetime_columns := Some 8%nat;
       interval_column := Some "DATETIME";
       frequency := Some (Minutes 30);
       legacy_table := Some "PREDISPATCHREGIONSUM" |} ].

(** The loop of [find_mmsdm_table], over any list of tables. *)
Definition first_named (tables : list MMSDMTable) (n : string)
  : option MMSDMTable :=
  find (fun t => String.eqb (name t) n) tables.

Definition not_found (tables : list MMSDMTable) (n : string) : string :=
  "MMSDMTable " +:+ n +:+ " not found - tables available are "
    +:+ Py.repr_list (map name tables).

Definition find_mmsdm_table (n : string) : Exception + MMSDMTable :=
  match first_named mmsdm_tables n with
  | Some t => inr t
  | None => inl (ValueError (not_found mmsdm_tables n))
  end.

Definition make_one_mmsdm_file (year month : Z) (t : MMSDMTable)
  (base_directory : Path) : M MMSDMFile.t :=
  let padded_month := Py.zfill 2 (Py.str month) in
  let url_prefix :=
    "https://www.nemweb.com.au/Data_Archive/Wholesale_Electricity/MMSDM/"
      +:+ Py.str year +:+ "/MMSDM_" +:+ Py.str year +:+ "_"
      +:+ padded_month +:+ "/MMSDM_Historical_Data_SQLLoader" in
  let legacy_table_name :=
    match legacy_table t with
    | Some l => if String.eqb l "" then table t else l
    | None => table t
    end in
  let '(url, csv_name) :=
    if Py.pair_geb (year, month) (2024, 8)
    then
      (Py.replace "#" "%23"
         (url_prefix +:+ "/" +:+ directory t +:+ "/PUBLIC_ARCHIVE#"
            +:+ table t +:+ "#" +:+ Py.str year +:+ padded_month
            +:+ "010000.zip"),
       "PUBLIC_ARCHIVE#" +:+ table t +:+ "#" +:+ Py.str year
         +:+ padded_month +:+ "010000.CSV")
    else
      (url_prefix +:+ "/" +:+ directory t +:+ "/PUBLIC_DVD_"
         +:+ legacy_table_name +:+ "_" +:+ Py.str year +:+ padded_month
         +:+ "010000.zip",
       "PUBLIC_DVD_" +:+ legacy_table_name +:+ "_" +:+ Py.str year
         +:+ padded_month +:+ "010000.CSV") in
  let data_directory :=
    base_directory // name t // (Py.str year +:+ "-" +:+ padded_month) in
  mkdir data_directory ;;;
  ret {| MMSDMFile.year := year;
         MMSDMFile.month := month;
         MMSDMFile.table := t;
         MMSDMFile.url := url;
         MMSDMFile.csv_name := csv_name;
         MMSDMFile.data_directory := data_directory;
         MMSDMFile.zipfile_path := data_directory // "raw.zip" |}.

(** [pd.date_range(start=start, end=end, freq="MS")], by year and
    month. *)
Definition date_range (start end_ : string) : Exception + list (Z * Z) :=
  match to_timestamp E start, to_timestamp E end_ with
  | Some s, Some e => inr (month_starts s e)
  | _, _ => inl (ValueError "Unknown datetime string format")
  end.

Definition make_many_mmsdm_files (start end_ : string) (t : MMSDMTable)
  (base_directory : Path) : M (list MMSDMFile.t) :=
  t <- lift (find_mmsdm_table (name t)) ;;
  months <- lift (date_range start end_) ;;
  for_each (fun ym => make_one_mmsdm_file ym.1 ym.2 t base_directory)
           months.

Definition load_unzipped_mmsdm_file (mmsdm_file : MMSDMFile.t)
  (skiprows : nat) (tail : Z) : M DataFrame :=
  let path :=
    MMSDMFile.data_directory mmsdm_file // MMSDMFile.csv_name mmsdm_file in
  c <- read path ;;
  match c with
  | Bytes text =>
      data <- lift (read_csv E text skiprows) ;;
      ret (iloc_rows_to tail data)
  | _ => raise (ParserError "Error tokenizing data")
  end.

(** [pd.to_datetime(series)]. *)
Definition to_datetime_cell (c : Cell) : Exception + Cell :=
  match c with
  | CStr s =>
      match to_datetime E s with
      | Some t => inr (CTime t None)
      | None => inl (ValueError "Unknown datetime string format")
      end
  | _ => inr c
  end.

Definition pd_to_datetime (v : list Cell) : Exception + list Cell :=
  traverse to_datetime_cell v.

(** One round of the loop of [make_datetime_columns]; the [KeyError] of
    a column the data does not have is passed over. *)
Definition localize (data : DataFrame) (col : string)
  : Exception + DataFrame :=
  match getitem data col with
  | inl (KeyError _) => inr data
  | inl e => inl e
  | inr v =>
      and_then (pd_to_datetime v) (fun v1 =>
      let data1 := setitem data col v1 in
      match getitem data1 col with
      | inl (KeyError _) => inr data1
      | inl e => inl e
      | inr v1' =>
          and_then (tz_localize (nem_tz E) v1') (fun v2 =>
          inr (setitem data1 col v2))
      end)
  end.

Fixpoint localize_all (data : DataFrame) (cols : list string)
  : Exception + DataFrame :=
  match cols with
  | [] => inr data
  | col :: rest =>
      and_then (localize data col) (fun data' => localize_all data' rest)
  end.

(** [assert table.datetime_columns]: neither [None] nor empty. *)
Definition assert_datetime_columns (t : MMSDMTable) : M nat :=
  match datetime_columns t with
  | None => raise AssertionError
  | Some l =>
      cols <- load l ;;
      match cols with
      | [] => raise AssertionError
      | _ => ret l
      end
  end.

Definition make_datetime_columns (data : DataFrame) (t : MMSDMTable)
  : M DataFrame :=
  l <- assert_datetime_columns t ;;
  extend l ["interval-start"; "interval-end"] ;;;
  cols <- load l ;;
  lift (localize_all data cols).

Definition minutes_at (f : Frequency) (t : Z) : Z :=
  match f with
  | Minutes n => n
  | Varying v =>
      if transition_datetime_interval_end v <=? t
      then frequency_minutes_after v
      else frequency_minutes_before v
  end.

Definition interval_of (f : Frequency) (c : Cell)
  : Exception + Cell * Cell :=
  match c with
  | CTime t tz => inr (CTime (t - 60 * minutes_at f t) tz, CTime t tz)
  | CNaN => inr (CNaN, CNaN)
  | CStr _ => inl (TypeError "unsupported operand type(s) for -")
  end.

(** Modelled from the spec: [utils.add_interval_column] is not part of
    the sources at hand.  From the interval column and the frequency of
    the table it adds the columns "interval-start" and "interval-end":
    the end is the value of the interval column, the start is the end
    less the frequency in minutes; a variable frequency is the one after
    the transition for a row at or after the transition instant and the
    one before it otherwise.  The spec is silent on a table without an
    interval column or frequency and on a value that is no timestamp:
    these are errors here. *)
Definition add_interval_column (data : DataFrame) (t : MMSDMTable)
  : Exception + DataFrame :=
  match interval_column t, frequency t with
  | Some col, Some f =>
      and_then (getitem data col) (fun v =>
      and_then (traverse (interval_of f) v) (fun bounds =>
      inr (setitem (setitem data "interval-start" (map fst bounds))
                   "interval-end" (map snd bounds))))
  | _, _ => inl (TypeError "no interval column or frequency")
  end.

Definition check_for_additional_files (mmsdm_file : MMSDMFile.t)
  : M unit :=
  if negb (Py.contains "FILE01" (MMSDMFile.url mmsdm_file)) then ret tt
  else
    let file02_url :=
      Py.replace "FILE01" "FILE02" (MMSDMFile.url mmsdm_file) in
    send HEAD file02_url ;;;
    match http_head E file02_url with
    | Some 200 =>
        warn ("Multiple files exist for "
                +:+ name (MMSDMFile.table mmsdm_file) +:+ " ("
                +:+ Py.str (MMSDMFile.year mmsdm_file) +:+ "-"
                +:+ Py.zfill 2 (Py.str (MMSDMFile.month mmsdm_file))
                +:+ "). Only FILE01 is being downloaded. Additional files (FILE02, etc.) are not supported.")
    | _ => ret tt
    end.

(** Modelled from the spec: [utils.download_zipfile] is not part of the
    sources at hand.  It retrieves the raw archive from the URL of the
    file and stores it at [zipfile_path]; a resource the server does not
    have is no error: nothing is stored and the answer is [False]. *)
Definition download_zipfile (mmsdm_file : MMSDMFile.t) : M bool :=
  send GET (MMSDMFile.url mmsdm_file) ;;;
  match http_get E (MMSDMFile.url mmsdm_file) with
  | None => ret false
  | Some body =>
      write (MMSDMFile.zipfile_path mmsdm_file) body ;;; ret true
  end.

(** Modelled from the spec: [utils.unzip] is not part of the sources at
    hand.  Given the local path of an archive it produces the extracted
    files in the same directory: every member becomes an entry of the
    directory of the archive. *)
Definition unzip (p : Path) : M unit :=
  c <- read p ;;
  match c with
  | Archive members =>
      for_each (fun m => write (entry (parent p) m.1) (Bytes m.2)) members ;;;
      ret tt
  | _ => raise (OSError "File is not a zip file")
  end.

Definition status (tag : string) (p : Path) : string :=
  tag +:+ Py.join " " (Py.last_n 5 p).

Definition download_one_mmsdm (t : MMSDMTable) (mmsdm_file : MMSDMFile.t)
  (dry_run : bool) : M (option DataFrame) :=
  let clean_fi := MMSDMFile.data_directory mmsdm_file // "clean.parquet" in
  cached <- exists_ clean_fi ;;
  if cached then
    print (status " [blue]CACHED[/] " clean_fi) ;;;
    data <- read_parquet E clean_fi ;;
    ret (Some data)
  else
    print (status " [blue]NOT CACHED[/] " clean_fi) ;;;
    check_for_additional_files mmsdm_file ;;;
    data_available <- download_zipfile mmsdm_file ;;
    if negb data_available then
      print (status " [red]NOT AVAILABLE[/] "
                    (MMSDMFile.zipfile_path mmsdm_file)) ;;;
      ret None
    else
      print (status " [green]DOWNLOADING[/] "
                    (MMSDMFile.zipfile_path mmsdm_file)) ;;;
      unzip (MMSDMFile.zipfile_path mmsdm_file) ;;;
      data <- load_unzipped_mmsdm_file mmsdm_file 1 (-1) ;;
      assert_datetime_columns t ;;;
      data <- make_datetime_columns data t ;;
      data <- lift (add_interval_column data t) ;;
      (if negb dry_run then
         print (" [green]SAVING [/] " +:+ path_str clean_fi) ;;;
         write (with_suffix clean_fi ".csv") (Bytes (to_csv E data)) ;;;
         write (with_suffix clean_fi ".parquet") (Parquet data)
       else ret tt) ;;;
      ret (Some data).

Definition download_mmsdm (start end_ table_name : string)
  (base_directory : Path) (dry_run : bool) : M DataFrame :=
  t <- lift (find_mmsdm_table table_name) ;;
  files <- make_many_mmsdm_files start end_ t base_directory ;;
  dataset <- for_each (fun f => download_one_mmsdm t f dry_run) files ;;
  match pd_concat (omap id dataset) with
  | inr data => ret data
  | inl (ValueError _) => ret empty_frame
  | inl e => raise e
  end.

End Mmsdm.

(** ** A small world for examples

    Stand-ins for what comes from outside: ISO dates for the range, a
    count of seconds for a timestamp in a file, comma-separated lines for
    [read_csv], and a server that has one archive only. *)

Module Bench.

Definition digit (c : ascii) : option Z :=
  let n := nat_of_ascii c in
  if ((48 <=? n) && (n <=? 57))%nat then Some (Z.of_nat (n - 48)) else None.

Fixpoint number_go (acc : Z) (s : string) : option Z :=
  match s with
  | EmptyString => Some acc
  | String c rest =>
      match digit c with
      | Some d => number_go (10 * acc + d) rest
      | None => None
      end
  end.

Definition number (s : string) : option Z :=
  match s with
  | EmptyString => None
  | _ => number_go 0 s
  end.

Fixpoint split_go (sep : ascii) (cur : string) (s : string) : list string :=
  match s with
  | EmptyString => [cur]
  | String c rest =>
      if Ascii.eqb c sep then cur :: split_go sep "" rest
      else split_go sep (cur +:+ String c "") rest
  end.

Definition split (sep : ascii) (s : string) : list string :=
  split_go sep "" s.

(** "YYYY-MM" (the first of the month) and "YYYY-MM-DD". *)
Definition iso_date (s : string) : option Date :=
  let date y m d :=
    if ((1 <=? m) && (m <=? 12) && (1 <=? d) && (d <=? 31))%bool
    then Some {| dyear := y; dmonth := m; dday := d |} else None in
  match split "-" s with
  | [y; m] =>
      match number y, number m with
      | Some y, Some m => date y m 1
      | _, _ => None
      end
  | [y; m; d] =>
      match number y, number m, number d with
      | Some y, Some m, Some d => date y m d
      | _, _, _ => None
      end
  | _ => None
  end.

Definition newline : ascii := ascii_of_nat 10.

Definition lines (l : list string) : string :=
  Py.join (String newline "") l.

(** Lines of comma-separated fields; the first line kept is the
    header. *)
Definition csv (text : string) (skiprows : nat) : Exception + DataFrame :=
  match map (split ",") (drop skiprows (split newline text)) with
  | header :: rows =>
      inr {| index := seqZ 0 (Z.of_nat (length rows));
             columns :=
               imap (fun j c =>
                       (c, map (fun row =>
                                  match row !! j with
                                  | Some x => CStr x
                                  | None => CNaN
                                  end) rows))
                    header |}
  | [] => inl (ParserError "No columns to parse from file")
  end.

Definition payload : string :=
  lines [ "C,NEMP.WORLD,DISPATCHPRICE";
          "SETTLEMENTDATE,RRP";
          "1577800800,57.3";
          "1577801100,60.1";
          "C,END OF REPORT" ].

Definition archive_url : string :=
  "https://www.nemweb.com.au/Data_Archive/Wholesale_Electricity/MMSDM/2020/MMSDM_2020_01/MMSDM_Historical_Data_SQLLoader/DATA/PUBLIC_DVD_DISPATCHPRICE_202001010000.zip".

Definition env : Env :=
  {| nem_tz := "Etc/GMT-10";
     transition := 1633046700;
     to_timestamp := iso_date;
     to_datetime := number;
     read_csv := csv;
     to_csv := fun _ => "";
     read_dataset := fun _ => inl (ValueError "ArrowInvalid");
     http_head := fun _ => Some 404;
     http_get := fun u =>
       if String.eqb u archive_url
       then Some (Archive [("PUBLIC_DVD_DISPATCHPRICE_202001010000.CSV",
                            payload)])
       else None |}.

(** The module just loaded, on an empty disk. *)
Definition world : World :=
  {| store := initial_store; fs := ∅; stdout := []; warned := [];
     sent := [] |}.

Definition base : Path := ["/"; "data"].

Definition no_table : MMSDMTable :=
  {| name := ""; table := ""; directory := ""; datetime_columns := None;
     interval_column := None; frequency := None; legacy_table := None |}.

Definition dispatch_price : MMSDMTable := nth 0 (mmsdm_tables env) no_table.

Definition predispatch : MMSDMTable := nth 1 (mmsdm_tables env) no_table.

Definition trading_price : MMSDMTable := nth 3 (mmsdm_tables env) no_table.

End Bench.

(** ** Notions the properties are stated with *)

(** Every '#' written as "%23", every other character as it is. *)
Fixpoint percent_encode (s : string) : string :=
  match s with
  | EmptyString => ""
  | String c rest =>
      if Ascii.eqb c "#" then "%23" +:+ percent_encode rest
      else String c (percent_encode rest)
  end.

(** A month of the calendar in two digits. *)
Definition two_digits (m : Z) : string :=
  if m <? 10 then "0" +:+ Py.str m else Py.str m.

(** The naming scheme changed with August 2024. *)
Definition from_cutover (y m : Z) : Prop := 2024 < y \/ (y = 2024 /\ 8 <= m).

Definition before_cutover (y m : Z) : Prop := y < 2024 \/ (y = 2024 /\ m < 8).

(** The persisted artifact of a resolved file. *)
Definition clean_fi (f : MMSDMFile.t) : Path :=
  MMSDMFile.data_directory f // "clean.parquet".

(** The first day of a month, and months in calendar order. *)
Definition first_of_month (y m : Z) : Date :=
  {| dyear := y; dmonth := m; dday := 1 |}.

Definition month_lt (a b : Z * Z) : Prop :=
  a.1 < b.1 \/ (a.1 = b.1 /\ a.2 < b.2).

(** The name of the directory of a period. *)
Definition period (y m : Z) : string :=
  Py.str y +:+ "-" +:+ Py.zfill 2 (Py.str m).

(** No regular file is in the way of the directory of any period of the
    table named [n]. *)
Definition clear_for (f : gmap Path Node) (base : Path) (n : string) : Prop :=
  forall y m q, q ∈ prefixes (base // n // period y m) ->
                is_file f q = false.

(** A name that is one part of a path: it has no '/', and is neither
    empty nor ".". *)
Definition plain_part (s : string) : bool :=
  (negb (Py.has_char "/" s) && negb (String.eqb s "")
   && negb (String.eqb s "."))%bool.




(** [p] is an entry of the directory [dd]. *)
Definition within (dd : Path) (p : Path) : Prop := exists x, p = entry dd x.

(** How a computation may change the world when it writes only to paths
    in [P]: output and requests are added at the end, paths outside [P]
    keep their content, a directory stays a directory and nothing is
    removed. *)
Definition evolves (P : Path -> Prop) (w w' : World) : Prop :=
  stdout w `prefix_of` stdout w' /\
  sent w `prefix_of` sent w' /\
  (forall p, ~ P p -> fs w' !! p = fs w !! p) /\
  (forall p, fs w !! p = Some Dir -> fs w' !! p = Some Dir) /\
  (forall p, is_Some (fs w !! p) -> is_Some (fs w' !! p)).

(** Every run of [m] changes the world by [R]. *)
Definition preserves {A} (R : World -> World -> Prop) (m : M A) : Prop :=
  forall w, R w (m w).2.

(** Every path may be written. *)
Definition anywhere (p : Path) : Prop := True.

(** How resolving files under [base] may change the world: directories
    appear, no deeper than [base/name/year-month], and nothing else
    changes. *)
Definition resolves (base : Path) (w w' : World) : Prop :=
  store w' = store w /\ stdout w' = stdout w /\ warned w' = warned w /\
  sent w' = sent w /\
  forall k : Path, fs w' !! k = fs w !! k \/
            (fs w !! k = None /\ fs w' !! k = Some Dir /\
             (length k <= length base + 2)%nat).

(** A file resolved under [base] for the table [c], whose name is one
    part: the data directory is two levels below [base]. *)
Definition resolved_for (base : Path) (c : MMSDMTable) (f : MMSDMFile.t)
  : Prop :=
  MMSDMFile.table f = c /\
  length (MMSDMFile.data_directory f) = (length base + 2)%nat /\
  MMSDMFile.zipfile_path f = MMSDMFile.data_directory f // "raw.zip".

(** Nothing at or below [p] differs between the two worlds. *)
Definition untouched (p : Path) (w w' : World) : Prop :=
  forall k : Path, p `prefix_of` k -> fs w' !! k = fs w !! k.

(** What a period that returned [r] leaves for a later run: an artifact
    that reads back as the data returned, or, when nothing was returned,
    no artifact and no archive on the server. *)
Definition leaves (E : Env) (w : World) (f : MMSDMFile.t)
  (r : option DataFrame) : Prop :=
  match r with
  | Some d => read_parquet E (clean_fi f) w = (inr d, w)
  | None =>
      fs w !! clean_fi f = None /\ http_get E (MMSDMFile.url f) = None
  end.

(** What a run with persistence does to the artifact of a period that
    returned [r]: it leaves what is there as it is, or, where there was
    none and the server has the archive, it writes the data returned. *)
Definition kept_or_saved (E : Env) (w w' : World) (f : MMSDMFile.t)
  (r : option DataFrame) : Prop :=
  fs w' !! clean_fi f = fs w !! clean_fi f \/
  (fs w !! clean_fi f = None /\
   is_Some (http_get E (MMSDMFile.url f)) /\
   exists d, r = Some d /\ fs w' !! clean_fi f = Some (File (Parquet d))).

(** The line printed for a period found in the cache. *)
Definition cached_line (f : MMSDMFile.t) : string :=
  status " [blue]CACHED[/] " (clean_fi f).

(** The request [check_for_additional_files] sends for a file, if any. *)
Definition probe (f : MMSDMFile.t) : list (Method * string) :=
  if Py.contains "FILE01" (MMSDMFile.url f)
  then [(HEAD, Py.replace "FILE01" "FILE02" (MMSDMFile.url f))]
  else [].

(** What a run prints and requests for a period in a world where every
    period either has its artifact or is not on the server. *)
Definition report (w : World) (f : MMSDMFile.t) : list string :=
  if bool_decide (is_Some (fs w !! clean_fi f))
  then [cached_line f]
  else [status " [blue]NOT CACHED[/] " (clean_fi f);
        status " [red]NOT AVAILABLE[/] " (MMSDMFile.zipfile_path f)].

Definition requests (w : World) (f : MMSDMFile.t) : list (Method * string) :=
  if bool_decide (is_Some (fs w !! clean_fi f))
  then []
  else probe f ++ [(GET, MMSDMFile.url f)].

(** * Properties *)

(** ** Strings *)

Lemma append_nil (b : string) : "" +:+ b = b.
Proof. reflexivity. Qed.

Lemma append_cons (c : ascii) (a b : string) :
  String c a +:+ b = String c (a +:+ b).
Proof. reflexivity. Qed.

Ltac push_append := rewrite ?append_cons, ?append_nil.

Lemma append_assoc (a b c : string) : (a +:+ b) +:+ c = a +:+ (b +:+ c).
Proof.
  induction a as [|x a IH]; push_append; [reflexivity | now rewrite IH].
Qed.


Lemma has_char_app (c : ascii) (a b : string) :
  Py.has_char c (a +:+ b) = (Py.has_char c a || Py.has_char c b)%bool.
Proof.
  induction a as [|x a IH]; push_append; cbn [Py.has_char]; [reflexivity|].
  rewrite IH. now rewrite orb_assoc.
Qed.

Lemma replace_go_hash (s : string) :
  Py.replace_go "#" "%23" 0 s = percent_encode s.
Proof.
  induction s as [|c s IH]; [reflexivity|].
  cbn [Py.replace_go percent_encode].
  destruct (Ascii.eqb_spec c "#") as [->|Hc].
  - replace (String.prefix "#" (String "#" s)) with true
      by (now destruct s).
    cbn [String.length Nat.sub]. now rewrite IH.
  - replace (String.prefix "#" (String c s)) with false.
    + now rewrite IH.
    + cbn [String.prefix]. destruct (ascii_dec "#" c); [now subst|reflexivity].
Qed.

Lemma replace_hash (s : string) : Py.replace "#" "%23" s = percent_encode s.
Proof. exact (replace_go_hash s). Qed.

Lemma percent_encode_app (a b : string) :
  percent_encode (a +:+ b) = percent_encode a +:+ percent_encode b.
Proof.
  induction a as [|c a IH]; push_append; cbn [percent_encode];
    [reflexivity|].
  destruct (Ascii.eqb c "#"); push_append; now rewrite IH.
Qed.

Lemma percent_encode_plain (s : string) :
  Py.has_char "#" s = false -> percent_encode s = s.
Proof.
  induction s as [|c s IH]; cbn [Py.has_char percent_encode]; [reflexivity|].
  rewrite (Ascii.eqb_sym "#" c).
  destruct (Ascii.eqb c "#"); cbn [orb]; [discriminate|].
  intros H. now rewrite IH.
Qed.

Lemma percent_encode_no_hash (s : string) :
  Py.has_char "#" (percent_encode s) = false.
Proof.
  induction s as [|c s IH]; cbn [percent_encode]; [reflexivity|].
  destruct (Ascii.eqb c "#") eqn:Hc; push_append.
  - cbn [Py.has_char]. rewrite IH. reflexivity.
  - cbn [Py.has_char]. now rewrite (Ascii.eqb_sym "#" c), Hc.
Qed.

(** The decimal digits of a number hold no '#'. *)
Lemma pretty_N_go_no_hash (x : N) (s : string) :
  Py.has_char "#" s = false -> Py.has_char "#" (pretty_N_go x s) = false.
Proof.
  revert s. induction (N.lt_wf_0 x) as [x _ IH]; intros s Hs.
  destruct (decide (x = 0)%N) as [->|Hx].
  - now rewrite pretty_N_go_0.
  - rewrite pretty_N_go_step by lia.
    apply IH; [apply N.div_lt; lia|].
    cbn [Py.has_char]. rewrite Hs, orb_false_r.
    unfold pretty_N_char. now repeat case_match.
Qed.

Lemma str_no_hash (z : Z) : Py.has_char "#" (Py.str z) = false.
Proof.
  unfold Py.str, pretty, pretty_Z.
  destruct z as [|p|p]; [reflexivity| |].
  - unfold pretty, pretty_positive, pretty, pretty_N.
    case_decide; [reflexivity|]. now apply pretty_N_go_no_hash.
  - rewrite has_char_app. simpl.
    unfold pretty, pretty_positive, pretty, pretty_N.
    case_decide; [reflexivity|]. now apply pretty_N_go_no_hash.
Qed.

Lemma zfill_month (m : Z) :
  1 <= m <= 12 -> Py.zfill 2 (Py.str m) = two_digits m.
Proof.
  intros H.
  assert (m = 1 \/ m = 2 \/ m = 3 \/ m = 4 \/ m = 5 \/ m = 6 \/ m = 7 \/
          m = 8 \/ m = 9 \/ m = 10 \/ m = 11 \/ m = 12) as Hm by lia.
  repeat (destruct Hm as [->|Hm]; [reflexivity|]).
  now subst.
Qed.

Lemma two_digits_no_hash (m : Z) : Py.has_char "#" (two_digits m) = false.
Proof.
  unfold two_digits. destruct (m <? 10); [|apply str_no_hash].
  rewrite has_char_app, str_no_hash. reflexivity.
Qed.

Lemma pair_geb_cutover (y m : Z) :
  Py.pair_geb (y, m) (2024, 8) = true <-> from_cutover y m.
Proof. unfold Py.pair_geb, from_cutover. simpl. lia. Qed.

Lemma pair_geb_before (y m : Z) :
  Py.pair_geb (y, m) (2024, 8) = false <-> before_cutover y m.
Proof. unfold Py.pair_geb, before_cutover. simpl. lia. Qed.

(** ** The catalog and its lookup *)

Lemma first_named_Some (tables : list MMSDMTable) (n : string) (t : MMSDMTable) :
  first_named tables n = Some t -> t ∈ tables /\ name t = n.
Proof.
  unfold first_named. intros H. apply find_some in H as [Hin Hn].
  split; [now apply list_elem_of_In | now apply String.eqb_eq].
Qed.

Lemma first_named_None (tables : list MMSDMTable) (n : string) :
  first_named tables n = None <-> (forall t, t ∈ tables -> name t <> n).
Proof.
  unfold first_named. split.
  - intros H t Hin. apply list_elem_of_In in Hin.
    apply String.eqb_neq. exact (find_none _ _ H t Hin).
  - intros H. destruct (find _ tables) as [t|] eqn:Hf; [|reflexivity].
    apply find_some in Hf as [Hin Hn].
    apply list_elem_of_In in Hin. apply String.eqb_eq in Hn.
    now destruct (H t Hin).
Qed.

Lemma first_named_unique (tables : list MMSDMTable) (n : string) (t : MMSDMTable) :
  NoDup (map name tables) -> t ∈ tables -> name t = n ->
  first_named tables n = Some t.
Proof.
  unfold first_named.
  induction tables as [|u tables IH]; intros Hnd Hin Hn.
  - now apply elem_of_nil in Hin.
  - cbn [map] in Hnd. apply NoDup_cons in Hnd as [Hu Hnd].
    cbn [find]. apply elem_of_cons in Hin as [->|Hin].
    + now rewrite (proj2 (String.eqb_eq _ _) Hn).
    + destruct (String.eqb_spec (name u) n) as [Heq|_]; [|now apply IH].
      destruct Hu. rewrite Heq, <- Hn.
      apply list_elem_of_fmap. now exists t.
Qed.

Lemma mmsdm_tables_names (E : Env) :
  map name (mmsdm_tables E) =
  ["dispatch-price"; "predispatch"; "unit-scada"; "trading-price"; "demand";
   "interconnectors"; "p5min"; "predispatch-sensitivities";
   "predispatch-demand"].
Proof. reflexivity. Qed.

Lemma mmsdm_tables_NoDup (E : Env) : NoDup (map name (mmsdm_tables E)).
Proof.
  rewrite mmsdm_tables_names.
  apply (bool_decide_unpack _). vm_compute. exact I.
Qed.

(** C9.  The lookup answers with the one catalog entry of the requested
    name when there is one; when there is none it raises a [ValueError]
    whose message gives the requested name and the names of all entries.
    It has no other answer: no default is returned. *)
Theorem find_mmsdm_table_found_or_fails (E : Env) (n : string) :
  (forall t, t ∈ mmsdm_tables E -> name t = n ->
             find_mmsdm_table E n = inr t) /\
  (forall t, find_mmsdm_table E n = inr t ->
             t ∈ mmsdm_tables E /\ name t = n) /\
  ((forall t, t ∈ mmsdm_tables E -> name t <> n) ->
   find_mmsdm_table E n =
   inl (ValueError
          ("MMSDMTable " +:+ n +:+
           " not found - tables available are ['dispatch-price', 'predispatch', 'unit-scada', 'trading-price', 'demand', 'interconnectors', 'p5min', 'predispatch-sensitivities', 'predispatch-demand']"))) /\
  (forall e, find_mmsdm_table E n = inl e ->
             forall t, t ∈ mmsdm_tables E -> name t <> n).
Proof.
  unfold find_mmsdm_table. split; [|split; [|split]].
  - intros t Hin Hn.
    now rewrite (first_named_unique _ _ _ (mmsdm_tables_NoDup E) Hin Hn).
  - intros t. destruct (first_named _ n) as [u|] eqn:Hf; [|discriminate].
    intros [= <-]. now apply first_named_Some in Hf.
  - intros Hnone. apply first_named_None in Hnone. rewrite Hnone.
    reflexivity.
  - intros e. destruct (first_named _ n) as [u|] eqn:Hf; [discriminate|].
    intros _. now apply first_named_None.
Qed.

(** ** Resolving one file *)

Lemma mkdir_inv (p : Path) (w w' : World) (u : unit) :
  mkdir p w = (inr u, w') ->
  existsb (is_file (fs w)) (prefixes p) = false /\
  w' = set_fs (foldr (fun q f => <[q := Dir]> f) (fs w) (prefixes p)) w.
Proof.
  unfold mkdir. destruct (existsb _ _); [discriminate|].
  intros [= _ <-]. split; reflexivity.
Qed.

Lemma mkdir_clear (p : Path) (w : World) :
  existsb (is_file (fs w)) (prefixes p) = false ->
  mkdir p w =
  (inr tt, set_fs (foldr (fun q f => <[q := Dir]> f) (fs w) (prefixes p)) w).
Proof. unfold mkdir. now intros ->. Qed.

(** What [make_one_mmsdm_file] returns, field by field, when it
    returns. *)
Lemma make_one_mmsdm_file_inv (year month : Z) (t : MMSDMTable)
  (base : Path) (w w' : World) (f : MMSDMFile.t) :
  make_one_mmsdm_file year month t base w = (inr f, w') ->
  let padded_month := Py.zfill 2 (Py.str month) in
  let url_prefix :=
    "https://www.nemweb.com.au/Data_Archive/Wholesale_Electricity/MMSDM/"
      +:+ Py.str year +:+ "/MMSDM_" +:+ Py.str year +:+ "_"
      +:+ padded_month +:+ "/MMSDM_Historical_Data_SQLLoader" in
  let legacy_table_name :=
    match legacy_table t with
    | Some l => if String.eqb l "" then table t else l
    | None => table t
    end in
  MMSDMFile.year f = year /\ MMSDMFile.month f = month /\
  MMSDMFile.table f = t /\
  MMSDMFile.url f =
    (if Py.pair_geb (year, month) (2024, 8)
     then Py.replace "#" "%23"
            (url_prefix +:+ "/" +:+ directory t +:+ "/PUBLIC_ARCHIVE#"
               +:+ table t +:+ "#" +:+ Py.str year +:+ padded_month
               +:+ "010000.zip")
     else url_prefix +:+ "/" +:+ directory t +:+ "/PUBLIC_DVD_"
            +:+ legacy_table_name +:+ "_" +:+ Py.str year +:+ padded_month
            +:+ "010000.zip") /\
  MMSDMFile.csv_name f =
    (if Py.pair_geb (year, month) (2024, 8)
     then "PUBLIC_ARCHIVE#" +:+ table t +:+ "#" +:+ Py.str year
            +:+ padded_month +:+ "010000.CSV"
     else "PUBLIC_DVD_" +:+ legacy_table_name +:+ "_" +:+ Py.str year
            +:+ padded_month +:+ "010000.CSV") /\
  MMSDMFile.data_directory f =
    base // name t // (Py.str year +:+ "-" +:+ padded_month) /\
  MMSDMFile.zipfile_path f = MMSDMFile.data_directory f // "raw.zip" /\
  mkdir (MMSDMFile.data_directory f) w = (inr tt, w').
Proof.
  unfold make_one_mmsdm_file, bind, ret.
  destruct (Py.pair_geb (year, month) (2024, 8));
    (destruct (mkdir _ w) as [[e|[]] w1] eqn:Hmk; [discriminate|]);
    intros [= <- <-]; cbn; repeat split; exact Hmk.
Qed.

Ltac eval_encode :=
  repeat match goal with
    | |- context [percent_encode (String ?c ?s)] =>
        let v := eval vm_compute in (percent_encode (String c s)) in
        change (percent_encode (String c s)) with v
    end.

(** C1.  For a month of the calendar, a file resolved for August 2024 or
    later has the "PUBLIC_ARCHIVE" names built on the primary identifier
    of the table, with every '#' of the URL written "%23" and the '#' of
    the name in the archive kept; a file resolved for an earlier month has
    the "PUBLIC_DVD" names, built on the legacy identifier when the table
    has one (an empty one counts as none) and on the primary identifier
    otherwise.  The file is returned whenever no regular file is in the
    way of its directory. *)
Theorem make_one_mmsdm_file_naming (E : Env) (t : MMSDMTable)
  (year month : Z) (base : Path) (w : World) :
  1 <= month <= 12 ->
  let mm := two_digits month in
  let stamp := Py.str year +:+ mm +:+ "010000" in
  let folder :=
    "https://www.nemweb.com.au/Data_Archive/Wholesale_Electricity/MMSDM/"
      +:+ Py.str year +:+ "/MMSDM_" +:+ Py.str year +:+ "_" +:+ mm
      +:+ "/MMSDM_Historical_Data_SQLLoader/" in
  (forall f w', make_one_mmsdm_file year month t base w = (inr f, w') ->
     (from_cutover year month ->
        MMSDMFile.url f =
          folder +:+ percent_encode (directory t) +:+ "/PUBLIC_ARCHIVE%23"
            +:+ percent_encode (table t) +:+ "%23" +:+ stamp +:+ ".zip" /\
        Py.has_char "#" (MMSDMFile.url f) = false /\
        MMSDMFile.csv_name f =
          "PUBLIC_ARCHIVE#" +:+ table t +:+ "#" +:+ stamp +:+ ".CSV") /\
     (before_cutover year month ->
        forall id,
          (legacy_table t = Some id /\ id <> "") \/
          ((legacy_table t = None \/ legacy_table t = Some "") /\
           id = table t) ->
          MMSDMFile.url f =
            folder +:+ directory t +:+ "/PUBLIC_DVD_" +:+ id +:+ "_"
              +:+ stamp +:+ ".zip" /\
          MMSDMFile.csv_name f =
            "PUBLIC_DVD_" +:+ id +:+ "_" +:+ stamp +:+ ".CSV")) /\
  ((forall q, q ∈ prefixes (base // name t // (Py.str year +:+ "-" +:+ mm)) ->
              is_file (fs w) q = false) ->
   exists f w', make_one_mmsdm_file year month t base w = (inr f, w')).
Proof.
  intros Hm mm stamp folder. split.
  - intros f w' Hrun.
    apply make_one_mmsdm_file_inv in Hrun
      as (_ & _ & _ & Hurl & Hcsv & _ & _ & _).
    rewrite (zfill_month month Hm) in Hurl, Hcsv. fold mm in Hurl, Hcsv.
    split.
    + intros Hcut. apply pair_geb_cutover in Hcut.
      rewrite Hcut in Hurl, Hcsv.
      assert (MMSDMFile.url f =
                folder +:+ percent_encode (directory t)
                  +:+ "/PUBLIC_ARCHIVE%23" +:+ percent_encode (table t)
                  +:+ "%23" +:+ stamp +:+ ".zip") as Hurl'.
      { rewrite Hurl, replace_hash. subst folder stamp.
        rewrite !percent_encode_app.
        rewrite !(percent_encode_plain (Py.str year)) by apply str_no_hash.
        rewrite !(percent_encode_plain mm) by apply two_digits_no_hash.
        eval_encode. rewrite !append_assoc. push_append. reflexivity. }
      split; [exact Hurl'|split].
      * rewrite Hurl'. subst folder stamp.
        rewrite !has_char_app, !percent_encode_no_hash, !str_no_hash.
        unfold mm. rewrite !two_digits_no_hash. reflexivity.
      * rewrite Hcsv. subst stamp.
        rewrite !append_assoc. push_append. reflexivity.
    + intros Hbefore id Hid. apply pair_geb_before in Hbefore.
      rewrite Hbefore in Hurl, Hcsv.
      assert (match legacy_table t with
              | Some l => if String.eqb l "" then table t else l
              | None => table t
              end = id) as Hleg.
      { destruct Hid as [[-> Hne]|[[-> | ->] ->]]; try reflexivity.
        now apply String.eqb_neq in Hne as ->. }
      rewrite Hleg in Hurl, Hcsv. rewrite Hurl, Hcsv. subst folder stamp.
      split; rewrite !append_assoc; push_append; reflexivity.
  - intros Hclear. unfold make_one_mmsdm_file, bind, ret.
    rewrite (zfill_month month Hm). fold mm.
    destruct (Py.pair_geb _ _); cbv beta iota zeta;
      (rewrite mkdir_clear; [eauto|]);
      apply not_true_is_false; intros Hex;
      apply existsb_exists in Hex as (q & Hq & Hfile);
      apply list_elem_of_In in Hq; rewrite (Hclear q Hq) in Hfile;
      discriminate.
Qed.

Lemma is_file_empty (q : Path) : is_file ∅ q = false.
Proof. unfold is_file. now rewrite lookup_empty. Qed.

Lemma make_one_mmsdm_file_naming_witness :
  1 <= 8 <= 12 /\
  exists f w',
    make_one_mmsdm_file 2024 8 Bench.predispatch Bench.base Bench.world
      = (inr f, w') /\
    MMSDMFile.url f =
      "https://www.nemweb.com.au/Data_Archive/Wholesale_Electricity/MMSDM/2024/MMSDM_2024_08/MMSDM_Historical_Data_SQLLoader/PREDISP_ALL_DATA/PUBLIC_ARCHIVE%23PREDISPATCHPRICE%23ALL%23FILE01%23202408010000.zip" /\
    MMSDMFile.csv_name f =
      "PUBLIC_ARCHIVE#PREDISPATCHPRICE#ALL#FILE01#202408010000.CSV".
Proof.
  assert (1 <= 8 <= 12) as Hm by lia.
  split; [exact Hm|].
  destruct (make_one_mmsdm_file_naming Bench.env Bench.predispatch 2024 8
              Bench.base Bench.world Hm) as [Hnames Hreturns].
  destruct Hreturns as (f & w' & Hrun).
  { intros q _. apply is_file_empty. }
  exists f, w'. split; [exact Hrun|].
  destruct (Hnames f w' Hrun) as [Hcut _].
  destruct Hcut as (Hurl & _ & Hcsv); [unfold from_cutover; lia|].
  rewrite Hurl, Hcsv. split; reflexivity.
Defined.

(** ** Loops *)

(** What a loop returns, element by element. *)
Lemma for_each_inv {A B} (body : A -> M B) (P : A -> B -> Prop) :
  (forall a w b w', body a w = (inr b, w') -> P a b) ->
  forall l w bs w', for_each body l w = (inr bs, w') -> Forall2 P l bs.
Proof.
  intros Hbody l. induction l as [|a l IH]; intros w bs w' Hrun.
  - cbn in Hrun. injection Hrun as <- _. constructor.
  - cbn [for_each] in Hrun. unfold bind in Hrun.
    destruct (body a w) as [[e|b] w1] eqn:Ha; [discriminate|].
    destruct (for_each body l w1) as [[e|bs'] w2] eqn:Hl; [discriminate|].
    injection Hrun as <- _.
    constructor; [now apply (Hbody a w b w1) | now apply (IH w1 bs' w2)].
Qed.

(** A loop returns when each round does, under an invariant of the
    world. *)
Lemma for_each_returns {A B} (body : A -> M B) (I : World -> Prop)
  (P : A -> B -> Prop) (l : list A) :
  (forall a w, a ∈ l -> I w ->
               exists b w', body a w = (inr b, w') /\ I w' /\ P a b) ->
  forall w, I w ->
            exists bs w', for_each body l w = (inr bs, w') /\ I w' /\
                          Forall2 P l bs.
Proof.
  induction l as [|a l IH]; intros Hbody w Hw.
  - exists [], w. repeat split; [assumption|constructor].
  - destruct (Hbody a w) as (b & w1 & Ha & Hw1 & Hp);
      [apply elem_of_cons; now left | assumption |].
    destruct (IH (fun a' w' Hin => Hbody a' w' (proj2 (elem_of_cons l a' a) (or_intror Hin)))
                w1 Hw1) as (bs & w2 & Hl & Hw2 & Hps).
    exists (b :: bs), w2. cbn [for_each]. unfold bind.
    rewrite Ha, Hl. repeat split; [assumption|now constructor].
Qed.

(** ** Resolving a range *)

(** C10.  Only the name of the descriptor passed in is read: when the
    catalog has an entry of that name, every descriptor of that name gives
    what the catalog entry itself gives, and every file resolved carries
    the catalog entry. *)
Theorem make_many_mmsdm_files_by_name (E : Env) (start end_ : string)
  (t c : MMSDMTable) (base : Path) (w : World) :
  find_mmsdm_table E (name t) = inr c ->
  (forall t', name t' = name t ->
     make_many_mmsdm_files E start end_ t' base w
     = make_many_mmsdm_files E start end_ c base w) /\
  (forall files w',
     make_many_mmsdm_files E start end_ t base w = (inr files, w') ->
     Forall (fun f => MMSDMFile.table f = c) files).
Proof.
  intros Hfind.
  assert (name c = name t) as Hc.
  { unfold find_mmsdm_table in Hfind.
    destruct (first_named _ _) as [u|] eqn:Hf; [|discriminate].
    injection Hfind as <-. now apply first_named_Some in Hf. }
  split.
  - intros t' Ht'. unfold make_many_mmsdm_files. now rewrite Ht', Hc.
  - intros files w'. unfold make_many_mmsdm_files, bind, lift.
    rewrite Hfind.
    destruct (date_range E start end_) as [e|months]; [discriminate|].
    intros Hrun.
    apply (for_each_inv _ (fun _ f => MMSDMFile.table f = c)) in Hrun.
    + clear -Hrun. induction Hrun; constructor; assumption.
    + intros ym w1 f w2 Hone.
      now apply make_one_mmsdm_file_inv in Hone as (_ & _ & Htable & _).
Qed.

Lemma make_many_mmsdm_files_by_name_witness :
  find_mmsdm_table Bench.env "predispatch" = inr Bench.predispatch /\
  make_many_mmsdm_files Bench.env "2024-07" "2024-08"
    {| name := "predispatch"; table := "OTHER"; directory := "ELSEWHERE";
       datetime_columns := None; interval_column := None;
       frequency := None; legacy_table := None |}
    Bench.base Bench.world
  = make_many_mmsdm_files Bench.env "2024-07" "2024-08" Bench.predispatch
      Bench.base Bench.world.
Proof.
  assert (find_mmsdm_table Bench.env "predispatch" = inr Bench.predispatch)
    as Hfind by reflexivity.
  split; [exact Hfind|].
  apply (make_many_mmsdm_files_by_name Bench.env "2024-07" "2024-08"
           Bench.predispatch Bench.predispatch Bench.base Bench.world Hfind).
  reflexivity.
Defined.

(** ** The months of a range *)

Lemma month_of_number_spec (k y m : Z) :
  month_of_number k = (y, m) <-> 1 <= m <= 12 /\ k = month_number y m.
Proof.
  unfold month_of_number, month_number. split.
  - intros [= <- <-]. Z.div_mod_to_equations. lia.
  - intros [Hm ->]. f_equal; Z.div_mod_to_equations; lia.
Qed.

Lemma month_of_number_lt (j k : Z) :
  j < k -> month_lt (month_of_number j) (month_of_number k).
Proof.
  unfold month_lt, month_of_number. cbn [fst snd]. intros H.
  Z.div_mod_to_equations. lia.
Qed.

Lemma elem_of_month_starts (s e : Date) (y m : Z) :
  valid_date s -> valid_date e ->
  (y, m) ∈ month_starts s e <->
  1 <= m <= 12 /\ date_le s (first_of_month y m) /\
  date_le (first_of_month y m) e.
Proof.
  intros [Hsm Hsd] [Hem Hed]. unfold month_starts.
  rewrite list_elem_of_fmap. unfold date_le, first_of_month. cbn.
  split.
  - intros (k & Hk & Hin). symmetry in Hk.
    apply month_of_number_spec in Hk as [Hm ->].
    apply elem_of_seqZ in Hin. unfold month_number in *.
    destruct (Z.eqb_spec (dday s) 1); lia.
  - intros (Hm & Hs & He). exists (month_number y m). split.
    + symmetry. now apply month_of_number_spec.
    + apply elem_of_seqZ. unfold month_number.
      destruct (Z.eqb_spec (dday s) 1); lia.
Qed.

Lemma month_starts_increasing (s e : Date) (i j : nat) (a b : Z * Z) :
  (i < j)%nat -> month_starts s e !! i = Some a ->
  month_starts s e !! j = Some b -> month_lt a b.
Proof.
  unfold month_starts. intros Hij Ha Hb.
  rewrite list_lookup_fmap in Ha, Hb.
  destruct (seqZ _ _ !! i) as [x|] eqn:Hx; [|discriminate].
  destruct (seqZ _ _ !! j) as [z|] eqn:Hz; [|discriminate].
  cbn in Ha, Hb. injection Ha as <-. injection Hb as <-.
  apply lookup_seqZ in Hx as [-> _]. apply lookup_seqZ in Hz as [-> _].
  apply month_of_number_lt. lia.
Qed.

Lemma month_starts_same_month (s e : Date) :
  valid_date s -> dyear s = dyear e -> dmonth s = dmonth e ->
  month_starts s e =
  if dday s =? 1 then [(dyear s, dmonth s)] else [].
Proof.
  intros [Hm _] Hy Hmm. unfold month_starts. rewrite <- Hy, <- Hmm.
  destruct (dday s =? 1).
  - replace (_ - _ + 1) with 1 by lia.
    rewrite seqZ_cons by lia. rewrite seqZ_nil by lia. cbn [map].
    f_equal. now apply month_of_number_spec.
  - rewrite seqZ_nil by lia. reflexivity.
Qed.

(** ** Directories *)

Lemma lookup_mkdirs (m : gmap Path Node) (l : list Path) (k : Path) :
  foldr (fun q f => <[q := Dir]> f) m l !! k =
  if decide (k ∈ l) then Some Dir else m !! k.
Proof.
  induction l as [|q l IH]; cbn [foldr].
  - destruct (decide (k ∈ [])) as [H|_]; [|reflexivity].
    now apply elem_of_nil in H.
  - destruct (decide (k ∈ q :: l)) as [Hin|Hout].
    + destruct (decide (q = k)) as [->|Hne]; [apply lookup_insert_eq|].
      rewrite lookup_insert_ne by assumption. rewrite IH.
      apply elem_of_cons in Hin as [->|Hin]; [now destruct Hne|].
      now rewrite decide_True.
    + rewrite lookup_insert_ne.
      * rewrite IH. rewrite decide_False; [reflexivity|].
        intros Hin. apply Hout, elem_of_cons. now right.
      * intros ->. apply Hout, elem_of_cons. now left.
Qed.

Lemma existsb_is_file_false (f : gmap Path Node) (l : list Path) :
  existsb (is_file f) l = false <-> (forall q, q ∈ l -> is_file f q = false).
Proof.
  split.
  - intros H q Hq. apply list_elem_of_In in Hq.
    destruct (is_file f q) eqn:Hf; [|reflexivity].
    assert (existsb (is_file f) l = true) as Ht
      by (apply existsb_exists; eauto).
    congruence.
  - intros H. apply not_true_is_false. intros Hex.
    apply existsb_exists in Hex as (q & Hq & Hf).
    apply list_elem_of_In in Hq. rewrite (H q Hq) in Hf. discriminate.
Qed.

(** [mkdir] adds directories and nothing else. *)
Lemma mkdir_lookup (p : Path) (w w' : World) (u : unit) (k : Path) :
  mkdir p w = (inr u, w') ->
  fs w' !! k = if decide (k ∈ prefixes p) then Some Dir else fs w !! k.
Proof.
  intros H. apply mkdir_inv in H as [_ ->]. cbn [fs set_fs].
  apply lookup_mkdirs.
Qed.

Lemma mkdir_is_file (p : Path) (w w' : World) (u : unit) (q : Path) :
  mkdir p w = (inr u, w') -> is_file (fs w') q = is_file (fs w) q.
Proof.
  intros H. unfold is_file. rewrite (mkdir_lookup _ _ _ _ q H).
  apply mkdir_inv in H as [Hclear _].
  case_decide as Hq; [|reflexivity].
  rewrite existsb_is_file_false in Hclear.
  specialize (Hclear q Hq). unfold is_file in Hclear.
  destruct (fs w !! q) as [[|c]|]; [reflexivity|discriminate|reflexivity].
Qed.

Lemma make_one_mmsdm_file_returns (year month : Z) (t : MMSDMTable)
  (base : Path) (w : World) :
  clear_for (fs w) base (name t) ->
  exists f w',
    make_one_mmsdm_file year month t base w = (inr f, w') /\
    clear_for (fs w') base (name t) /\
    MMSDMFile.year f = year /\ MMSDMFile.month f = month.
Proof.
  intros Hclear.
  destruct (make_one_mmsdm_file year month t base w) as [[e|f] w'] eqn:Hrun.
  - exfalso. revert Hrun. unfold make_one_mmsdm_file, bind, ret.
    destruct (Py.pair_geb _ _); cbv beta iota zeta;
      (rewrite mkdir_clear; [discriminate|]);
      apply existsb_is_file_false; intros q Hq;
      exact (Hclear year month q Hq).
  - exists f, w'. split; [reflexivity|].
    apply make_one_mmsdm_file_inv in Hrun
      as (Hy & Hm & _ & _ & _ & _ & _ & Hmk).
    repeat split; [|assumption..].
    intros y m q Hq. rewrite (mkdir_is_file _ _ _ _ q Hmk).
    exact (Hclear y m q Hq).
Qed.

Lemma Forall2_months (months : list (Z * Z)) (files : list MMSDMFile.t) :
  Forall2 (fun ym f => MMSDMFile.year f = ym.1 /\ MMSDMFile.month f = ym.2)
          months files ->
  map (fun f => (MMSDMFile.year f, MMSDMFile.month f)) files = months.
Proof.
  induction 1 as [|[y m] f months files [Hy Hm] _ IH]; [reflexivity|].
  cbn [map]. cbn in Hy, Hm. now rewrite Hy, Hm, IH.
Qed.

(** C2, as the code has it.  On dates that parse, for a table of the
    catalog and with no regular file in the way, [make_many_mmsdm_files]
    returns one file for each first day of a month from [start] to [end]
    inclusive, in calendar order.  When both dates are in one month this
    is one file if [start] is the first of the month and no file
    otherwise. *)
Theorem make_many_mmsdm_files_month_starts (E : Env) (start end_ : string)
  (t c : MMSDMTable) (base : Path) (w : World) (s e : Date) :
  to_timestamp E start = Some s -> to_timestamp E end_ = Some e ->
  valid_date s -> valid_date e ->
  find_mmsdm_table E (name t) = inr c ->
  clear_for (fs w) base (name c) ->
  exists files w',
    make_many_mmsdm_files E start end_ t base w = (inr files, w') /\
    let months :=
      map (fun f => (MMSDMFile.year f, MMSDMFile.month f)) files in
    (forall y m,
       (y, m) ∈ months <->
       1 <= m <= 12 /\ date_le s (first_of_month y m) /\
       date_le (first_of_month y m) e) /\
    (forall (i j : nat) a b,
       (i < j)%nat -> months !! i = Some a -> months !! j = Some b ->
       month_lt a b) /\
    (dyear s = dyear e -> dmonth s = dmonth e ->
     (dday s = 1 -> months = [(dyear s, dmonth s)]) /\
     (dday s <> 1 -> files = [])).
Proof.
  intros Hs He Hvs Hve Hfind Hclear.
  unfold make_many_mmsdm_files, bind, lift, date_range.
  rewrite Hfind, Hs, He.
  destruct (for_each_returns
              (fun ym => make_one_mmsdm_file ym.1 ym.2 c base)
              (fun w => clear_for (fs w) base (name c))
              (fun ym f => MMSDMFile.year f = ym.1 /\
                           MMSDMFile.month f = ym.2)
              (month_starts s e)) with (w := w)
    as (files & w' & Hrun & _ & Hall).
  { intros ym w0 _ Hw0.
    destruct (make_one_mmsdm_file_returns ym.1 ym.2 c base w0 Hw0)
      as (f & w1 & H1 & H2 & H3 & H4).
    exists f, w1. auto. }
  { exact Hclear. }
  exists files, w'. split; [exact Hrun|].
  cbv zeta. rewrite (Forall2_months _ _ Hall).
  split; [|split].
  - intros y m. now apply elem_of_month_starts.
  - intros i j a b. apply month_starts_increasing.
  - intros Hy Hm. rewrite (month_starts_same_month s e Hvs Hy Hm) in *.
    split.
    + intros ->. reflexivity.
    + intros Hd. apply Z.eqb_neq in Hd. rewrite Hd in Hall.
      now inversion Hall.
Qed.

Lemma make_many_mmsdm_files_month_starts_witness :
  exists files w',
    make_many_mmsdm_files Bench.env "2019-11-15" "2020-02-10"
      Bench.dispatch_price Bench.base Bench.world = (inr files, w') /\
    map (fun f => (MMSDMFile.year f, MMSDMFile.month f)) files
    = [(2019, 12); (2020, 1); (2020, 2)].
Proof.
  assert (valid_date {| dyear := 2019; dmonth := 11; dday := 15 |}) as Hvs
    by (unfold valid_date; cbn; lia).
  assert (valid_date {| dyear := 2020; dmonth := 2; dday := 10 |}) as Hve
    by (unfold valid_date; cbn; lia).
  destruct (make_many_mmsdm_files_month_starts Bench.env
              "2019-11-15" "2020-02-10" Bench.dispatch_price
              Bench.dispatch_price Bench.base Bench.world
              {| dyear := 2019; dmonth := 11; dday := 15 |}
              {| dyear := 2020; dmonth := 2; dday := 10 |}
              eq_refl eq_refl Hvs Hve eq_refl)
    as (files & w' & Hrun & _).
  { intros y m q _. apply is_file_empty. }
  exists files, w'. split; [exact Hrun|].
  assert ((make_many_mmsdm_files Bench.env "2019-11-15" "2020-02-10"
             Bench.dispatch_price Bench.base Bench.world).1
          = inr files) as H1 by now rewrite Hrun.
  vm_compute in H1. injection H1 as <-. reflexivity.
Defined.

(** C2, as the claim has it, fails: both dates are in January 2020 and no
    file is resolved. *)
Lemma make_many_mmsdm_files_same_month_none :
  to_timestamp Bench.env "2020-01-15"
    = Some {| dyear := 2020; dmonth := 1; dday := 15 |} /\
  to_timestamp Bench.env "2020-01-20"
    = Some {| dyear := 2020; dmonth := 1; dday := 20 |} /\
  make_many_mmsdm_files Bench.env "2020-01-15" "2020-01-20"
    Bench.dispatch_price Bench.base Bench.world
  = (inr [], Bench.world).
Proof. repeat split. Qed.

(** ** Columns of a data frame *)

Lemma lookup_assign_same (col : string) (v : list Cell)
  (cs : list (string * list Cell)) :
  lookup_column col (assign_column col v cs) = Some v.
Proof.
  induction cs as [|[c old] cs IH]; cbn [assign_column lookup_column].
  - now rewrite String.eqb_refl.
  - destruct (String.eqb c col) eqn:Hc; cbn [lookup_column]; now rewrite Hc.
Qed.

Lemma lookup_assign_other (col col' : string) (v : list Cell)
  (cs : list (string * list Cell)) :
  col' <> col ->
  lookup_column col' (assign_column col v cs) = lookup_column col' cs.
Proof.
  intros Hne.
  induction cs as [|[c old] cs IH]; cbn [assign_column lookup_column].
  - now rewrite (proj2 (String.eqb_neq col col')) by congruence.
  - destruct (String.eqb_spec c col) as [->|Hc]; cbn [lookup_column].
    + now rewrite (proj2 (String.eqb_neq col col')) by congruence.
    + now rewrite IH.
Qed.

Lemma getitem_setitem_same (data : DataFrame) (col : string) (v : list Cell) :
  getitem (setitem data col v) col = inr v.
Proof. unfold getitem, setitem. cbn. now rewrite lookup_assign_same. Qed.

Lemma getitem_setitem_other (data : DataFrame) (col col' : string)
  (v : list Cell) :
  col' <> col -> getitem (setitem data col v) col' = getitem data col'.
Proof.
  intros H. unfold getitem, setitem. cbn. now rewrite lookup_assign_other.
Qed.


(** ** Interval bounds *)

Lemma traverse_interval_of (f : Frequency) (v : list Cell) :
  Forall (fun c => forall s, c <> CStr s) v ->
  exists bounds,
    traverse (interval_of f) v = inr bounds /\
    map snd bounds = v /\
    length (map fst bounds) = length v /\
    forall (i : nat) te tz,
      v !! i = Some (CTime te tz) ->
      map fst bounds !! i = Some (CTime (te - 60 * minutes_at f te) tz).
Proof.
  induction 1 as [|c v Hc _ (bounds & Hb & Hsnd & Hlen & Hfst)].
  - exists []. repeat split. intros i te tz Hi. discriminate.
  - destruct c as [s|t tz|]; [now destruct (Hc s)| |].
    + exists ((CTime (t - 60 * minutes_at f t) tz, CTime t tz) :: bounds).
      cbn [traverse interval_of and_then map fst snd length].
      rewrite Hb, Hsnd, Hlen. repeat split.
      intros [|i] te tz' Hi; cbn in Hi |- *; [congruence | now apply Hfst].
    + exists ((CNaN, CNaN) :: bounds).
      cbn [traverse interval_of and_then map fst snd length].
      rewrite Hb, Hsnd, Hlen. repeat split.
      intros [|i] te tz' Hi; cbn in Hi |- *; [congruence | now apply Hfst].
Qed.

(** C7.  On a table with an interval column holding timestamps,
    [add_interval_column] returns the data with "interval-end" equal to
    the interval column and "interval-start" earlier, row by row, by the
    frequency in minutes: the fixed frequency, or for a variable frequency
    the one after the transition for a row at or after the transition
    instant and the one before it for an earlier row. *)
Theorem add_interval_column_bounds (data : DataFrame) (t : MMSDMTable)
  (col : string) (f : Frequency) (v : list Cell) :
  interval_column t = Some col -> frequency t = Some f ->
  getitem data col = inr v ->
  Forall (fun c => forall s, c <> CStr s) v ->
  exists data' starts,
    add_interval_column data t = inr data' /\
    getitem data' "interval-end" = inr v /\
    getitem data' "interval-start" = inr starts /\
    length starts = length v /\
    forall (i : nat) te tz,
      v !! i = Some (CTime te tz) ->
      exists ts,
        starts !! i = Some (CTime ts tz) /\
        match f with
        | Minutes n => te - ts = 60 * n
        | Varying vf =>
            (transition_datetime_interval_end vf <= te ->
             te - ts = 60 * frequency_minutes_after vf) /\
            (te < transition_datetime_interval_end vf ->
             te - ts = 60 * frequency_minutes_before vf)
        end.
Proof.
  intros Hcol Hf Hv Htimes.
  destruct (traverse_interval_of f v Htimes)
    as (bounds & Hb & Hsnd & Hlen & Hfst).
  exists (setitem (setitem data "interval-start" (map fst bounds))
                  "interval-end" (map snd bounds)), (map fst bounds).
  unfold add_interval_column. rewrite Hcol, Hf, Hv. cbn [and_then].
  rewrite Hb. cbn [and_then]. split; [reflexivity|].
  split; [now rewrite getitem_setitem_same, Hsnd|].
  split; [rewrite getitem_setitem_other by discriminate;
          apply getitem_setitem_same|].
  split; [exact Hlen|].
  intros i te tz Hi. exists (te - 60 * minutes_at f te).
  split; [now apply Hfst|].
  destruct f as [n|vf]; cbn [minutes_at]; [lia|].
  destruct (Z.leb_spec (transition_datetime_interval_end vf) te); lia.
Qed.

Lemma add_interval_column_bounds_witness :
  exists data' starts,
    add_interval_column
      {| index := [0; 1];
         columns := [("SETTLEMENTDATE",
                      [CTime 1633046400 None; CTime 1633046700 None])] |}
      Bench.trading_price = inr data' /\
    getitem data' "interval-start" = inr starts /\
    starts = [CTime 1633044600 None; CTime 1633046400 None].
Proof.
  destruct (add_interval_column_bounds
              {| index := [0; 1];
                 columns := [("SETTLEMENTDATE",
                              [CTime 1633046400 None;
                               CTime 1633046700 None])] |}
              Bench.trading_price "SETTLEMENTDATE"
              (Varying {| frequency_minutes_before := 30;
                          frequency_minutes_after := 5;
                          transition_datetime_interval_end := 1633046700 |})
              [CTime 1633046400 None; CTime 1633046700 None]
              eq_refl eq_refl eq_refl)
    as (data' & starts & Hrun & _ & Hstarts & _).
  { repeat constructor; discriminate. }
  exists data', starts. split; [exact Hrun|]. split; [exact Hstarts|].
  vm_compute in Hrun. injection Hrun as <-.
  vm_compute in Hstarts. now injection Hstarts as <-.
Defined.

(** ** Datetime columns *)







(** [make_datetime_columns], step by step: the list of the table grows by
    the two synthetic names, in place, and the loop runs over the grown
    list. *)
Lemma make_datetime_columns_run (E : Env) (data : DataFrame) (t : MMSDMTable)
  (l : nat) (cols : list string) (w : World) :
  datetime_columns t = Some l -> store w !! l = Some cols -> cols <> [] ->
  make_datetime_columns E data t w =
  (localize_all E data (cols ++ ["interval-start"; "interval-end"]),
   {| store := <[l := cols ++ ["interval-start"; "interval-end"]]> (store w);
      fs := fs w; stdout := stdout w; warned := warned w;
      sent := sent w |}).
Proof.
  intros Ht Hl Hne.
  unfold make_datetime_columns, assert_datetime_columns, bind, load, extend,
    lift, ret.
  rewrite Ht, Hl. destruct cols as [|c cols]; [now destruct Hne|].
  rewrite Hl. cbn [store].
  rewrite list_lookup_insert_eq; [reflexivity|].
  now apply lookup_lt_Some in Hl.
Qed.



(** *** A name that comes twice *)

Lemma traverse_elem {A B} (f : A -> Exception + B) (v : list A)
  (v' : list B) (a : A) :
  traverse f v = inr v' -> a ∈ v -> exists b, f a = inr b /\ b ∈ v'.
Proof.
  revert v'. induction v as [|c v IH]; intros v' Hrun Hin;
    [now apply elem_of_nil in Hin|].
  cbn [traverse] in Hrun.
  destruct (f c) as [e|b] eqn:Hc; [discriminate|]. cbn [and_then] in Hrun.
  destruct (traverse f v) as [e|bs] eqn:Hv; [discriminate|].
  cbn [and_then] in Hrun. injection Hrun as <-.
  apply elem_of_cons in Hin as [->|Hin].
  - exists b. split; [exact Hc | apply elem_of_cons; now left].
  - destruct (IH bs eq_refl Hin) as (b' & Hb' & Hin').
    exists b'. split; [exact Hb' | apply elem_of_cons; now right].
Qed.

Lemma traverse_fails {A B} (f : A -> Exception + B) (v : list A) (a : A)
  (e : Exception) :
  a ∈ v -> f a = inl e -> exists e', traverse f v = inl e'.
Proof.
  intros Hin Ha. induction v as [|c v IH]; [now apply elem_of_nil in Hin|].
  cbn [traverse]. destruct (f c) as [e0|b] eqn:Hc; [eauto|].
  cbn [and_then]. apply elem_of_cons in Hin as [<-|Hin]; [congruence|].
  destruct (IH Hin) as [e' ->]. eauto.
Qed.

(** A column that holds a timestamp with a zone cannot be localized. *)
Lemma localize_aware_raises (E : Env) (data : DataFrame) (col : string)
  (v : list Cell) (s : Z) (z : string) :
  lookup_column col (columns data) = Some v -> CTime s (Some z) ∈ v ->
  exists e, localize E data col = inl e.
Proof.
  intros Hv Hin. unfold localize. unfold getitem at 1. rewrite Hv.
  destruct (pd_to_datetime E v) as [e|v1] eqn:H1; [eauto|].
  cbn [and_then]. rewrite getitem_setitem_same.
  destruct (traverse_elem _ _ _ _ H1 Hin) as (b & Hb & Hin1).
  cbn in Hb. injection Hb as <-.
  destruct (traverse_fails (tz_localize_cell (nem_tz E)) v1 _
              (TypeError "Already tz-aware") Hin1 eq_refl) as [e Hfail].
  unfold tz_localize. rewrite Hfail. eauto.
Qed.

(** Localizing a column gives every cell that is not missing a zone. *)
Lemma localize_live (E : Env) (data data' : DataFrame) (col : string)
  (v : list Cell) (c : Cell) :
  lookup_column col (columns data) = Some v -> c ∈ v -> c <> CNaN ->
  localize E data col = inr data' ->
  exists v' s z,
    lookup_column col (columns data') = Some v' /\ CTime s (Some z) ∈ v'.
Proof.
  intros Hv Hin Hlive. unfold localize. unfold getitem at 1. rewrite Hv.
  destruct (pd_to_datetime E v) as [e|v1] eqn:H1; [discriminate|].
  cbn [and_then]. rewrite getitem_setitem_same.
  destruct (tz_localize (nem_tz E) v1) as [e|v2] eqn:H2; [discriminate|].
  cbn [and_then]. intros [= <-].
  destruct (traverse_elem _ _ _ _ H1 Hin) as (b1 & Hb1 & Hin1).
  destruct (traverse_elem _ _ _ _ H2 Hin1) as (b2 & Hb2 & Hin2).
  exists v2. cbn [setitem columns]. rewrite lookup_assign_same.
  destruct c as [x|t [z0|]|]; cbn in Hb1.
  - destruct (to_datetime E x) as [t|]; [|discriminate].
    injection Hb1 as <-. cbn in Hb2. injection Hb2 as <-. eauto.
  - injection Hb1 as <-. discriminate.
  - injection Hb1 as <-. cbn in Hb2. injection Hb2 as <-. eauto.
  - now destruct Hlive.
Qed.

Lemma localize_other (E : Env) (data data' : DataFrame) (c col : string) :
  c <> col -> localize E data c = inr data' ->
  lookup_column col (columns data') = lookup_column col (columns data).
Proof.
  intros Hne. unfold localize. unfold getitem at 1.
  destruct (lookup_column c (columns data)) as [v|];
    [|intros [= <-]; reflexivity].
  destruct (pd_to_datetime E v) as [e|v1]; [discriminate|].
  cbn [and_then]. rewrite getitem_setitem_same.
  destruct (tz_localize (nem_tz E) v1) as [e|v2]; [discriminate|].
  cbn [and_then]. intros [= <-]. cbn [setitem columns].
  rewrite !lookup_assign_other by congruence. reflexivity.
Qed.

Lemma localize_all_other (E : Env) (col : string) (cols : list string) :
  col ∉ cols ->
  forall data data',
    localize_all E data cols = inr data' ->
    lookup_column col (columns data') = lookup_column col (columns data).
Proof.
  induction cols as [|c cols IH]; intros Hout data data'; cbn [localize_all].
  - now intros [= <-].
  - destruct (localize E data c) as [e|data1] eqn:H1; [discriminate|].
    cbn [and_then]. intros H2.
    rewrite (IH (fun H => Hout (proj2 (elem_of_cons _ _ _) (or_intror H)))
               data1 data' H2).
    apply (localize_other E data data1 c col); [|exact H1].
    intros ->. apply Hout, elem_of_cons. now left.
Qed.

Lemma localize_all_aware_raises (E : Env) (col : string)
  (cols : list string) :
  col ∈ cols ->
  forall data v s z,
    lookup_column col (columns data) = Some v -> CTime s (Some z) ∈ v ->
    exists e, localize_all E data cols = inl e.
Proof.
  induction cols as [|c cols IH]; intros Hin data v s z Hv Haware.
  - now apply elem_of_nil in Hin.
  - cbn [localize_all]. destruct (decide (c = col)) as [->|Hne].
    + destruct (localize_aware_raises E data col v s z Hv Haware) as [e ->].
      eauto.
    + apply elem_of_cons in Hin as [->|Hin]; [now destruct Hne|].
      destruct (localize E data c) as [e|data1] eqn:H1; [eauto|].
      cbn [and_then]. apply (IH Hin data1 v s z); [|exact Haware].
      now rewrite (localize_other E data data1 c col Hne H1).
Qed.

Lemma localize_all_live (E : Env) (col : string) (cols : list string) :
  col ∈ cols ->
  forall data data' v c,
    lookup_column col (columns data) = Some v -> c ∈ v -> c <> CNaN ->
    localize_all E data cols = inr data' ->
    exists v' s z,
      lookup_column col (columns data') = Some v' /\ CTime s (Some z) ∈ v'.
Proof.
  induction cols as [|c0 cols IH]; intros Hin data data' v c Hv Hc Hlive.
  - now apply elem_of_nil in Hin.
  - cbn [localize_all].
    destruct (localize E data c0) as [e|data1] eqn:H1; [discriminate|].
    cbn [and_then]. intros H2.
    destruct (decide (c0 = col)) as [->|Hne].
    + destruct (localize_live E data data1 col v c Hv Hc Hlive H1)
        as (v1 & s & z & Hv1 & Haware).
      destruct (decide (col ∈ cols)) as [Hagain|Hout].
      * destruct (localize_all_aware_raises E col cols Hagain data1 v1 s z
                    Hv1 Haware) as [e He].
        congruence.
      * exists v1, s, z. split; [|exact Haware].
        now rewrite (localize_all_other E col cols Hout data1 data' H2).
    + apply elem_of_cons in Hin as [->|Hin]; [now destruct Hne|].
      apply (IH Hin data1 data' v c); try assumption.
      now rewrite (localize_other E data data1 c0 col Hne H1).
Qed.

Lemma localize_all_app (E : Env) (l1 l2 : list string) (data : DataFrame) :
  localize_all E data (l1 ++ l2) =
  and_then (localize_all E data l1) (fun d => localize_all E d l2).
Proof.
  revert data. induction l1 as [|c l1 IH]; intros data; cbn [app localize_all].
  - reflexivity.
  - destruct (localize E data c) as [e|data1]; cbn [and_then];
      [reflexivity | apply IH].
Qed.

(** After one call for a table, whatever its frame and its outcome, a
    call for the same table raises on every frame that has one of the
    synthetic columns with a cell that is not missing: the list of the
    table names that column twice, and a column that has its zone is not
    localized again. *)
Lemma make_datetime_columns_again_raises (E : Env) (data0 data : DataFrame)
  (t : MMSDMTable) (l : nat) (cols : list string) (w : World)
  (col : string) (v : list Cell) (c : Cell) :
  datetime_columns t = Some l -> store w !! l = Some cols -> cols <> [] ->
  col = "interval-start" \/ col = "interval-end" ->
  getitem data col = inr v -> c ∈ v -> c <> CNaN ->
  exists e w2,
    make_datetime_columns E data t (make_datetime_columns E data0 t w).2
    = (inl e, w2).
Proof.
  intros Ht Hl Hne Hcol Hv Hc Hlive.
  rewrite (make_datetime_columns_run E data0 t l cols w Ht Hl Hne).
  cbn [snd].
  erewrite (make_datetime_columns_run E data t l
              (cols ++ ["interval-start"; "interval-end"]));
    [|exact Ht
     |cbn [store]; apply list_lookup_insert_eq;
      now apply lookup_lt_Some in Hl
     |now destruct cols].
  unfold getitem in Hv.
  destruct (lookup_column col (columns data)) as [u|] eqn:Hu; [|discriminate].
  injection Hv as ->.
  assert (col ∈ ["interval-start"; "interval-end"]) as Hsyn.
  { destruct Hcol as [-> | ->]; set_solver. }
  rewrite localize_all_app.
  destruct (localize_all E data (cols ++ ["interval-start"; "interval-end"]))
    as [e|d1] eqn:H1; cbn [and_then]; [eauto|].
  destruct (localize_all_live E col _ (proj2 (elem_of_app _ _ _)
                                         (or_intror Hsyn))
              data d1 v c Hu Hc Hlive H1) as (v1 & s & z & Hv1 & Haware).
  destruct (localize_all_aware_raises E col _ Hsyn d1 v1 s z Hv1 Haware)
    as [e ->].
  eauto.
Qed.

(** C5 fails on the code.  The frame has the column "interval-end".  A
    first call for "dispatch-price" localizes it, as the claim says, and
    leaves the list of the catalog entry two names longer; the next call
    for the same table, on the same frame, finds "interval-end" named
    twice and raises [TypeError] at the second localization. *)
Lemma make_datetime_columns_second_call_raises :
  let data :=
    {| index := [0];
       columns := [("SETTLEMENTDATE", [CStr "1577800800"]);
                   ("interval-end", [CStr "1577800800"])] |} in
  let first :=
    make_datetime_columns Bench.env data Bench.dispatch_price Bench.world in
  let second :=
    make_datetime_columns Bench.env data Bench.dispatch_price first.2 in
  first.1 =
    inr {| index := [0];
           columns :=
             [("SETTLEMENTDATE", [CTime 1577800800 (Some "Etc/GMT-10")]);
              ("interval-end", [CTime 1577800800 (Some "Etc/GMT-10")])] |} /\
  store first.2 !! 0%nat
    = Some ["SETTLEMENTDATE"; "interval-start"; "interval-end"] /\
  second.1 = inl (TypeError "Already tz-aware") /\
  store second.2 !! 0%nat
    = Some ["SETTLEMENTDATE"; "interval-start"; "interval-end";
            "interval-start"; "interval-end"].
Proof. vm_compute. repeat split. Qed.

(** C6 fails on the code: processing one file of "dispatch-price" leaves
    the catalog entry's own [datetime_columns] list two names longer. *)
Lemma download_mmsdm_extends_catalog_list :
  find_mmsdm_table Bench.env "dispatch-price" = inr Bench.dispatch_price /\
  datetime_columns Bench.dispatch_price = Some 0%nat /\
  store Bench.world !! 0%nat = Some ["SETTLEMENTDATE"] /\
  store (download_mmsdm Bench.env "2020-01" "2020-01" "dispatch-price"
           Bench.base false Bench.world).2 !! 0%nat
  = Some ["SETTLEMENTDATE"; "interval-start"; "interval-end"].
Proof. repeat split. Qed.

(** ** Effects on the world *)

Lemma bind_inr {A B} (m : M A) (k : A -> M B) (w w1 : World) (a : A) :
  m w = (inr a, w1) -> bind m k w = k a w1.
Proof. unfold bind. now intros ->. Qed.

Lemma bind_inv {A B} (m : M A) (k : A -> M B) (w w' : World) (b : B) :
  bind m k w = (inr b, w') ->
  exists a w1, m w = (inr a, w1) /\ k a w1 = (inr b, w').
Proof.
  unfold bind. destruct (m w) as [[e|a] w1]; [discriminate|]. eauto.
Qed.

Lemma evolves_refl (P : Path -> Prop) (w : World) : evolves P w w.
Proof. unfold evolves. repeat split; auto. Qed.

Lemma evolves_trans (P : Path -> Prop) (w1 w2 w3 : World) :
  evolves P w1 w2 -> evolves P w2 w3 -> evolves P w1 w3.
Proof.
  intros (Ho & Hs & Hout & Hdir & Hex) (Ho' & Hs' & Hout' & Hdir' & Hex').
  repeat split.
  - now transitivity (stdout w2).
  - now transitivity (sent w2).
  - intros p Hp. now rewrite Hout', Hout.
  - auto.
  - auto.
Qed.

Lemma evolves_same_fs (P : Path -> Prop) (w w' : World) :
  fs w' = fs w -> stdout w `prefix_of` stdout w' ->
  sent w `prefix_of` sent w' -> evolves P w w'.
Proof. intros Hfs Ho Hs. unfold evolves. rewrite Hfs. repeat split; auto. Qed.

Section Preserves.

Variable P : Path -> Prop.

Lemma preserves_ret {A} (a : A) : preserves (evolves P) (ret a).
Proof. intros w. apply evolves_refl. Qed.

Lemma preserves_raise {A} (e : Exception) :
  preserves (evolves P) (@raise A e).
Proof. intros w. apply evolves_refl. Qed.

Lemma preserves_lift {A} (r : Exception + A) :
  preserves (evolves P) (lift r).
Proof. intros w. apply evolves_refl. Qed.

Lemma preserves_bind {A B} (m : M A) (k : A -> M B) :
  preserves (evolves P) m -> (forall a, preserves (evolves P) (k a)) ->
  preserves (evolves P) (bind m k).
Proof.
  intros Hm Hk w. specialize (Hm w). unfold bind.
  destruct (m w) as [[e|a] w1]; [exact Hm|].
  eapply evolves_trans; [exact Hm | apply Hk].
Qed.

Lemma preserves_for_each {A B} (body : A -> M B) (l : list A) :
  (forall a, preserves (evolves P) (body a)) ->
  preserves (evolves P) (for_each body l).
Proof.
  intros Hbody. induction l as [|a l IH]; cbn [for_each].
  - apply preserves_ret.
  - apply preserves_bind; [apply Hbody|]. intros b.
    apply preserves_bind; [apply IH|]. intros bs. apply preserves_ret.
Qed.

Lemma preserves_print (line : string) : preserves (evolves P) (print line).
Proof.
  intros w. apply evolves_same_fs; cbn;
    [reflexivity | now apply prefix_app_r | reflexivity].
Qed.

Lemma preserves_warn (msg : string) : preserves (evolves P) (warn msg).
Proof. intros w. apply evolves_same_fs; cbn; reflexivity. Qed.

Lemma preserves_send (m : Method) (u : string) :
  preserves (evolves P) (send m u).
Proof.
  intros w. apply evolves_same_fs; cbn;
    [reflexivity | reflexivity | now apply prefix_app_r].
Qed.

Lemma preserves_load (l : nat) : preserves (evolves P) (load l).
Proof.
  intros w. unfold load. destruct (store w !! l); apply evolves_refl.
Qed.

Lemma preserves_extend (l : nat) (ys : list string) :
  preserves (evolves P) (extend l ys).
Proof.
  intros w. unfold extend. destruct (store w !! l);
    [apply evolves_same_fs; cbn; reflexivity | apply evolves_refl].
Qed.

Lemma preserves_exists (p : Path) : preserves (evolves P) (exists_ p).
Proof. intros w. apply evolves_refl. Qed.

Lemma preserves_read (p : Path) : preserves (evolves P) (read p).
Proof.
  intros w. unfold read. destruct (fs w !! p) as [[|c]|]; apply evolves_refl.
Qed.

Lemma preserves_write (p : Path) (c : Content) :
  P p -> preserves (evolves P) (write p c).
Proof.
  intros Hp w. unfold write.
  destruct (fs w !! parent p) as [[|c0]|]; try apply evolves_refl.
  destruct (fs w !! p) as [[|c1]|] eqn:Hold; try apply evolves_refl.
  - cbn. repeat split; cbn; try reflexivity.
    + intros q Hq. apply lookup_insert_ne. now intros ->.
    + intros q Hq. rewrite lookup_insert_ne; [assumption|].
      intros ->. congruence.
    + intros q Hq. destruct (decide (p = q)) as [->|Hne].
      * rewrite lookup_insert_eq. eauto.
      * now rewrite lookup_insert_ne.
  - cbn. repeat split; cbn; try reflexivity.
    + intros q Hq. apply lookup_insert_ne. now intros ->.
    + intros q Hq. rewrite lookup_insert_ne; [assumption|].
      intros ->. congruence.
    + intros q Hq. destruct (decide (p = q)) as [->|Hne].
      * rewrite lookup_insert_eq. eauto.
      * now rewrite lookup_insert_ne.
Qed.

End Preserves.

Create HintDb effects.

#[export] Hint Resolve preserves_ret preserves_raise preserves_lift
  preserves_print preserves_warn preserves_send preserves_load
  preserves_extend preserves_exists preserves_read preserves_write
  : effects.

(** Binds are taken apart, branches are tried one by one. *)
Ltac effects :=
  repeat first
    [ apply preserves_bind; [|intros ?]
    | apply preserves_for_each; intros ?
    | match goal with
      | |- preserves _ (match ?x with _ => _ end) => destruct x
      | |- preserves _ (if ?x then _ else _) => destruct x
      end
    | solve [eauto with effects] ].

Section PreservesPipeline.

Variable P : Path -> Prop.
Variable E : Env.

Lemma preserves_read_parquet (p : Path) :
  preserves (evolves P) (read_parquet E p).
Proof.
  intros w. unfold read_parquet.
  destruct (fs w !! p) as [[|[b|ms|d]]|]; try apply evolves_refl.
  destruct (map_to_list _); apply evolves_refl.
Qed.

Lemma preserves_assert_datetime_columns (t : MMSDMTable) :
  preserves (evolves P) (assert_datetime_columns t).
Proof. unfold assert_datetime_columns. effects. Qed.

Lemma preserves_make_datetime_columns (data : DataFrame) (t : MMSDMTable) :
  preserves (evolves P) (make_datetime_columns E data t).
Proof.
  unfold make_datetime_columns.
  pose proof preserves_assert_datetime_columns. effects.
Qed.

Lemma preserves_load_unzipped_mmsdm_file (f : MMSDMFile.t) (skiprows : nat)
  (tail : Z) :
  preserves (evolves P) (load_unzipped_mmsdm_file E f skiprows tail).
Proof. unfold load_unzipped_mmsdm_file. effects. Qed.

Lemma preserves_check_for_additional_files (f : MMSDMFile.t) :
  preserves (evolves P) (check_for_additional_files E f).
Proof. unfold check_for_additional_files. effects. Qed.

Lemma preserves_download_zipfile (f : MMSDMFile.t) :
  P (MMSDMFile.zipfile_path f) ->
  preserves (evolves P) (download_zipfile E f).
Proof. intros H. unfold download_zipfile. effects. Qed.

Lemma preserves_unzip (p : Path) :
  (forall x, P (entry (parent p) x)) -> preserves (evolves P) (unzip p).
Proof. intros H. unfold unzip. effects. Qed.

End PreservesPipeline.

#[export] Hint Resolve preserves_read_parquet
  preserves_assert_datetime_columns preserves_make_datetime_columns
  preserves_load_unzipped_mmsdm_file preserves_check_for_additional_files
  preserves_download_zipfile preserves_unzip : effects.

Lemma preserves_download_one_mmsdm (P : Path -> Prop) (E : Env)
  (t : MMSDMTable) (f : MMSDMFile.t) (dry_run : bool) :
  P (MMSDMFile.zipfile_path f) ->
  (forall x, P (entry (parent (MMSDMFile.zipfile_path f)) x)) ->
  P (with_suffix (MMSDMFile.data_directory f // "clean.parquet") ".csv") ->
  P (with_suffix (MMSDMFile.data_directory f // "clean.parquet") ".parquet") ->
  preserves (evolves P) (download_one_mmsdm E t f dry_run).
Proof. intros H1 H2 H3 H4. unfold download_one_mmsdm. effects. Qed.

(** ** The cache gate *)

Lemma exists_run (p : Path) (w : World) :
  exists_ p w = (inr (bool_decide (is_Some (fs w !! p))), w).
Proof. reflexivity. Qed.

Lemma check_for_additional_files_run (E : Env) (f : MMSDMFile.t) (w : World) :
  exists w',
    check_for_additional_files E f w = (inr tt, w') /\
    fs w' = fs w /\ stdout w' = stdout w /\ store w' = store w /\
    sent w `prefix_of` sent w'.
Proof.
  unfold check_for_additional_files.
  destruct (negb _); [exists w; repeat split; reflexivity|].
  unfold bind, send.
  repeat match goal with
         | |- context [match ?x with _ => _ end] => destruct x
         end;
    cbn; eexists; (split; [reflexivity|]); cbn; repeat split;
    now apply prefix_app_r.
Qed.

(** The rest of the pipeline after the request for the archive went
    out. *)
Lemma download_zipfile_bind {A} (E : Env) (f : MMSDMFile.t)
  (k : bool -> M A) (w : World) :
  exists w1,
    sent w1 = sent w ++ [(GET, MMSDMFile.url f)] /\
    stdout w1 = stdout w /\ fs w1 = fs w /\ store w1 = store w /\
    bind (download_zipfile E f) k w =
    bind (match http_get E (MMSDMFile.url f) with
          | None => ret false
          | Some body => write (MMSDMFile.zipfile_path f) body ;;; ret true
          end) k w1.
Proof.
  exists {| store := store w; fs := fs w; stdout := stdout w;
            warned := warned w;
            sent := sent w ++ [(GET, MMSDMFile.url f)] |}.
  repeat split.
Qed.

(** A hit: the answer is read from the artifact and one line is
    printed. *)
Lemma read_parquet_world (E : Env) (p : Path) (w : World) :
  (read_parquet E p w).2 = w.
Proof.
  unfold read_parquet.
  destruct (fs w !! p) as [[|[b|ms|d]]|]; try reflexivity.
  now destruct (map_to_list _).
Qed.

(** What is read depends on the files alone. *)
Lemma read_parquet_fs (E : Env) (p : Path) (w w' : World) :
  fs w' = fs w -> (read_parquet E p w').1 = (read_parquet E p w).1.
Proof.
  unfold read_parquet. intros ->.
  destruct (fs w !! p) as [[|[b|ms|d]]|]; try reflexivity.
  now destruct (map_to_list _).
Qed.

Lemma download_one_mmsdm_hit (E : Env) (t : MMSDMTable) (f : MMSDMFile.t)
  (dry_run : bool) (w : World) :
  is_Some (fs w !! clean_fi f) ->
  download_one_mmsdm E t f dry_run w =
  (match (read_parquet E (clean_fi f) w).1 with
   | inr d => inr (Some d)
   | inl e => inl e
   end,
   {| store := store w; fs := fs w;
      stdout := stdout w ++ [status " [blue]CACHED[/] " (clean_fi f)];
      warned := warned w; sent := sent w |}).
Proof.
  unfold clean_fi. intros Hex. unfold download_one_mmsdm.
  rewrite (bind_inr _ _ _ _ _ (exists_run _ w)).
  rewrite bool_decide_true by assumption.
  unfold bind, print, read_parquet, ret. cbn [fs].
  destruct (fs w !! _) as [[|[s|ms|d]]|]; try reflexivity.
  destruct (map_to_list _); [reflexivity|].
  now destruct (read_dataset E _).
Qed.

(** C4.  The existence of [clean.parquet] in the data directory decides
    alone.  When it is there, the answer is what [pd.read_parquet] makes
    of it, and all that happens is the "CACHED" line: no request is sent
    and no file is touched.  A parquet file is returned with whatever it
    holds; a file that is no parquet file is refused by the reader
    ([ArrowInvalid], a [ValueError]); a directory is read as a dataset,
    which is the empty frame when the directory holds nothing.  When
    [clean.parquet] is not there, "NOT CACHED" is printed and the pipeline
    goes on to request the archive. *)
Theorem download_one_mmsdm_cache_gate (E : Env) (t : MMSDMTable)
  (f : MMSDMFile.t) (dry_run : bool) (w : World) :
  (is_Some (fs w !! clean_fi f) ->
   download_one_mmsdm E t f dry_run w =
   (match fs w !! clean_fi f with
    | Some (File (Parquet d)) => inr (Some d)
    | Some (File _) =>
        inl (ValueError "ArrowInvalid: Parquet magic bytes not found in footer")
    | Some Dir =>
        match map_to_list (below (clean_fi f) (fs w)) with
        | [] => inr (Some empty_frame)
        | _ :: _ =>
            match read_dataset E (below (clean_fi f) (fs w)) with
            | inr d => inr (Some d)
            | inl e => inl e
            end
        end
    | None => inl (OSError "No such file or directory")
    end,
    {| store := store w; fs := fs w;
       stdout := stdout w ++ [status " [blue]CACHED[/] " (clean_fi f)];
       warned := warned w; sent := sent w |})) /\
  (fs w !! clean_fi f = None ->
   let w' := (download_one_mmsdm E t f dry_run w).2 in
   (stdout w ++ [status " [blue]NOT CACHED[/] " (clean_fi f)])
     `prefix_of` stdout w' /\
   (GET, MMSDMFile.url f) ∈ sent w').
Proof.
  split.
  { intros Hex. rewrite (download_one_mmsdm_hit E t f dry_run w Hex).
    f_equal. unfold read_parquet.
    destruct (fs w !! clean_fi f) as [[|[s|ms|d]]|]; try reflexivity.
    now destruct (map_to_list _). }
  unfold clean_fi.
  - intros Hnone. unfold download_one_mmsdm.
    rewrite (bind_inr _ _ _ _ _ (exists_run _ w)).
    rewrite Hnone, bool_decide_false by (now intros [? ?]).
    erewrite bind_inr by reflexivity.
    match goal with
    | |- context [bind (check_for_additional_files E f) ?k ?w0] =>
        set (w1 := w0); set (rest := k)
    end.
    destruct (check_for_additional_files_run E f w1)
      as (w2 & Hcheck & _ & Hout2 & _ & Hsent2).
    rewrite (bind_inr _ _ _ _ _ Hcheck). unfold rest.
    match goal with
    | |- context [bind (download_zipfile E f) ?k w2] =>
        destruct (download_zipfile_bind E f k w2)
          as (w3 & Hsent3 & Hout3 & _ & _ & ->);
        match goal with
        | |- context [(bind ?m k w3).2] =>
            assert (preserves (evolves anywhere) (bind m k)) as Hrest
        end
    end.
    { assert (forall p, anywhere p) as Hany by (intros p; exact I). effects. }
    destruct (Hrest w3) as (Hout & Hsent & _).
    cbv zeta. split.
    + etransitivity; [|exact Hout]. rewrite Hout3, Hout2. reflexivity.
    + destruct Hsent as [k ->]. rewrite Hsent3.
      apply elem_of_app. left. apply elem_of_app. right.
      apply list_elem_of_singleton. reflexivity.
Qed.

(** ** Paths *)

Lemma split_plain (sep : ascii) (s : string) :
  Py.has_char sep s = false -> Py.split sep s = [s].
Proof.
  induction s as [|c s IH]; cbn [Py.has_char Py.split]; [reflexivity|].
  rewrite (Ascii.eqb_sym sep c).
  destruct (Ascii.eqb c sep); cbn [orb]; [discriminate|].
  intros H. now rewrite (IH H).
Qed.

Lemma path_root_plain (s : string) :
  Py.has_char "/" s = false -> path_root s = None.
Proof.
  destruct s as [|c s]; [reflexivity|]. cbn [Py.has_char].
  destruct (Ascii.eqb_spec "/" c) as [<-|Hne]; [discriminate|]. intros _.
  destruct c as [[] [] [] [] [] [] [] []]; try reflexivity.
  now destruct Hne.
Qed.

(** A name of one part is added as it is. *)
Lemma div_plain (p : Path) (s : string) :
  plain_part s = true -> p // s = entry p s.
Proof.
  unfold plain_part. intros H.
  apply andb_prop in H as [H Hdot]. apply andb_prop in H as [Hslash Hempty].
  apply negb_true_iff in Hslash, Hempty, Hdot.
  unfold div, path_parts.
  rewrite (path_root_plain s Hslash), (split_plain "/" s Hslash).
  cbn [List.filter]. now rewrite Hempty, Hdot.
Qed.

Lemma pretty_N_go_no_slash (x : N) (s : string) :
  Py.has_char "/" s = false -> Py.has_char "/" (pretty_N_go x s) = false.
Proof.
  revert s. induction (N.lt_wf_0 x) as [x _ IH]; intros s Hs.
  destruct (decide (x = 0)%N) as [->|Hx].
  - now rewrite pretty_N_go_0.
  - rewrite pretty_N_go_step by lia.
    apply IH; [apply N.div_lt; lia|].
    cbn [Py.has_char]. rewrite Hs, orb_false_r.
    unfold pretty_N_char. now repeat case_match.
Qed.

Lemma str_no_slash (z : Z) : Py.has_char "/" (Py.str z) = false.
Proof.
  unfold Py.str, pretty, pretty_Z.
  destruct z as [|p|p]; [reflexivity| |].
  - unfold pretty, pretty_positive, pretty, pretty_N.
    case_decide; [reflexivity|]. now apply pretty_N_go_no_slash.
  - rewrite has_char_app. simpl.
    unfold pretty, pretty_positive, pretty, pretty_N.
    case_decide; [reflexivity|]. now apply pretty_N_go_no_slash.
Qed.

Lemma zeros_no_slash (n : nat) : Py.has_char "/" (Py.zeros n) = false.
Proof. induction n as [|n IH]; [reflexivity | exact IH]. Qed.

Lemma zfill_no_slash (n : nat) (s : string) :
  Py.has_char "/" s = false -> Py.has_char "/" (Py.zfill n s) = false.
Proof.
  unfold Py.zfill. destruct s as [|c s]; [intros _; apply zeros_no_slash|].
  intros H. pose proof H as H'. cbn [Py.has_char] in H'.
  apply orb_false_elim in H' as [Hc Hs].
  destruct (Ascii.eqb c "+" || Ascii.eqb c "-")%bool.
  - cbn [Py.has_char]. now rewrite Hc, has_char_app, zeros_no_slash, Hs.
  - now rewrite has_char_app, zeros_no_slash, H.
Qed.

(** The name of the directory of a period is one part. *)
Lemma period_plain (y m : Z) : plain_part (period y m) = true.
Proof.
  assert (Py.has_char "-" (period y m) = true) as Hdash.
  { unfold period. rewrite !has_char_app. cbn [Py.has_char].
    now rewrite Ascii.eqb_refl, orb_true_r. }
  unfold plain_part.
  replace (Py.has_char "/" (period y m)) with false.
  - destruct (String.eqb_spec (period y m) "") as [Heq|_];
      [rewrite Heq in Hdash; discriminate|].
    destruct (String.eqb_spec (period y m) ".") as [Heq|_];
      [rewrite Heq in Hdash; discriminate|].
    reflexivity.
  - symmetry. unfold period.
    rewrite !has_char_app, str_no_slash, zfill_no_slash by apply str_no_slash.
    reflexivity.
Qed.

(** The names of the catalog are one part each. *)
Lemma find_mmsdm_table_plain (E : Env) (n : string) (c : MMSDMTable) :
  find_mmsdm_table E n = inr c -> plain_part (name c) = true.
Proof.
  unfold find_mmsdm_table.
  destruct (first_named _ n) as [u|] eqn:Hf; [|discriminate].
  intros [= <-]. apply first_named_Some in Hf as [Hin _].
  rewrite list_elem_of_In in Hin. cbn [mmsdm_tables In] in Hin.
  repeat (destruct Hin as [<-|Hin]; [reflexivity|]). destruct Hin.
Qed.

Lemma length_append (a b : string) :
  String.length (a +:+ b) = (String.length a + String.length b)%nat.
Proof.
  induction a as [|c a IH]; push_append; cbn [String.length];
    [reflexivity | now rewrite IH].
Qed.

Lemma append_inj_length (a a' b b' : string) :
  a +:+ b = a' +:+ b' -> String.length b = String.length b' ->
  a = a' /\ b = b'.
Proof.
  revert a'. induction a as [|c a IH]; intros [|c' a'] Heq Hlen.
  - now rewrite !append_nil in Heq.
  - exfalso. apply (f_equal String.length) in Heq.
    rewrite !length_append in Heq. cbn in Heq. lia.
  - exfalso. apply (f_equal String.length) in Heq.
    rewrite !length_append in Heq. cbn in Heq. lia.
  - rewrite !append_cons in Heq. injection Heq as -> Heq.
    destruct (IH a' Heq Hlen) as [-> ->]. now split.
Qed.

Lemma two_digits_length (m : Z) :
  1 <= m <= 12 -> String.length ("-" +:+ two_digits m) = 3%nat.
Proof.
  intros H.
  assert (m = 1 \/ m = 2 \/ m = 3 \/ m = 4 \/ m = 5 \/ m = 6 \/ m = 7 \/
          m = 8 \/ m = 9 \/ m = 10 \/ m = 11 \/ m = 12) as Hm by lia.
  repeat (destruct Hm as [->|Hm]; [reflexivity|]).
  now subst.
Qed.

Lemma two_digits_inj (m m' : Z) :
  1 <= m <= 12 -> 1 <= m' <= 12 -> two_digits m = two_digits m' -> m = m'.
Proof.
  unfold two_digits. intros Hm Hm' H.
  destruct (Z.ltb_spec m 10), (Z.ltb_spec m' 10).
  - rewrite !append_cons, !append_nil in H. injection H as H.
    now apply (inj pretty) in H.
  - exfalso.
    assert (m' = 10 \/ m' = 11 \/ m' = 12) as [-> | [-> | ->]] by lia;
      vm_compute in H; discriminate.
  - exfalso.
    assert (m = 10 \/ m = 11 \/ m = 12) as [-> | [-> | ->]] by lia;
      vm_compute in H; discriminate.
  - now apply (inj pretty) in H.
Qed.

(** A period is known by the name of its directory. *)
Lemma period_inj (y m y' m' : Z) :
  1 <= m <= 12 -> 1 <= m' <= 12 -> period y m = period y' m' ->
  y = y' /\ m = m'.
Proof.
  intros Hm Hm' H. unfold period in H.
  rewrite (zfill_month m Hm), (zfill_month m' Hm') in H.
  apply append_inj_length in H as [Hy Hmm].
  - split; [now apply (inj pretty) in Hy|].
    rewrite !append_cons, !append_nil in Hmm. injection Hmm as Hmm.
    now apply two_digits_inj.
  - now rewrite !two_digits_length.
Qed.

Lemma length_entry (dd : Path) (x : string) :
  length (entry dd x) = S (length dd).
Proof. unfold entry. rewrite length_app. cbn. lia. Qed.

Lemma length_clean_fi (f : MMSDMFile.t) :
  length (clean_fi f) = S (length (MMSDMFile.data_directory f)).
Proof. exact (length_entry _ _). Qed.

(** ** Resolving, as a change of the world *)

Lemma resolves_refl (base : Path) (w : World) : resolves base w w.
Proof. unfold resolves. repeat split. intros k. now left. Qed.

Lemma resolves_trans (base : Path) (w1 w2 w3 : World) :
  resolves base w1 w2 -> resolves base w2 w3 -> resolves base w1 w3.
Proof.
  intros (H1 & H2 & H3 & H4 & H5) (G1 & G2 & G3 & G4 & G5).
  unfold resolves. rewrite G1, G2, G3, G4. repeat split; try assumption.
  intros k. destruct (H5 k) as [Hk|(Hk1 & Hk2 & Hk3)],
              (G5 k) as [Gk|(Gk1 & Gk2 & Gk3)].
  - left. congruence.
  - right. repeat split; congruence.
  - right. repeat split; congruence.
  - congruence.
Qed.

Lemma elem_of_prefixes_length (p q : Path) :
  q ∈ prefixes p -> (length q <= length p)%nat.
Proof.
  unfold prefixes. intros H. apply list_elem_of_fmap in H as (n & -> & _).
  rewrite length_take. lia.
Qed.

(** Afterwards the data directory is there, with all directories above
    it. *)
Lemma make_one_mmsdm_file_dirs (year month : Z) (t : MMSDMTable)
  (base : Path) (w w' : World) (f : MMSDMFile.t) :
  make_one_mmsdm_file year month t base w = (inr f, w') ->
  forall q, q ∈ prefixes (MMSDMFile.data_directory f) ->
            fs w' !! q = Some Dir.
Proof.
  intros Hrun.
  apply make_one_mmsdm_file_inv in Hrun as (_ & _ & _ & _ & _ & _ & _ & Hmk).
  intros q Hq. rewrite (mkdir_lookup _ _ _ _ q Hmk).
  now rewrite decide_True.
Qed.

Lemma make_one_mmsdm_file_resolves (year month : Z) (t : MMSDMTable)
  (base : Path) (w w' : World) (f : MMSDMFile.t) :
  plain_part (name t) = true ->
  make_one_mmsdm_file year month t base w = (inr f, w') ->
  resolves base w w' /\ resolved_for base t f /\
  (forall q, q ∈ prefixes (MMSDMFile.data_directory f) ->
             fs w' !! q = Some Dir).
Proof.
  intros Hplain Hrun.
  apply make_one_mmsdm_file_inv in Hrun
    as (_ & _ & Ht & _ & _ & Hdd & Hzip & Hmk).
  assert (length (MMSDMFile.data_directory f) = (length base + 2)%nat)
    as Hlen.
  { rewrite Hdd. fold (period year month).
    rewrite (div_plain _ _ (period_plain year month)).
    rewrite (div_plain _ _ Hplain), !length_entry. lia. }
  split; [|split].
  - pose proof (mkdir_inv _ _ _ _ Hmk) as [Hclear Hw'].
    rewrite existsb_is_file_false in Hclear.
    unfold resolves.
    split; [now rewrite Hw'|]. split; [now rewrite Hw'|].
    split; [now rewrite Hw'|]. split; [now rewrite Hw'|].
    intros k. rewrite (mkdir_lookup _ _ _ _ k Hmk).
    case_decide as Hk; [|now left].
    specialize (Hclear k Hk). unfold is_file in Hclear.
    destruct (fs w !! k) as [[|c]|] eqn:Hold; [now left|discriminate|].
    right. repeat split. apply elem_of_prefixes_length in Hk. lia.
  - unfold resolved_for. split; [exact Ht|]. split; [exact Hlen|exact Hzip].
  - intros q Hq. rewrite (mkdir_lookup _ _ _ _ q Hmk).
    now rewrite decide_True.
Qed.

(** What a loop does to the world, by a relation that composes. *)
Lemma for_each_rel {A B} (body : A -> M B) (R : World -> World -> Prop)
  (Q : A -> B -> World -> Prop) :
  (forall w, R w w) ->
  (forall w1 w2 w3, R w1 w2 -> R w2 w3 -> R w1 w3) ->
  (forall a b w1 w2, Q a b w1 -> R w1 w2 -> Q a b w2) ->
  (forall a w b w', body a w = (inr b, w') -> R w w' /\ Q a b w') ->
  forall l w bs w',
    for_each body l w = (inr bs, w') ->
    R w w' /\ Forall2 (fun a b => Q a b w') l bs.
Proof.
  intros Hrefl Htrans Hmono Hbody l.
  induction l as [|a l IH]; intros w bs w' Hrun.
  - cbn in Hrun. injection Hrun as <- <-. split; [apply Hrefl|constructor].
  - cbn [for_each] in Hrun.
    apply bind_inv in Hrun as (b & w1 & Ha & Hrun).
    apply bind_inv in Hrun as (bs' & w2 & Hl & Hrun).
    injection Hrun as <- <-.
    destruct (Hbody a w b w1 Ha) as [Hr Hq].
    destruct (IH w1 bs' w2 Hl) as [Hr' Hqs].
    split; [eapply Htrans; eassumption|].
    constructor; [eapply Hmono; eassumption | assumption].
Qed.

Lemma resolves_keeps_dir (base : Path) (w w' : World) (q : Path) :
  resolves base w w' -> fs w !! q = Some Dir -> fs w' !! q = Some Dir.
Proof.
  intros (_ & _ & _ & _ & H) Hq. destruct (H q) as [->|(Hn & _)]; congruence.
Qed.

Lemma make_many_mmsdm_files_resolves (E : Env) (start end_ : string)
  (t c : MMSDMTable) (base : Path) (w w' : World)
  (files : list MMSDMFile.t) :
  find_mmsdm_table E (name t) = inr c ->
  make_many_mmsdm_files E start end_ t base w = (inr files, w') ->
  resolves base w w' /\
  Forall (fun f => resolved_for base c f /\
                   forall q, q ∈ prefixes (MMSDMFile.data_directory f) ->
                             fs w' !! q = Some Dir) files.
Proof.
  intros Hfind. pose proof (find_mmsdm_table_plain E _ c Hfind) as Hplain.
  unfold make_many_mmsdm_files, bind, lift. rewrite Hfind.
  destruct (date_range E start end_) as [e|months]; [discriminate|].
  intros Hrun.
  apply (for_each_rel _ (resolves base)
           (fun _ f w0 =>
              resolved_for base c f /\
              forall q, q ∈ prefixes (MMSDMFile.data_directory f) ->
                        fs w0 !! q = Some Dir)) in Hrun.
  - destruct Hrun as [Hr Hall]. split; [exact Hr|].
    clear -Hall. induction Hall; constructor; assumption.
  - apply resolves_refl.
  - apply resolves_trans.
  - intros ym f w1 w2 [Hwf Hdirs] Hr. split; [exact Hwf|].
    intros q Hq. eapply resolves_keeps_dir; eauto.
  - intros ym w1 f w2 Hone.
    apply (make_one_mmsdm_file_resolves _ _ _ _ _ _ _ Hplain) in Hone
      as (H1 & H2 & H3).
    auto.
Qed.

(** ** Periods the server does not have *)

Lemma download_one_mmsdm_unavailable (E : Env) (t : MMSDMTable)
  (f : MMSDMFile.t) (dry_run : bool) (w : World) :
  fs w !! clean_fi f = None -> http_get E (MMSDMFile.url f) = None ->
  exists w',
    download_one_mmsdm E t f dry_run w = (inr None, w') /\
    fs w' = fs w /\ store w' = store w /\
    stdout w' =
      stdout w ++ [status " [blue]NOT CACHED[/] " (clean_fi f);
                   status " [red]NOT AVAILABLE[/] "
                          (MMSDMFile.zipfile_path f)].
Proof.
  unfold clean_fi. intros Hnone Hget. unfold download_one_mmsdm.
  rewrite (bind_inr _ _ _ _ _ (exists_run _ w)).
  rewrite Hnone, bool_decide_false by (now intros [? ?]).
  erewrite bind_inr by reflexivity.
  match goal with
  | |- context [bind (check_for_additional_files E f) ?k ?w0] =>
      set (w1 := w0)
  end.
  destruct (check_for_additional_files_run E f w1)
    as (w2 & Hcheck & Hfs2 & Hout2 & Hstore2 & _).
  rewrite (bind_inr _ _ _ _ _ Hcheck).
  match goal with
  | |- context [bind (download_zipfile E f) ?k w2] =>
      destruct (download_zipfile_bind E f k w2)
        as (w3 & _ & Hout3 & Hfs3 & Hstore3 & ->)
  end.
  rewrite Hget. unfold bind, ret, print. cbn [negb].
  eexists. split; [reflexivity|]. cbn [fs store stdout].
  rewrite Hfs3, Hfs2, Hstore3, Hstore2, Hout3, Hout2. subst w1. cbn.
  repeat split. now rewrite <- app_assoc.
Qed.

Lemma omap_all_None {A} (l : list MMSDMFile.t) (rs : list (option A)) :
  Forall2 (fun _ r => r = None) l rs -> omap id rs = [].
Proof. induction 1 as [|f r l rs -> _ IH]; [reflexivity | exact IH]. Qed.

(** C8.  A period the server does not have, and which is not cached, is
    reported as "NOT AVAILABLE": [download_one_mmsdm] returns [None],
    raises nothing and leaves the files as they are.  When this is so for
    every period of a range, [download_mmsdm] returns the empty frame, and
    no regular file has come to exist. *)
Theorem download_mmsdm_unavailable (E : Env) :
  (forall t f dry_run w,
     fs w !! clean_fi f = None -> http_get E (MMSDMFile.url f) = None ->
     exists w',
       download_one_mmsdm E t f dry_run w = (inr None, w') /\
       fs w' = fs w /\
       stdout w' =
         stdout w ++ [status " [blue]NOT CACHED[/] " (clean_fi f);
                      status " [red]NOT AVAILABLE[/] "
                             (MMSDMFile.zipfile_path f)]) /\
  (forall start end_ table_name base dry_run w c files w1,
     find_mmsdm_table E table_name = inr c ->
     make_many_mmsdm_files E start end_ c base w = (inr files, w1) ->
     (forall f, f ∈ files -> fs w !! clean_fi f = None) ->
     (forall f, f ∈ files -> http_get E (MMSDMFile.url f) = None) ->
     exists w',
       download_mmsdm E start end_ table_name base dry_run w
         = (inr empty_frame, w') /\
       forall p content,
         fs w' !! p = Some (File content) -> fs w !! p = Some (File content)).
Proof.
  split.
  - intros t f dry_run w Hnone Hget.
    destruct (download_one_mmsdm_unavailable E t f dry_run w Hnone Hget)
      as (w' & Hrun & Hfs & _ & Hout).
    eauto.
  - intros start end_ table_name base dry_run w c files w1
      Hfind Hmany Hclean Hget.
    assert (find_mmsdm_table E (name c) = inr c) as Hfind'.
    { unfold find_mmsdm_table in Hfind |- *.
      destruct (first_named _ table_name) as [u|] eqn:Hf; [|discriminate].
      injection Hfind as ->. apply first_named_Some in Hf as [Hin Hn].
      now rewrite (first_named_unique _ _ _ (mmsdm_tables_NoDup E) Hin
                     eq_refl). }
    destruct (make_many_mmsdm_files_resolves E start end_ c c base w w1 files
                Hfind' Hmany) as [Hres Hwf].
    destruct (for_each_returns
                (fun f => download_one_mmsdm E c f dry_run)
                (fun w0 => fs w0 = fs w1)
                (fun _ r => r = @None DataFrame) files) with (w := w1)
      as (rs & w2 & Hloop & Hfs2 & Hrs).
    { intros f w0 Hin Hw0.
      destruct (download_one_mmsdm_unavailable E c f dry_run w0)
        as (w' & Hrun & Hfs & _).
      - rewrite Forall_forall in Hwf.
        destruct (Hwf f Hin) as [(_ & Hdd & _) _].
        rewrite Hw0.
        destruct Hres as (_ & _ & _ & _ & Hk).
        destruct (Hk (clean_fi f)) as [->|(_ & _ & Hlen)];
          [now apply Hclean|].
        rewrite length_clean_fi in Hlen. lia.
      - now apply Hget.
      - exists None, w'. repeat split; [assumption | congruence]. }
    { reflexivity. }
    exists w2. split.
    + unfold download_mmsdm, bind, lift. rewrite Hfind, Hmany, Hloop.
      now rewrite (omap_all_None _ _ Hrs).
    + intros p content Hp. rewrite Hfs2 in Hp.
      destruct Hres as (_ & _ & _ & _ & Hk).
      destruct (Hk p) as [Heq|(_ & Hdir & _)]; congruence.
Qed.

Lemma download_mmsdm_unavailable_witness :
  exists w',
    download_mmsdm Bench.env "2020-02" "2020-03" "predispatch" Bench.base
      false Bench.world = (inr empty_frame, w') /\
    forall p content, fs w' !! p <> Some (File content).
Proof.
  destruct (download_mmsdm_unavailable Bench.env) as [_ Hrange].
  destruct (make_many_mmsdm_files Bench.env "2020-02" "2020-03"
              Bench.predispatch Bench.base Bench.world)
    as [r w1] eqn:Hmany.
  assert (r = (make_many_mmsdm_files Bench.env "2020-02" "2020-03"
                 Bench.predispatch Bench.base Bench.world).1) as Hr
    by now rewrite Hmany.
  vm_compute in Hr. subst r.
  match type of Hmany with
  | _ = (inr ?fl, _) =>
      destruct (Hrange "2020-02" "2020-03" "predispatch" Bench.base false
                  Bench.world Bench.predispatch fl w1 eq_refl Hmany)
        as (w' & Hrun & Hfiles)
  end.
  - intros f _. apply lookup_empty.
  - intros f Hf.
    repeat (apply elem_of_cons in Hf as [->|Hf]; [reflexivity|]).
    now apply elem_of_nil in Hf.
  - exists w'. split; [exact Hrun|]. intros p content Hp.
    apply Hfiles in Hp. cbn in Hp. now rewrite lookup_empty in Hp.
Defined.

(** ** Paths of a resolved file *)

Lemma parent_entry (dd : Path) (x : string) : parent (entry dd x) = dd.
Proof.
  unfold parent, entry. rewrite length_app. cbn [length].
  replace (length dd + 1 - 1)%nat with (length dd) by lia.
  now rewrite take_app_length.
Qed.

Lemma with_suffix_clean (dd : Path) (suffix : string) :
  with_suffix (dd // "clean.parquet") suffix
  = entry dd ("clean" +:+ suffix).
Proof.
  change (dd // "clean.parquet") with (entry dd "clean.parquet").
  unfold with_suffix, entry. rewrite reverse_snoc, reverse_involutive.
  reflexivity.
Qed.

Lemma within_entry (dd : Path) (x : string) : within dd (entry dd x).
Proof. now exists x. Qed.

Lemma within_clean (dd dd' : Path) :
  within dd (dd' // "clean.parquet") -> dd' = dd.
Proof.
  intros [x Hx]. change (dd' // "clean.parquet") with (dd' ++ ["clean.parquet"]) in Hx.
  unfold entry in Hx. now apply app_inj_tail in Hx.
Qed.

(** ** One period, processed *)

Lemma download_one_mmsdm_within (E : Env) (t : MMSDMTable) (f : MMSDMFile.t)
  (dry_run : bool) :
  MMSDMFile.zipfile_path f = MMSDMFile.data_directory f // "raw.zip" ->
  preserves (evolves (within (MMSDMFile.data_directory f)))
            (download_one_mmsdm E t f dry_run).
Proof.
  intros Hzip. apply preserves_download_one_mmsdm.
  - rewrite Hzip. apply (within_entry _ "raw.zip").
  - intros x. rewrite Hzip.
    change (MMSDMFile.data_directory f // "raw.zip")
      with (entry (MMSDMFile.data_directory f) "raw.zip").
    rewrite parent_entry. apply within_entry.
  - rewrite with_suffix_clean. apply within_entry.
  - rewrite with_suffix_clean. apply within_entry.
Qed.

Lemma write_inv (p : Path) (c : Content) (w w' : World) (u : unit) :
  write p c w = (inr u, w') -> fs w' !! p = Some (File c).
Proof.
  unfold write.
  destruct (fs w !! parent p) as [[|c0]|]; try discriminate.
  destruct (fs w !! p) as [[|c1]|]; try discriminate;
    intros [= _ <-]; cbn; apply lookup_insert_eq.
Qed.

(** Hypotheses on a run that returned are taken apart bind by bind. *)
Ltac invert_bind H :=
  repeat match type of H with
    | bind _ _ _ = (inr _, _) =>
        let a := fresh "a" in
        let w := fresh "w" in
        let Ha := fresh "Hstep" in
        apply bind_inv in H as (a & w & Ha & H)
    end.

(** A miss that returns, with persistence on: either the server does not
    have the archive and nothing is returned, or the data returned are
    what [clean.parquet] holds afterwards. *)
Lemma download_one_mmsdm_miss (E : Env) (t : MMSDMTable) (f : MMSDMFile.t)
  (w w' : World) (r : option DataFrame) :
  fs w !! clean_fi f = None ->
  download_one_mmsdm E t f false w = (inr r, w') ->
  (r = None /\ http_get E (MMSDMFile.url f) = None) \/
  (exists d, r = Some d /\ fs w' !! clean_fi f = Some (File (Parquet d))).
Proof.
  unfold clean_fi. intros Hnone. unfold download_one_mmsdm.
  rewrite (bind_inr _ _ _ _ _ (exists_run _ w)).
  rewrite Hnone, bool_decide_false by (now intros [? ?]).
  erewrite bind_inr by reflexivity.
  match goal with
  | |- context [bind (check_for_additional_files E f) ?k ?w0] =>
      set (w1 := w0)
  end.
  destruct (check_for_additional_files_run E f w1) as (w2 & Hcheck & _).
  rewrite (bind_inr _ _ _ _ _ Hcheck).
  match goal with
  | |- context [bind (download_zipfile E f) ?k w2] =>
      destruct (download_zipfile_bind E f k w2) as (w3 & _ & _ & _ & _ & ->)
  end.
  destruct (http_get E (MMSDMFile.url f)) as [body|].
  - intros Hrun. right.
    apply bind_inv in Hrun as (avail & w4 & Hdl & Hrun).
    apply bind_inv in Hdl as (u & w5 & _ & Hret).
    injection Hret as <- <-. cbn [negb] in Hrun.
    invert_bind Hrun. injection Hrun as <- <-.
    cbn [negb] in *.
    match goal with
    | H : bind (print _) _ _ = (inr _, _) |- _ =>
        apply bind_inv in H as (? & ? & _ & H);
        apply bind_inv in H as (? & ? & _ & H);
        rewrite with_suffix_clean in H; apply write_inv in H
    end.
    eexists. split; [reflexivity|]. eassumption.
  - intros Hrun. left. unfold bind, ret, print in Hrun. cbn [negb] in Hrun.
    injection Hrun as <- _. split; reflexivity.
Qed.

(** ** A range, processed twice *)

Lemma Forall2_impl_in {A B} (P Q : A -> B -> Prop) (l : list A)
  (k : list B) :
  Forall2 P l k -> (forall x y, x ∈ l -> P x y -> Q x y) -> Forall2 Q l k.
Proof.
  induction 1 as [|x y l k Hxy _ IH]; intros H; constructor.
  - apply H; [apply elem_of_cons; now left | exact Hxy].
  - apply IH. intros x' y' Hin. apply H, elem_of_cons. now right.
Qed.

Lemma Forall2_map_eq {A B C} (g : B -> C) (h : A -> C) (l : list A)
  (k : list B) :
  Forall2 (fun a b => g b = h a) l k -> map g k = map h l.
Proof. induction 1 as [|a b l k Hab _ IH]; cbn; congruence. Qed.

Lemma preserves_for_each_in {A B} (P : Path -> Prop) (body : A -> M B)
  (l : list A) :
  (forall a, a ∈ l -> preserves (evolves P) (body a)) ->
  preserves (evolves P) (for_each body l).
Proof.
  induction l as [|a l IH]; intros H; cbn [for_each].
  - apply preserves_ret.
  - apply preserves_bind; [apply H, elem_of_cons; now left|]. intros b.
    apply preserves_bind.
    + apply IH. intros a' Ha'. apply H, elem_of_cons. now right.
    + intros bs. apply preserves_ret.
Qed.

(** *** What is left untouched *)

Lemma untouched_same_fs (p : Path) (w w' : World) :
  fs w' = fs w -> untouched p w w'.
Proof. intros H k _. now rewrite H. Qed.

Lemma evolves_untouched (p : Path) (w w' : World) :
  evolves (fun k => ~ p `prefix_of` k) w w' -> untouched p w w'.
Proof. intros (_ & _ & H & _) k Hk. apply H. intros Hn. exact (Hn Hk). Qed.

Lemma below_untouched (p : Path) (w w' : World) :
  untouched p w w' -> below p (fs w') = below p (fs w).
Proof.
  intros H. unfold below. apply map_filter_strong_ext.
  intros k x. cbn [fst].
  split; intros [[Hp Hne] Hx]; (split; [now split|]).
  - etransitivity; [symmetry; exact (H k Hp) | exact Hx].
  - etransitivity; [exact (H k Hp) | exact Hx].
Qed.

Lemma read_parquet_untouched (E : Env) (p : Path) (w w' : World) :
  untouched p w w' -> (read_parquet E p w').1 = (read_parquet E p w).1.
Proof.
  intros H. unfold read_parquet.
  rewrite (H p) by reflexivity. rewrite (below_untouched p w w' H).
  destruct (fs w !! p) as [[|[b|ms|d]]|]; try reflexivity.
  now destruct (map_to_list _).
Qed.

Lemma read_parquet_eq (E : Env) (p : Path) (w : World) :
  read_parquet E p w = ((read_parquet E p w).1, w).
Proof.
  pose proof (read_parquet_world E p w) as Hw.
  destruct (read_parquet E p w) as [r w0]. cbn in Hw |- *. now subst.
Qed.

Lemma read_parquet_is_Some (E : Env) (p : Path) (w : World) (d : DataFrame) :
  read_parquet E p w = (inr d, w) -> is_Some (fs w !! p).
Proof.
  unfold read_parquet. destruct (fs w !! p); [eauto|discriminate].
Qed.

Lemma leaves_untouched (E : Env) (f : MMSDMFile.t) (r : option DataFrame)
  (w w' : World) :
  untouched (clean_fi f) w w' -> leaves E w f r -> leaves E w' f r.
Proof.
  intros H. destruct r as [d|]; cbn [leaves].
  - intros Hr. rewrite read_parquet_eq.
    now rewrite (read_parquet_untouched E _ w w' H), Hr.
  - intros [Hn Hg]. split; [|exact Hg]. now rewrite (H _ (reflexivity _)).
Qed.

(** The entries of another data directory at the same depth are not
    below the artifact. *)
Lemma away_from (f g : MMSDMFile.t) (x : string) :
  length (MMSDMFile.data_directory g) = length (MMSDMFile.data_directory f) ->
  MMSDMFile.data_directory g <> MMSDMFile.data_directory f ->
  ~ clean_fi f `prefix_of` entry (MMSDMFile.data_directory g) x.
Proof.
  intros Hlen Hne Hpre. apply prefix_length_eq in Hpre.
  - change (clean_fi f)
      with (MMSDMFile.data_directory f ++ ["clean.parquet"]) in Hpre.
    unfold entry in Hpre. apply app_inj_tail in Hpre as [H _].
    now destruct Hne.
  - rewrite length_clean_fi, length_entry. lia.
Qed.

Lemma download_one_mmsdm_away (E : Env) (t : MMSDMTable)
  (f g : MMSDMFile.t) (dry_run : bool) :
  MMSDMFile.zipfile_path g = MMSDMFile.data_directory g // "raw.zip" ->
  length (MMSDMFile.data_directory g) = length (MMSDMFile.data_directory f) ->
  MMSDMFile.data_directory g <> MMSDMFile.data_directory f ->
  preserves (evolves (fun k => ~ clean_fi f `prefix_of` k))
            (download_one_mmsdm E t g dry_run).
Proof.
  intros Hzip Hlen Hne. apply preserves_download_one_mmsdm.
  - rewrite Hzip. exact (away_from f g "raw.zip" Hlen Hne).
  - intros x. rewrite Hzip.
    change (MMSDMFile.data_directory g // "raw.zip")
      with (entry (MMSDMFile.data_directory g) "raw.zip").
    rewrite parent_entry. now apply away_from.
  - rewrite with_suffix_clean. now apply away_from.
  - rewrite with_suffix_clean. now apply away_from.
Qed.

(** *** One period *)

Lemma kept_or_saved_after (E : Env) (w wa wb : World) (f : MMSDMFile.t)
  (r : option DataFrame) :
  untouched (clean_fi f) wa wb ->
  kept_or_saved E w wa f r -> kept_or_saved E w wb f r.
Proof.
  intros H. unfold kept_or_saved. rewrite (H _ (reflexivity _)). auto.
Qed.

Lemma kept_or_saved_before (E : Env) (w wa wb : World) (f : MMSDMFile.t)
  (r : option DataFrame) :
  untouched (clean_fi f) w wa ->
  kept_or_saved E wa wb f r -> kept_or_saved E w wb f r.
Proof.
  intros H. unfold kept_or_saved. rewrite (H _ (reflexivity _)). auto.
Qed.

(** What one period of a run with persistence leaves, and what it did to
    the artifact. *)
Lemma download_one_mmsdm_leaves (E : Env) (t : MMSDMTable) (f : MMSDMFile.t)
  (w w' : World) (r : option DataFrame) :
  download_one_mmsdm E t f false w = (inr r, w') ->
  leaves E w' f r /\ kept_or_saved E w w' f r.
Proof.
  intros Hrun. destruct (fs w !! clean_fi f) as [node|] eqn:Hclean.
  - rewrite download_one_mmsdm_hit in Hrun by (rewrite Hclean; eauto).
    destruct ((read_parquet E (clean_fi f) w).1) as [e|d] eqn:Hread;
      [discriminate|].
    injection Hrun as <- <-. split; [|now left].
    cbn [leaves].
    match goal with
    | |- read_parquet E ?p ?w0 = _ =>
        rewrite (read_parquet_eq E p w0), (read_parquet_fs E p w w0 eq_refl),
          Hread
    end.
    reflexivity.
  - destruct (http_get E (MMSDMFile.url f)) as [body|] eqn:Hget.
    + destruct (download_one_mmsdm_miss E t f w w' r Hclean Hrun)
        as [[_ Hnone]|(d & -> & Hd)]; [congruence|].
      split; [|right; eauto 6].
      cbn [leaves]. unfold read_parquet. now rewrite Hd.
    + destruct (download_one_mmsdm_unavailable E t f false w Hclean Hget)
        as (w'' & Hrun' & Hfs & _).
      rewrite Hrun in Hrun'. injection Hrun' as -> ->.
      split; [|left; now rewrite Hfs].
      cbn [leaves]. split; [now rewrite Hfs | exact Hget].
Qed.

Lemma check_for_additional_files_sent (E : Env) (f : MMSDMFile.t)
  (w : World) :
  exists w',
    check_for_additional_files E f w = (inr tt, w') /\
    fs w' = fs w /\ stdout w' = stdout w /\ store w' = store w /\
    sent w' = sent w ++ probe f.
Proof.
  unfold check_for_additional_files, probe.
  destruct (Py.contains "FILE01" (MMSDMFile.url f)); cbn [negb].
  - unfold bind, send.
    repeat match goal with
           | |- context [match ?x with _ => _ end] => destruct x
           end;
      cbn; eexists; (split; [reflexivity|]); cbn; repeat split.
  - exists w. repeat split. now rewrite app_nil_r.
Qed.

(** A period that is neither cached nor on the server is asked for
    again, and nothing else happens. *)
Lemma download_one_mmsdm_retry (E : Env) (t : MMSDMTable) (f : MMSDMFile.t)
  (dry_run : bool) (w : World) :
  fs w !! clean_fi f = None -> http_get E (MMSDMFile.url f) = None ->
  exists w',
    download_one_mmsdm E t f dry_run w = (inr None, w') /\
    fs w' = fs w /\ store w' = store w /\
    stdout w' =
      stdout w ++ [status " [blue]NOT CACHED[/] " (clean_fi f);
                   status " [red]NOT AVAILABLE[/] "
                          (MMSDMFile.zipfile_path f)] /\
    sent w' = sent w ++ probe f ++ [(GET, MMSDMFile.url f)].
Proof.
  unfold clean_fi. intros Hnone Hget. unfold download_one_mmsdm.
  rewrite (bind_inr _ _ _ _ _ (exists_run _ w)).
  rewrite Hnone, bool_decide_false by (now intros [? ?]).
  erewrite bind_inr by reflexivity.
  match goal with
  | |- context [bind (check_for_additional_files E f) ?k ?w0] =>
      set (w1 := w0)
  end.
  destruct (check_for_additional_files_sent E f w1)
    as (w2 & Hcheck & Hfs2 & Hout2 & Hstore2 & Hsent2).
  rewrite (bind_inr _ _ _ _ _ Hcheck).
  match goal with
  | |- context [bind (download_zipfile E f) ?k w2] =>
      destruct (download_zipfile_bind E f k w2)
        as (w3 & Hsent3 & Hout3 & Hfs3 & Hstore3 & ->)
  end.
  rewrite Hget. unfold bind, ret, print. cbn [negb].
  eexists. split; [reflexivity|]. cbn [fs store stdout sent].
  rewrite Hfs3, Hfs2, Hstore3, Hstore2, Hout3, Hout2, Hsent3, Hsent2.
  subst w1. cbn. repeat split; now rewrite <- app_assoc.
Qed.

(** *** The loops of the two runs *)

(** The loop of a run with persistence, over files with data directories
    of their own at one depth: every period leaves what a later run
    needs. *)
Lemma first_run (E : Env) (c : MMSDMTable) (n : nat)
  (files : list MMSDMFile.t) :
  forall (w w' : World) (rs : list (option DataFrame)),
    Forall (fun f => MMSDMFile.zipfile_path f
                     = MMSDMFile.data_directory f // "raw.zip" /\
                     length (MMSDMFile.data_directory f) = n) files ->
    NoDup (map MMSDMFile.data_directory files) ->
    for_each (fun f => download_one_mmsdm E c f false) files w = (inr rs, w') ->
    Forall2 (fun f r => leaves E w' f r /\ kept_or_saved E w w' f r)
            files rs.
Proof.
  induction files as [|f files IH]; intros w w' rs Hwf Hnd Hrun.
  - cbn in Hrun. injection Hrun as <- <-. constructor.
  - cbn [for_each] in Hrun.
    apply bind_inv in Hrun as (r & wa & Hone & Hrun).
    apply bind_inv in Hrun as (rs' & wb & Hrest & Hrun).
    injection Hrun as <- <-.
    apply Forall_cons in Hwf as [[Hzip Hlen] Hwf].
    cbn [map] in Hnd. apply NoDup_cons in Hnd as [Hfresh Hnd].
    assert (forall g, g ∈ files ->
              MMSDMFile.zipfile_path g
              = MMSDMFile.data_directory g // "raw.zip" /\
              length (MMSDMFile.data_directory g)
              = length (MMSDMFile.data_directory f) /\
              MMSDMFile.data_directory g <> MMSDMFile.data_directory f)
      as Hothers.
    { intros g Hg. rewrite Forall_forall in Hwf.
      destruct (Hwf g Hg) as [Hz Hl]. split; [exact Hz|].
      split; [congruence|]. intros Heq. apply Hfresh.
      rewrite <- Heq. apply list_elem_of_fmap. now exists g. }
    destruct (download_one_mmsdm_leaves E c f w wa r Hone)
      as [Hleaves Hwhy].
    pose proof (IH wa wb rs' Hwf Hnd Hrest) as Hall.
    constructor.
    + assert (untouched (clean_fi f) wa wb) as Hunt;
        [|split; [exact (leaves_untouched E f r wa wb Hunt Hleaves)
                 |exact (kept_or_saved_after E w wa wb f r Hunt Hwhy)]].
      apply evolves_untouched.
      pose proof (preserves_for_each_in
                    (fun k => ~ clean_fi f `prefix_of` k)
                    (fun g => download_one_mmsdm E c g false) files) as Hloop.
      specialize (Hloop (fun g Hg =>
                           download_one_mmsdm_away E c f g false
                             (proj1 (Hothers g Hg))
                             (proj1 (proj2 (Hothers g Hg)))
                             (proj2 (proj2 (Hothers g Hg)))) wa).
      now rewrite Hrest in Hloop.
    + apply (Forall2_impl_in _ _ _ _ Hall).
      intros g rg Hg [Hl Hy]. split; [exact Hl|].
      destruct (Hothers g Hg) as (_ & Hlg & Hneg).
      pose proof (download_one_mmsdm_away E c g f false Hzip
                    (eq_sym Hlg) (fun H => Hneg (eq_sym H)) w) as Hstep.
      rewrite Hone in Hstep. apply evolves_untouched in Hstep.
      exact (kept_or_saved_before E w wa wb g rg Hstep Hy).
Qed.

Lemma leaves_same_fs (E : Env) (files : list MMSDMFile.t)
  (rs : list (option DataFrame)) (w w' : World) :
  fs w' = fs w ->
  Forall2 (leaves E w) files rs -> Forall2 (leaves E w') files rs.
Proof.
  intros Hfs Hall. apply (Forall2_impl _ _ _ _ Hall).
  intros f r. apply leaves_untouched. now apply untouched_same_fs.
Qed.

(** The loop of a run in a world where every period has left what it
    should: nothing is processed again. *)
Lemma second_run (E : Env) (c : MMSDMTable) (dry_run : bool)
  (files : list MMSDMFile.t) :
  forall (rs : list (option DataFrame)) (w : World),
    Forall2 (leaves E w) files rs ->
    exists w2,
      for_each (fun f => download_one_mmsdm E c f dry_run) files w
        = (inr rs, w2) /\
      fs w2 = fs w /\ store w2 = store w /\
      stdout w2 = stdout w ++ flat_map (report w) files /\
      sent w2 = sent w ++ flat_map (requests w) files.
Proof.
  induction files as [|f files IH]; intros rs w Hall.
  - inversion Hall; subst. exists w. cbn. unfold ret.
    now rewrite !app_nil_r.
  - inversion Hall as [|? r ? rs' Hf Hall']; subst.
    assert (exists wa,
              download_one_mmsdm E c f dry_run w = (inr r, wa) /\
              fs wa = fs w /\ store wa = store w /\
              stdout wa = stdout w ++ report w f /\
              sent wa = sent w ++ requests w f)
      as (wa & Hone & Hfs & Hstore & Hout & Hsent).
    { unfold report, requests. destruct r as [d|]; cbn [leaves] in Hf.
      - pose proof (read_parquet_is_Some E _ w d Hf) as Hex.
        rewrite (download_one_mmsdm_hit E c f dry_run w Hex), Hf.
        rewrite bool_decide_true by exact Hex.
        eexists. split; [reflexivity|]. cbn. rewrite app_nil_r.
        repeat split.
      - destruct Hf as [Hnone Hget].
        rewrite Hnone, bool_decide_false by (now intros [? ?]).
        exact (download_one_mmsdm_retry E c f dry_run w Hnone Hget). }
    destruct (IH rs' wa (leaves_same_fs E files rs' w wa Hfs Hall'))
      as (w2 & Hrest & Hfs2 & Hstore2 & Hout2 & Hsent2).
    exists w2. split.
    + cbn [for_each]. rewrite (bind_inr _ _ _ _ _ Hone).
      now rewrite (bind_inr _ _ _ _ _ Hrest).
    + rewrite Hfs2, Hstore2, Hout2, Hsent2, Hfs, Hstore, Hout, Hsent.
      cbn [flat_map]. rewrite <- !app_assoc.
      rewrite (flat_map_ext (report wa) (report w))
        by (intros g; unfold report; now rewrite Hfs).
      rewrite (flat_map_ext (requests wa) (requests w))
        by (intros g; unfold requests; now rewrite Hfs).
      repeat split.
Qed.

(** Making a directory that is there changes nothing. *)
Lemma mkdir_again (p : Path) (w : World) :
  (forall q, q ∈ prefixes p -> fs w !! q = Some Dir) ->
  mkdir p w = (inr tt, w).
Proof.
  intros Hdirs. rewrite mkdir_clear.
  - f_equal. unfold set_fs.
    replace (foldr _ (fs w) (prefixes p)) with (fs w); [now destruct w|].
    apply map_eq. intros k. rewrite lookup_mkdirs.
    case_decide as Hk; [now apply Hdirs | reflexivity].
  - apply existsb_is_file_false. intros q Hq. unfold is_file.
    now rewrite (Hdirs q Hq).
Qed.

(** The file resolved depends on the arguments alone. *)
Lemma make_one_mmsdm_file_factor (year month : Z) (t : MMSDMTable)
  (base : Path) :
  exists f, forall w,
    make_one_mmsdm_file year month t base w =
    bind (mkdir (MMSDMFile.data_directory f)) (fun _ => ret f) w.
Proof.
  unfold make_one_mmsdm_file.
  destruct (Py.pair_geb (year, month) (2024, 8)); cbv beta iota zeta;
    match goal with
    | |- context [ret ?r] => exists r
    end; intros w; reflexivity.
Qed.

Lemma make_one_mmsdm_file_again (year month : Z) (t : MMSDMTable)
  (base : Path) (w w' w2 : World) (f : MMSDMFile.t) :
  make_one_mmsdm_file year month t base w = (inr f, w') ->
  (forall q, q ∈ prefixes (MMSDMFile.data_directory f) ->
             fs w2 !! q = Some Dir) ->
  make_one_mmsdm_file year month t base w2 = (inr f, w2).
Proof.
  destruct (make_one_mmsdm_file_factor year month t base) as [g Hg].
  rewrite !Hg. intros Hrun Hdirs.
  apply bind_inv in Hrun as (u & w1 & _ & Hret).
  injection Hret as <- _.
  now rewrite (bind_inr _ _ _ _ _ (mkdir_again _ w2 Hdirs)).
Qed.

Lemma make_many_mmsdm_files_again (E : Env) (start end_ : string)
  (t : MMSDMTable) (base : Path) (w w' w2 : World)
  (files : list MMSDMFile.t) :
  make_many_mmsdm_files E start end_ t base w = (inr files, w') ->
  Forall (fun f => forall q, q ∈ prefixes (MMSDMFile.data_directory f) ->
                             fs w2 !! q = Some Dir) files ->
  make_many_mmsdm_files E start end_ t base w2 = (inr files, w2).
Proof.
  unfold make_many_mmsdm_files, bind, lift.
  destruct (find_mmsdm_table E (name t)) as [e|c]; [discriminate|].
  destruct (date_range E start end_) as [e|months]; [discriminate|].
  revert w w' files.
  induction months as [|[y m] months IH]; intros w w' files Hrun Hdirs.
  - cbn in Hrun |- *. now injection Hrun as <- _.
  - cbn [for_each] in Hrun |- *.
    apply bind_inv in Hrun as (f & wa & Hone & Hrun).
    apply bind_inv in Hrun as (fl & wb & Hrest & Hrun).
    injection Hrun as <- <-.
    apply Forall_cons in Hdirs as [Hf Hfl].
    rewrite (bind_inr _ _ _ _ _
               (make_one_mmsdm_file_again _ _ _ _ _ _ w2 _ Hone Hf)).
    now rewrite (bind_inr _ _ _ _ _ (IH _ _ _ Hrest Hfl)).
Qed.

Lemma resolves_keeps (base : Path) (w w' : World) (p : Path) :
  resolves base w w' -> is_Some (fs w !! p) -> is_Some (fs w' !! p).
Proof.
  intros (_ & _ & _ & _ & H) Hp.
  destruct (H p) as [->|(Hn & _)]; [assumption|].
  rewrite Hn in Hp. now destruct Hp.
Qed.

(** Resolving makes no artifact: the directories it makes are above
    them. *)
Lemma resolves_clean_fi (base : Path) (w w' : World) (f : MMSDMFile.t) :
  resolves base w w' ->
  length (MMSDMFile.data_directory f) = (length base + 2)%nat ->
  fs w' !! clean_fi f = fs w !! clean_fi f.
Proof.
  intros (_ & _ & _ & _ & H) Hlen.
  destruct (H (clean_fi f)) as [Heq|(_ & _ & Hk)]; [exact Heq|].
  rewrite length_clean_fi in Hk. lia.
Qed.

(** *** The periods of a range have directories of their own *)

Lemma month_starts_NoDup (s e : Date) : NoDup (month_starts s e).
Proof.
  apply NoDup_alt. intros i j x Hi Hj.
  destruct (Nat.lt_trichotomy i j) as [H|[H|H]]; [|assumption|].
  - pose proof (month_starts_increasing s e i j x x H Hi Hj) as Hlt.
    unfold month_lt in Hlt. lia.
  - pose proof (month_starts_increasing s e j i x x H Hj Hi) as Hlt.
    unfold month_lt in Hlt. lia.
Qed.

Lemma month_starts_valid (s e : Date) (y m : Z) :
  (y, m) ∈ month_starts s e -> 1 <= m <= 12.
Proof.
  unfold month_starts. rewrite list_elem_of_fmap. intros (k & Hk & _).
  symmetry in Hk. now apply month_of_number_spec in Hk as [Hm _].
Qed.

Lemma make_many_mmsdm_files_NoDup (E : Env) (start end_ : string)
  (t c : MMSDMTable) (base : Path) (w w' : World)
  (files : list MMSDMFile.t) :
  find_mmsdm_table E (name t) = inr c ->
  make_many_mmsdm_files E start end_ t base w = (inr files, w') ->
  NoDup (map MMSDMFile.data_directory files).
Proof.
  intros Hfind. pose proof (find_mmsdm_table_plain E _ c Hfind) as Hplain.
  unfold make_many_mmsdm_files, bind, lift, date_range. rewrite Hfind.
  destruct (to_timestamp E start) as [s|]; [|discriminate].
  destruct (to_timestamp E end_) as [e|]; [|discriminate].
  intros Hrun.
  apply (for_each_inv _
           (fun ym f => MMSDMFile.data_directory f
                        = entry (entry base (name c)) (period ym.1 ym.2)))
    in Hrun.
  - rewrite (Forall2_map_eq _ _ _ _ Hrun).
    apply NoDup_fmap_2_strong; [|apply month_starts_NoDup].
    intros [y m] [y' m'] Hin Hin' Heq. unfold entry in Heq.
    apply app_inj_tail in Heq as [_ Heq]. cbn [fst snd] in Heq.
    apply period_inj in Heq as [-> ->]; eauto using month_starts_valid.
  - intros ym w0 f w1 Hone.
    apply make_one_mmsdm_file_inv in Hone as (_ & _ & _ & _ & _ & Hdd & _).
    rewrite Hdd. fold (period ym.1 ym.2).
    now rewrite (div_plain _ _ (period_plain _ _)), (div_plain _ _ Hplain).
Qed.

(** What a range resolved for a table of the catalog gives the loops. *)
Lemma make_many_mmsdm_files_ready (E : Env) (start end_ : string)
  (c : MMSDMTable) (base : Path) (w wm : World) (files : list MMSDMFile.t) :
  find_mmsdm_table E (name c) = inr c ->
  make_many_mmsdm_files E start end_ c base w = (inr files, wm) ->
  Forall (fun f => MMSDMFile.zipfile_path f
                   = MMSDMFile.data_directory f // "raw.zip" /\
                   length (MMSDMFile.data_directory f)
                   = (length base + 2)%nat) files /\
  NoDup (map MMSDMFile.data_directory files).
Proof.
  intros Hfind Hmany.
  destruct (make_many_mmsdm_files_resolves E start end_ c c base w wm files
              Hfind Hmany) as [_ Hwf].
  split; [|exact (make_many_mmsdm_files_NoDup E start end_ c c base w wm
                    files Hfind Hmany)].
  apply (Forall_impl _ _ _ Hwf). now intros f [(_ & Hlen & Hzip) _].
Qed.

Lemma find_mmsdm_table_name (E : Env) (n : string) (c : MMSDMTable) :
  find_mmsdm_table E n = inr c -> find_mmsdm_table E (name c) = inr c.
Proof.
  unfold find_mmsdm_table.
  destruct (first_named _ n) as [u|] eqn:Hf; [|discriminate].
  intros [= ->]. apply first_named_Some in Hf as [Hin Hn].
  now rewrite (first_named_unique _ _ _ (mmsdm_tables_NoDup E) Hin eq_refl).
Qed.

(** C3, as the code has it.  When a run with persistence on returns, a
    second run with the same arguments returns the same data and leaves
    the files and the lists of the catalog as they are.  A period whose
    artifact is there after the first run is reported as "CACHED" and
    nothing is requested for it; these are the periods that were in the
    cache or on the server at the first run.  Every other period is
    reported as "NOT CACHED" and "NOT AVAILABLE" again, and its archive is
    requested again. *)
Theorem download_mmsdm_twice (E : Env) (start end_ table_name : string)
  (base : Path) (w wm w1 : World) (c : MMSDMTable)
  (files : list MMSDMFile.t) (data : DataFrame) :
  find_mmsdm_table E table_name = inr c ->
  make_many_mmsdm_files E start end_ c base w = (inr files, wm) ->
  download_mmsdm E start end_ table_name base false w = (inr data, w1) ->
  exists w2,
    download_mmsdm E start end_ table_name base false w1 = (inr data, w2) /\
    fs w2 = fs w1 /\ store w2 = store w1 /\
    stdout w2 = stdout w1 ++ flat_map (report w1) files /\
    sent w2 = sent w1 ++ flat_map (requests w1) files /\
    forall f, f ∈ files ->
              (is_Some (fs w1 !! clean_fi f) <->
               is_Some (fs w !! clean_fi f) \/
               is_Some (http_get E (MMSDMFile.url f))).
Proof.
  intros Hfind Hmany Hrun.
  pose proof (find_mmsdm_table_name E _ c Hfind) as Hfind'.
  destruct (make_many_mmsdm_files_resolves E start end_ c c base w wm files
              Hfind' Hmany) as [Hres Hwf].
  destruct (make_many_mmsdm_files_ready E start end_ c base w wm files
              Hfind' Hmany) as [Hready Hnd].
  unfold download_mmsdm in Hrun.
  rewrite (bind_inr _ _ w w c) in Hrun by (unfold lift; now rewrite Hfind).
  rewrite (bind_inr _ _ _ _ _ Hmany) in Hrun.
  apply bind_inv in Hrun as (rs & w1' & Hloop & Hrun).
  assert (w1' = w1 /\
          (match pd_concat (omap id rs) with
           | inr d => d
           | inl _ => empty_frame
           end) = data) as [-> Hdata].
  { destruct (pd_concat (omap id rs)) as [[]|d];
      cbn in Hrun; try discriminate; now injection Hrun as <- <-. }
  pose proof (first_run E c _ files wm w1 rs Hready Hnd Hloop) as Hall.
  assert (evolves anywhere wm w1) as Hev.
  { assert (preserves (evolves anywhere)
              (for_each (fun f => download_one_mmsdm E c f false) files))
      as Hp.
    { apply preserves_for_each. intros g.
      apply preserves_download_one_mmsdm; try exact I. intros x. exact I. }
    specialize (Hp wm). now rewrite Hloop in Hp. }
  destruct Hev as (_ & _ & _ & Hdirs & Hkeeps).
  destruct (second_run E c false files rs w1)
    as (w2 & Hloop2 & Hfs2 & Hstore2 & Hout2 & Hsent2).
  { apply (Forall2_impl _ _ _ _ Hall). now intros f r [Hl _]. }
  exists w2. split; [|split; [exact Hfs2|split; [exact Hstore2|]]].
  - unfold download_mmsdm.
    rewrite (bind_inr _ _ w1 w1 c) by (unfold lift; now rewrite Hfind).
    rewrite (bind_inr _ _ _ _ _
               (make_many_mmsdm_files_again E start end_ c base w wm w1 files
                  Hmany
                  (proj2 (Forall_forall _ _)
                     (fun f Hf q Hq =>
                        Hdirs q
                          (proj2 (proj1 (Forall_forall _ _) Hwf f Hf) q Hq))))).
    rewrite (bind_inr _ _ _ _ _ Hloop2).
    destruct (pd_concat (omap id rs)) as [[]|d]; cbn in Hrun |- *;
      try discriminate; unfold ret; now rewrite <- Hdata.
  - split; [exact Hout2|]. split; [exact Hsent2|].
    intros f Hf.
    apply list_elem_of_lookup in Hf as [i Hi].
    destruct (Forall2_lookup_l _ _ _ i f Hall Hi) as (r & _ & Hl & Hks).
    assert (length (MMSDMFile.data_directory f) = (length base + 2)%nat)
      as Hlen.
    { rewrite Forall_forall in Hready.
      apply Hready. apply list_elem_of_lookup. eauto. }
    rewrite <- (resolves_clean_fi base w wm f Hres Hlen).
    split.
    + intros Hex. destruct Hks as [Hkept|(_ & Ha & _)]; [left|now right].
      now rewrite <- Hkept.
    + intros [Hc|Ha]; [now apply Hkeeps|].
      destruct r as [d|]; cbn [leaves] in Hl;
        [exact (read_parquet_is_Some E _ w1 d Hl)|].
      destruct Hl as [_ Hget]. rewrite Hget in Ha. now destruct Ha.
Qed.

Lemma download_mmsdm_twice_witness :
  exists data w1 w2,
    download_mmsdm Bench.env "2020-01" "2020-02" "dispatch-price" Bench.base
      false Bench.world = (inr data, w1) /\
    download_mmsdm Bench.env "2020-01" "2020-02" "dispatch-price" Bench.base
      false w1 = (inr data, w2) /\
    fs w2 = fs w1 /\
    stdout w2 =
      stdout w1 ++
      [" [blue]CACHED[/] / data dispatch-price 2020-01 clean.parquet";
       " [blue]NOT CACHED[/] / data dispatch-price 2020-02 clean.parquet";
       " [red]NOT AVAILABLE[/] / data dispatch-price 2020-02 raw.zip"].
Proof.
  destruct (make_many_mmsdm_files Bench.env "2020-01" "2020-02"
              Bench.dispatch_price Bench.base Bench.world)
    as [rf wm] eqn:Hmany.
  assert (rf = (make_many_mmsdm_files Bench.env "2020-01" "2020-02"
                  Bench.dispatch_price Bench.base Bench.world).1) as Hrf
    by now rewrite Hmany.
  vm_compute in Hrf. subst rf.
  destruct (download_mmsdm Bench.env "2020-01" "2020-02" "dispatch-price"
              Bench.base false Bench.world) as [rd w1] eqn:Hrun.
  assert (rd = (download_mmsdm Bench.env "2020-01" "2020-02"
                  "dispatch-price" Bench.base false Bench.world).1) as Hrd
    by now rewrite Hrun.
  assert (fs w1 = fs (download_mmsdm Bench.env "2020-01" "2020-02"
                        "dispatch-price" Bench.base false Bench.world).2)
    as Hfs1 by now rewrite Hrun.
  vm_compute in Hrd. subst rd.
  match type of Hmany with
  | _ = (inr ?fl, _) =>
      match type of Hrun with
      | _ = (inr ?d, _) =>
          destruct (download_mmsdm_twice Bench.env "2020-01" "2020-02"
                      "dispatch-price" Bench.base Bench.world wm w1
                      Bench.dispatch_price fl d eq_refl Hmany Hrun)
            as (w2 & Htwice & Hfs2 & _ & Hout2 & _);
          exists d, w1, w2
      end
  end.
  split; [reflexivity|]. split; [exact Htwice|]. split; [exact Hfs2|].
  rewrite Hout2. f_equal. cbn [flat_map]. unfold report.
  rewrite Hfs1. vm_compute. reflexivity.
Defined.

(** C3, as the claim has it, fails: the server does not have February
    2020, the first run leaves no artifact, and the second run finds the
    period not cached and asks the server again. *)
Lemma download_mmsdm_twice_not_cached :
  let run := download_mmsdm Bench.env "2020-02" "2020-02" "dispatch-price"
               Bench.base false in
  let first := run Bench.world in
  let second := run first.2 in
  first.1 = inr empty_frame /\
  second.1 = inr empty_frame /\
  stdout second.2 =
    stdout first.2 ++
    [" [blue]NOT CACHED[/] / data dispatch-price 2020-02 clean.parquet";
     " [red]NOT AVAILABLE[/] / data dispatch-price 2020-02 raw.zip"] /\
  sent second.2 =
    sent first.2 ++
    [(GET,
      "https://www.nemweb.com.au/Data_Archive/Wholesale_Electricity/MMSDM/2020/MMSDM_2020_02/MMSDM_Historical_Data_SQLLoader/DATA/PUBLIC_DVD_DISPATCHPRICE_202002010000.zip")].
Proof. vm_compute. repeat split. Qed.

(** * Further properties of the module *)

(** ** The layout of a resolved file *)





(** X2.  Resolving a file a second time, in the world the first call
    left, returns the same file and changes nothing: the directory that is
    there is accepted. *)
Theorem make_one_mmsdm_file_idempotent (year month : Z) (t : MMSDMTable)
  (base : Path) (w w' : World) (f : MMSDMFile.t) :
  make_one_mmsdm_file year month t base w = (inr f, w') ->
  make_one_mmsdm_file year month t base w' = (inr f, w').
Proof.
  intros Hrun.
  apply (make_one_mmsdm_file_again year month t base w w' w' f Hrun).
  exact (make_one_mmsdm_file_dirs year month t base w w' f Hrun).
Qed.

Lemma make_one_mmsdm_file_idempotent_witness :
  exists f w',
    make_one_mmsdm_file 2024 8 Bench.predispatch Bench.base Bench.world
      = (inr f, w') /\
    make_one_mmsdm_file 2024 8 Bench.predispatch Bench.base w' = (inr f, w').
Proof.
  destruct (make_one_mmsdm_file 2024 8 Bench.predispatch Bench.base
              Bench.world) as [[e|f] w'] eqn:Hrun;
    [vm_compute in Hrun; discriminate|].
  exists f, w'. split; [reflexivity|].
  exact (make_one_mmsdm_file_idempotent 2024 8 Bench.predispatch Bench.base
           Bench.world w' f Hrun).
Defined.

(** ** One directory for each table and month *)



(** ** Ranges that resolve nothing, and how many files a range has *)

(** X4.  A table name the catalog does not have stops everything at the
    lookup: [download_mmsdm] and [make_many_mmsdm_files] raise the
    [ValueError] of the lookup and the world is as it was, with no
    directory made, no request sent and nothing printed. *)
Theorem download_mmsdm_unknown_table (E : Env) (start end_ n : string)
  (base : Path) (dry_run : bool) (w : World) :
  (forall t, t ∈ mmsdm_tables E -> name t <> n) ->
  download_mmsdm E start end_ n base dry_run w
    = (inl (ValueError (not_found (mmsdm_tables E) n)), w) /\
  forall t, name t = n ->
            make_many_mmsdm_files E start end_ t base w
            = (inl (ValueError (not_found (mmsdm_tables E) n)), w).
Proof.
  intros Hnone. apply first_named_None in Hnone.
  unfold download_mmsdm, make_many_mmsdm_files, bind, lift, find_mmsdm_table.
  split; [now rewrite Hnone|].
  intros t ->. now rewrite Hnone.
Qed.

Lemma download_mmsdm_unknown_table_witness :
  download_mmsdm Bench.env "2020-01" "2020-02" "nemde" Bench.base false
    Bench.world
  = (inl (ValueError
            "MMSDMTable nemde not found - tables available are ['dispatch-price', 'predispatch', 'unit-scada', 'trading-price', 'demand', 'interconnectors', 'p5min', 'predispatch-sensitivities', 'predispatch-demand']"),
     Bench.world).
Proof.
  apply (download_mmsdm_unknown_table Bench.env "2020-01" "2020-02" "nemde"
           Bench.base false Bench.world).
  intros t Ht. rewrite list_elem_of_In in Ht. cbn in Ht.
  repeat (destruct Ht as [<-|Ht]; [discriminate|]). destruct Ht.
Defined.

Lemma month_starts_reversed (s e : Date) :
  valid_date s -> valid_date e -> ~ date_le s e -> month_starts s e = [].
Proof.
  intros [Hsm Hsd] [Hem Hed] Hle. unfold month_starts, date_le in *.
  rewrite seqZ_nil; [reflexivity|].
  unfold month_number. destruct (Z.eqb_spec (dday s) 1); lia.
Qed.

(** X5.  When [end] is a date before [start], nothing is resolved and
    nothing is fetched: [make_many_mmsdm_files] returns no file,
    [download_mmsdm] returns the empty frame, no error is raised and the
    world is as it was. *)
Theorem download_mmsdm_reversed_range (E : Env)
  (start end_ table_name : string) (base : Path) (dry_run : bool)
  (w : World) (c : MMSDMTable) (s e : Date) :
  find_mmsdm_table E table_name = inr c ->
  to_timestamp E start = Some s -> to_timestamp E end_ = Some e ->
  valid_date s -> valid_date e -> ~ date_le s e ->
  make_many_mmsdm_files E start end_ c base w = (inr [], w) /\
  download_mmsdm E start end_ table_name base dry_run w
    = (inr empty_frame, w).
Proof.
  intros Hfind Hs He Hvs Hve Hrev.
  assert (find_mmsdm_table E (name c) = inr c) as Hfind'.
  { unfold find_mmsdm_table in Hfind |- *.
    destruct (first_named _ table_name) as [u|] eqn:Hf; [|discriminate].
    injection Hfind as ->. apply first_named_Some in Hf as [Hin Hn].
    now rewrite (first_named_unique _ _ _ (mmsdm_tables_NoDup E) Hin
                   eq_refl). }
  assert (make_many_mmsdm_files E start end_ c base w = (inr [], w))
    as Hmany.
  { unfold make_many_mmsdm_files, bind, lift, date_range.
    rewrite Hfind', Hs, He, (month_starts_reversed s e Hvs Hve Hrev).
    reflexivity. }
  split; [exact Hmany|].
  unfold download_mmsdm. unfold bind at 1. unfold lift. rewrite Hfind.
  rewrite (bind_inr _ _ _ _ _ Hmany). reflexivity.
Qed.

Lemma download_mmsdm_reversed_range_witness :
  download_mmsdm Bench.env "2020-03" "2020-01" "dispatch-price" Bench.base
    false Bench.world = (inr empty_frame, Bench.world).
Proof.
  apply (download_mmsdm_reversed_range Bench.env "2020-03" "2020-01"
           "dispatch-price" Bench.base false Bench.world
           Bench.dispatch_price
           {| dyear := 2020; dmonth := 3; dday := 1 |}
           {| dyear := 2020; dmonth := 1; dday := 1 |}
           eq_refl eq_refl eq_refl);
    unfold valid_date, date_le; cbn; lia.
Defined.

(** X6.  The number of files resolved for a range is the number of
    months from the month of [start] to the month of [end], both counted,
    less one when [start] is not the first day of its month, and never
    less than none. *)
Theorem make_many_mmsdm_files_count (E : Env) (start end_ : string)
  (t : MMSDMTable) (base : Path) (w w' : World) (s e : Date)
  (files : list MMSDMFile.t) :
  to_timestamp E start = Some s -> to_timestamp E end_ = Some e ->
  make_many_mmsdm_files E start end_ t base w = (inr files, w') ->
  Z.of_nat (length files) =
  Z.max 0 (12 * (dyear e - dyear s) + (dmonth e - dmonth s)
           + (if dday s =? 1 then 1 else 0)).
Proof.
  intros Hs He. unfold make_many_mmsdm_files, bind, lift, date_range.
  destruct (find_mmsdm_table E (name t)) as [err|c]; [discriminate|].
  rewrite Hs, He. intros Hrun.
  apply (for_each_inv _ (fun _ _ => True)) in Hrun; [|auto].
  apply Forall2_length in Hrun. rewrite <- Hrun.
  unfold month_starts. rewrite length_map, length_seqZ.
  unfold month_number. destruct (dday s =? 1); lia.
Qed.

Lemma make_many_mmsdm_files_count_witness :
  exists files w',
    make_many_mmsdm_files Bench.env "2019-11-15" "2020-02-10"
      Bench.dispatch_price Bench.base Bench.world = (inr files, w') /\
    Z.of_nat (length files) = 3.
Proof.
  destruct (make_many_mmsdm_files Bench.env "2019-11-15" "2020-02-10"
              Bench.dispatch_price Bench.base Bench.world)
    as [[err|files] w'] eqn:Hrun; [vm_compute in Hrun; discriminate|].
  exists files, w'. split; [reflexivity|].
  exact (make_many_mmsdm_files_count Bench.env "2019-11-15" "2020-02-10"
           Bench.dispatch_price Bench.base Bench.world w'
           {| dyear := 2019; dmonth := 11; dday := 15 |}
           {| dyear := 2020; dmonth := 2; dday := 10 |}
           files eq_refl eq_refl Hrun).
Defined.

(** ** The probe for further files *)

(** X7.  [check_for_additional_files] never raises and touches neither
    files nor output.  For a URL without "FILE01" it does nothing at all.
    For a URL with "FILE01" it sends one HEAD request, for the URL with
    "FILE02" in its place, and warns when the answer is 200 and only
    then: another status, or a failure of the request, passes in
    silence. *)
Theorem check_for_additional_files_probe (E : Env) (f : MMSDMFile.t)
  (w : World) :
  let probe := Py.replace "FILE01" "FILE02" (MMSDMFile.url f) in
  let warning :=
    "Multiple files exist for " +:+ name (MMSDMFile.table f) +:+ " ("
      +:+ Py.str (MMSDMFile.year f) +:+ "-"
      +:+ Py.zfill 2 (Py.str (MMSDMFile.month f))
      +:+ "). Only FILE01 is being downloaded. Additional files (FILE02, etc.) are not supported." in
  (Py.contains "FILE01" (MMSDMFile.url f) = false ->
   check_for_additional_files E f w = (inr tt, w)) /\
  (Py.contains "FILE01" (MMSDMFile.url f) = true ->
   exists w',
     check_for_additional_files E f w = (inr tt, w') /\
     sent w' = sent w ++ [(HEAD, probe)] /\
     fs w' = fs w /\ stdout w' = stdout w /\ store w' = store w /\
     (http_head E probe = Some 200 -> warned w' = warned w ++ [warning]) /\
     (http_head E probe <> Some 200 -> warned w' = warned w)).
Proof.
  intros probe warning. unfold check_for_additional_files.
  fold probe warning. split.
  - intros ->. reflexivity.
  - intros ->. cbn [negb]. unfold bind, send.
    destruct (decide (http_head E probe = Some 200)) as [H200|Hother].
    + rewrite H200. eexists. split; [reflexivity|].
      repeat split; congruence.
    + repeat match goal with
             | |- context [match ?x with _ => _ end] => destruct x
             end;
        try (now destruct Hother);
        cbn; eexists; (split; [reflexivity|]); cbn; repeat split;
        intros H; discriminate.
Qed.

Lemma check_for_additional_files_probe_witness :
  exists w',
    check_for_additional_files Bench.env
      {| MMSDMFile.year := 2024; MMSDMFile.month := 8;
         MMSDMFile.table := Bench.predispatch;
         MMSDMFile.url :=
           "https://www.nemweb.com.au/Data_Archive/Wholesale_Electricity/MMSDM/2024/MMSDM_2024_08/MMSDM_Historical_Data_SQLLoader/PREDISP_ALL_DATA/PUBLIC_ARCHIVE%23PREDISPATCHPRICE%23ALL%23FILE01%23202408010000.zip";
         MMSDMFile.csv_name :=
           "PUBLIC_ARCHIVE#PREDISPATCHPRICE#ALL#FILE01#202408010000.CSV";
         MMSDMFile.data_directory := ["/"; "data"; "predispatch"; "2024-08"];
         MMSDMFile.zipfile_path :=
           ["/"; "data"; "predispatch"; "2024-08"; "raw.zip"] |}
      Bench.world = (inr tt, w') /\
    sent w' =
      [(HEAD,
        "https://www.nemweb.com.au/Data_Archive/Wholesale_Electricity/MMSDM/2024/MMSDM_2024_08/MMSDM_Historical_Data_SQLLoader/PREDISP_ALL_DATA/PUBLIC_ARCHIVE%23PREDISPATCHPRICE%23ALL%23FILE02%23202408010000.zip")] /\
    warned w' = [].
Proof.
  match goal with
  | |- exists w', check_for_additional_files _ ?f0 _ = _ /\ _ =>
      destruct (check_for_additional_files_probe Bench.env f0 Bench.world)
        as [_ Hprobe]
  end.
  destruct Hprobe as (w' & Hcheck & Hsent & _ & _ & _ & _ & Hquiet);
    [reflexivity|].
  exists w'. split; [exact Hcheck|]. split.
  - rewrite Hsent. reflexivity.
  - apply Hquiet. discriminate.
Defined.

(** ** Reading the extracted file *)

Lemma slice_to_minus_one {A} (l : list A) : slice_to (-1) l = removelast l.
Proof.
  unfold slice_to. cbn [Z.ltb Z.compare].
  rewrite removelast_firstn_len. f_equal. lia.
Qed.

(** X8.  With its defaults, [load_unzipped_mmsdm_file] reads the file
    [csv_name] of the data directory, skips one line, and returns the
    frame parsed less its last row: the index and every column lose their
    last entry, and a frame without rows stays as it is.  A file that is
    not there is an error, and in no case is the world changed. *)
Theorem load_unzipped_mmsdm_file_rows (E : Env) (f : MMSDMFile.t)
  (w : World) :
  let path := MMSDMFile.data_directory f // MMSDMFile.csv_name f in
  (forall text d,
     fs w !! path = Some (File (Bytes text)) -> read_csv E text 1 = inr d ->
     load_unzipped_mmsdm_file E f 1 (-1) w =
     (inr {| index := removelast (index d);
             columns := map (fun cv => (cv.1, removelast cv.2)) (columns d) |},
      w)) /\
  (fs w !! path = None ->
   load_unzipped_mmsdm_file E f 1 (-1) w = (inl (OSError "no such file"), w)) /\
  (load_unzipped_mmsdm_file E f 1 (-1) w).2 = w.
Proof.
  intros path. unfold load_unzipped_mmsdm_file, bind, read, lift, ret, raise.
  fold path. split; [|split].
  - intros text d -> ->. unfold iloc_rows_to.
    rewrite slice_to_minus_one. do 3 f_equal.
    apply map_ext. intros [c v]. cbn. now rewrite slice_to_minus_one.
  - now intros ->.
  - destruct (fs w !! path) as [[|[text|ms|d]]|]; try reflexivity.
    now destruct (read_csv E text 1).
Qed.

Lemma load_unzipped_mmsdm_file_rows_witness :
  exists f w,
    (load_unzipped_mmsdm_file Bench.env f 1 (-1) w).1 =
    inr {| index := [0; 1];
           columns := [("SETTLEMENTDATE",
                        [CStr "1577800800"; CStr "1577801100"]);
                       ("RRP", [CStr "57.3"; CStr "60.1"])] |}.
Proof.
  pose (f := {| MMSDMFile.year := 2020; MMSDMFile.month := 1;
                MMSDMFile.table := Bench.dispatch_price;
                MMSDMFile.url := Bench.archive_url;
                MMSDMFile.csv_name := "x.CSV";
                MMSDMFile.data_directory := ["d"];
                MMSDMFile.zipfile_path := ["d"; "raw.zip"] |}).
  pose (w := {| store := initial_store;
                fs := {[ ["d"; "x.CSV"] := File (Bytes Bench.payload) ]};
                stdout := []; warned := []; sent := [] |}).
  exists f, w.
  destruct (load_unzipped_mmsdm_file_rows Bench.env f w) as [Hrows _].
  rewrite (Hrows Bench.payload
             {| index := [0; 1; 2];
                columns := [("SETTLEMENTDATE",
                             [CStr "1577800800"; CStr "1577801100";
                              CStr "C"]);
                            ("RRP", [CStr "57.3"; CStr "60.1";
                                     CStr "END OF REPORT"])] |});
    reflexivity.
Defined.

(** ** The list of datetime columns *)

(** X9.  [make_datetime_columns] raises [AssertionError], with nothing
    changed, for a table whose [datetime_columns] is [None] or empty.
    For any other table it adds "interval-start" and "interval-end" to the
    end of the table's own list, also when the conversion then raises, so
    that a second call finds a list two names longer; other lists, the
    files and the output are left alone. *)
Theorem make_datetime_columns_list (E : Env) (data : DataFrame)
  (t : MMSDMTable) (w : World) :
  (datetime_columns t = None \/
   (exists l, datetime_columns t = Some l /\ store w !! l = Some []) ->
   make_datetime_columns E data t w = (inl AssertionError, w)) /\
  (forall l cols,
     datetime_columns t = Some l -> store w !! l = Some cols -> cols <> [] ->
     let w' := (make_datetime_columns E data t w).2 in
     store w' !! l = Some (cols ++ ["interval-start"; "interval-end"]) /\
     (forall l', l' <> l -> store w' !! l' = store w !! l') /\
     fs w' = fs w /\ stdout w' = stdout w /\ sent w' = sent w /\
     forall data2,
       store (make_datetime_columns E data2 t w').2 !! l =
       Some (cols ++ ["interval-start"; "interval-end";
                      "interval-start"; "interval-end"])).
Proof.
  split.
  - unfold make_datetime_columns, assert_datetime_columns, bind, load, raise.
    intros [->|(l & -> & ->)]; reflexivity.
  - intros l cols Ht Hl Hne w'. subst w'.
    rewrite (make_datetime_columns_run E data t l cols w Ht Hl Hne).
    cbn [snd store fs stdout sent].
    assert (l < length (store w))%nat as Hlt by now apply lookup_lt_Some in Hl.
    split; [now apply list_lookup_insert_eq|].
    split; [intros l' Hl'; now apply list_lookup_insert_ne|].
    repeat split. intros data2.
    rewrite (make_datetime_columns_run E data2 t l
               (cols ++ ["interval-start"; "interval-end"])).
    + cbn [snd store]. rewrite list_lookup_insert_eq.
      * now rewrite <- app_assoc.
      * now rewrite length_insert.
    + exact Ht.
    + now apply list_lookup_insert_eq.
    + now destruct cols.
Qed.

Lemma make_datetime_columns_list_witness :
  store (make_datetime_columns Bench.env empty_frame Bench.dispatch_price
           Bench.world).2 !! 0%nat
  = Some ["SETTLEMENTDATE"; "interval-start"; "interval-end"].
Proof.
  destruct (make_datetime_columns_list Bench.env empty_frame
              Bench.dispatch_price Bench.world) as [_ Hgrow].
  assert (["SETTLEMENTDATE"] <> []) as Hne by discriminate.
  exact (proj1 (Hgrow 0%nat ["SETTLEMENTDATE"] eq_refl eq_refl Hne)).
Defined.

(** ** What the conversion keeps, and what it does not pass over *)

Lemma names_assign_present (col : string) (v u : list Cell)
  (cs : list (string * list Cell)) :
  lookup_column col cs = Some u ->
  map fst (assign_column col v cs) = map fst cs.
Proof.
  induction cs as [|[c old] cs IH]; cbn [lookup_column assign_column];
    [discriminate|].
  destruct (String.eqb c col); [reflexivity|].
  intros H. cbn [map fst]. now rewrite IH.
Qed.

Lemma localize_keeps (E : Env) (data data' : DataFrame) (col : string) :
  localize E data col = inr data' ->
  index data' = index data /\
  map fst (columns data') = map fst (columns data).
Proof.
  unfold localize, getitem.
  destruct (lookup_column col (columns data)) as [v|] eqn:Hv;
    [|intros [= <-]; now split].
  destruct (pd_to_datetime E v) as [e|v1]; [discriminate|]. cbn [and_then].
  cbn [setitem columns]. rewrite lookup_assign_same.
  destruct (tz_localize (nem_tz E) v1) as [e|v2]; [discriminate|].
  cbn [and_then]. intros [= <-]. cbn [index columns setitem].
  split; [reflexivity|].
  rewrite (names_assign_present col v2 v1) by apply lookup_assign_same.
  now rewrite (names_assign_present col v1 v).
Qed.

Lemma localize_all_keeps (E : Env) (cols : list string) :
  forall data data',
    localize_all E data cols = inr data' ->
    index data' = index data /\
    map fst (columns data') = map fst (columns data).
Proof.
  induction cols as [|col cols IH]; intros data data'; cbn [localize_all].
  - intros [= <-]. now split.
  - destruct (localize E data col) as [e|data1] eqn:H1; [discriminate|].
    cbn [and_then]. intros H2.
    apply localize_keeps in H1 as [Hi1 Hc1].
    apply IH in H2 as [Hi2 Hc2]. split; congruence.
Qed.

(** X10.  When [make_datetime_columns] returns, the frame has the index
    it had and the same column names in the same order: no column is
    added, dropped or moved, not even for the two synthetic names. *)
Theorem make_datetime_columns_keeps_shape (E : Env) (data data' : DataFrame)
  (t : MMSDMTable) (w w' : World) :
  make_datetime_columns E data t w = (inr data', w') ->
  index data' = index data /\
  map fst (columns data') = map fst (columns data).
Proof.
  unfold make_datetime_columns. intros Hrun.
  apply bind_inv in Hrun as (l & w1 & _ & Hrun).
  apply bind_inv in Hrun as (u & w2 & _ & Hrun).
  apply bind_inv in Hrun as (cols & w3 & _ & Hrun).
  unfold lift in Hrun. injection Hrun as Hrun _.
  now apply localize_all_keeps in Hrun.
Qed.

Lemma make_datetime_columns_keeps_shape_witness :
  exists data' w',
    make_datetime_columns Bench.env
      {| index := [0];
         columns := [("SETTLEMENTDATE", [CStr "1577800800"]);
                     ("RRP", [CStr "57.3"])] |}
      Bench.dispatch_price Bench.world = (inr data', w') /\
    map fst (columns data') = ["SETTLEMENTDATE"; "RRP"].
Proof.
  destruct (make_datetime_columns Bench.env
              {| index := [0];
                 columns := [("SETTLEMENTDATE", [CStr "1577800800"]);
                             ("RRP", [CStr "57.3"])] |}
              Bench.dispatch_price Bench.world) as [[e|data'] w'] eqn:Hrun;
    [vm_compute in Hrun; discriminate|].
  exists data', w'. split; [reflexivity|].
  now apply make_datetime_columns_keeps_shape in Hrun as [_ ->].
Defined.

Lemma traverse_to_datetime_fails (E : Env) (v : list Cell) (s : string) :
  CStr s ∈ v -> to_datetime E s = None ->
  exists e, pd_to_datetime E v = inl e.
Proof.
  unfold pd_to_datetime. intros Hin Hs.
  induction v as [|c v IH]; [now apply elem_of_nil in Hin|].
  cbn [traverse].
  destruct (to_datetime_cell E c) as [e|c'] eqn:Hc; [eauto|].
  cbn [and_then]. apply elem_of_cons in Hin as [<-|Hin].
  - cbn in Hc. now rewrite Hs in Hc.
  - destruct (IH Hin) as [e ->]. eauto.
Qed.

Lemma localize_all_fails (E : Env) (col s : string) (cols : list string) :
  to_datetime E s = None -> col ∈ cols ->
  forall data v,
    lookup_column col (columns data) = Some v -> CStr s ∈ v ->
    exists e, localize_all E data cols = inl e.
Proof.
  intros Hs. induction cols as [|c cols IH]; intros Hin data v Hv Hbad.
  - now apply elem_of_nil in Hin.
  - cbn [localize_all].
    destruct (decide (c = col)) as [->|Hne].
    + unfold localize, getitem. rewrite Hv.
      destruct (traverse_to_datetime_fails E v s Hbad Hs) as [e ->]. eauto.
    + apply elem_of_cons in Hin as [->|Hin]; [now destruct Hne|].
      destruct (localize E data c) as [e|data1] eqn:H1; [eauto|].
      cbn [and_then]. apply (IH Hin data1 v); [|exact Hbad].
      revert H1. unfold localize, getitem.
      destruct (lookup_column c (columns data)) as [u|];
        [|intros [= <-]; exact Hv].
      destruct (pd_to_datetime E u) as [e|u1]; [discriminate|].
      cbn [and_then columns setitem]. rewrite lookup_assign_same.
      destruct (tz_localize (nem_tz E) u1) as [e|u2]; [discriminate|].
      cbn [and_then]. intros [= <-]. cbn [columns setitem].
      rewrite !lookup_assign_other by congruence. exact Hv.
Qed.

(** X11.  Only a missing column is passed over.  When a named column of
    the data holds text that does not parse as a timestamp,
    [make_datetime_columns] raises, and the table's list has been
    extended all the same. *)
Theorem make_datetime_columns_raises (E : Env) (data : DataFrame)
  (t : MMSDMTable) (l : nat) (cols : list string) (w : World)
  (col s : string) (v : list Cell) :
  datetime_columns t = Some l -> store w !! l = Some cols -> cols <> [] ->
  col ∈ cols ++ ["interval-start"; "interval-end"] ->
  getitem data col = inr v -> CStr s ∈ v -> to_datetime E s = None ->
  exists e w',
    make_datetime_columns E data t w = (inl e, w') /\
    store w' !! l = Some (cols ++ ["interval-start"; "interval-end"]).
Proof.
  intros Ht Hl Hne Hcol Hv Hbad Hs.
  rewrite (make_datetime_columns_run E data t l cols w Ht Hl Hne).
  unfold getitem in Hv.
  destruct (lookup_column col (columns data)) as [u|] eqn:Hu; [|discriminate].
  injection Hv as ->.
  destruct (localize_all_fails E col s _ Hs Hcol data v Hu Hbad) as [e ->].
  eexists e, _. split; [reflexivity|]. cbn [store].
  apply list_lookup_insert_eq. now apply lookup_lt_Some in Hl.
Qed.

Lemma make_datetime_columns_raises_witness :
  exists e w',
    make_datetime_columns Bench.env
      {| index := [0; 1];
         columns := [("SETTLEMENTDATE", [CStr "1577800800"; CStr "soon"])] |}
      Bench.dispatch_price Bench.world = (inl e, w').
Proof.
  assert (["SETTLEMENTDATE"] <> []) as Hne by discriminate.
  destruct (make_datetime_columns_raises Bench.env
              {| index := [0; 1];
                 columns := [("SETTLEMENTDATE",
                              [CStr "1577800800"; CStr "soon"])] |}
              Bench.dispatch_price 0%nat ["SETTLEMENTDATE"] Bench.world
              "SETTLEMENTDATE" "soon" [CStr "1577800800"; CStr "soon"]
              eq_refl eq_refl Hne)
    as (e & w' & Hrun & _); [set_solver | reflexivity | set_solver
                            | reflexivity |].
  eauto.
Defined.

(** ** What a run with persistence leaves behind *)

Lemma write_inv_fs (p : Path) (c : Content) (w w' : World) (u : unit) :
  write p c w = (inr u, w') ->
  fs w' = <[p := File c]> (fs w) /\ store w' = store w /\
  stdout w' = stdout w /\ warned w' = warned w /\ sent w' = sent w.
Proof.
  unfold write.
  destruct (fs w !! parent p) as [[|c0]|]; try discriminate.
  destruct (fs w !! p) as [[|c1]|]; try discriminate;
    intros [= _ <-]; repeat split.
Qed.

(** The save at the end of [download_one_mmsdm]. *)
Lemma save_inv (line : string) (p q : Path) (c d : Content)
  (w w' : World) (u : unit) :
  bind (print line) (fun _ => bind (write p c) (fun _ => write q d)) w
    = (inr u, w') ->
  fs w' = <[q := File d]> (<[p := File c]> (fs w)) /\
  store w' = store w /\ stdout w' = stdout w ++ [line] /\
  warned w' = warned w /\ sent w' = sent w.
Proof.
  intros H.
  apply bind_inv in H as (u1 & w1 & Hprint & H).
  apply bind_inv in H as (u2 & w2 & Hp & Hq).
  injection Hprint as _ <-.
  apply write_inv_fs in Hp as (Hf1 & Hs1 & Ho1 & Hw1 & Hn1).
  apply write_inv_fs in Hq as (Hf2 & Hs2 & Ho2 & Hw2 & Hn2).
  cbn in Hf1, Hs1, Ho1, Hw1, Hn1.
  rewrite Hf2, Hf1, Hs2, Hs1, Ho2, Ho1, Hw2, Hw1, Hn2, Hn1.
  repeat split.
Qed.

(** X12.  A run of [download_one_mmsdm] with persistence on that finds
    no artifact and returns data has written both artifacts to the data
    directory: [clean.parquet] holds the data returned and [clean.csv]
    their text form, and "SAVING" with the path of [clean.parquet] is the
    last line printed. *)
Theorem download_one_mmsdm_saves (E : Env) (t : MMSDMTable)
  (f : MMSDMFile.t) (w w' : World) (d : DataFrame) :
  fs w !! clean_fi f = None ->
  download_one_mmsdm E t f false w = (inr (Some d), w') ->
  fs w' !! clean_fi f = Some (File (Parquet d)) /\
  fs w' !! (MMSDMFile.data_directory f // "clean.csv")
    = Some (File (Bytes (to_csv E d))) /\
  last (stdout w') = Some (" [green]SAVING [/] " +:+ path_str (clean_fi f)).
Proof.
  unfold clean_fi. intros Hnone. unfold download_one_mmsdm.
  rewrite (bind_inr _ _ _ _ _ (exists_run _ w)).
  rewrite Hnone, bool_decide_false by (now intros [? ?]).
  erewrite bind_inr by reflexivity.
  match goal with
  | |- context [bind (check_for_additional_files E f) ?k ?w0] =>
      set (w1 := w0)
  end.
  destruct (check_for_additional_files_run E f w1) as (w2 & Hcheck & _).
  rewrite (bind_inr _ _ _ _ _ Hcheck).
  match goal with
  | |- context [bind (download_zipfile E f) ?k w2] =>
      destruct (download_zipfile_bind E f k w2) as (w3 & _ & _ & _ & _ & ->)
  end.
  destruct (http_get E (MMSDMFile.url f)) as [body|].
  - intros Hrun.
    apply bind_inv in Hrun as (avail & w4 & Hdl & Hrun).
    apply bind_inv in Hdl as (u & w5 & _ & Hret).
    injection Hret as <- <-. cbn [negb] in Hrun.
    invert_bind Hrun. injection Hrun as -> <-.
    cbn [negb] in *.
    match goal with
    | H : bind (print _) _ _ = (inr _, _) |- _ =>
        rewrite !with_suffix_clean in H;
        apply save_inv in H as (Hfs & _ & Hout & _)
    end.
    rewrite Hfs, Hout.
    split; [apply lookup_insert_eq|]. split.
    + rewrite lookup_insert_ne.
      * apply lookup_insert_eq.
      * unfold div. intros Heq. apply app_inj_tail in Heq as [_ Heq].
        discriminate.
    + apply last_snoc.
  - intros Hrun. unfold bind, ret, print in Hrun. cbn [negb] in Hrun.
    discriminate.
Qed.

Lemma download_one_mmsdm_saves_witness :
  exists f w0 w' d,
    download_one_mmsdm Bench.env Bench.dispatch_price f false w0
      = (inr (Some d), w') /\
    fs w' !! ["/"; "data"; "dispatch-price"; "2020-01"; "clean.parquet"]
      = Some (File (Parquet d)).
Proof.
  destruct (make_one_mmsdm_file 2020 1 Bench.dispatch_price Bench.base
              Bench.world) as [rf w0] eqn:Hone.
  assert (rf = (make_one_mmsdm_file 2020 1 Bench.dispatch_price Bench.base
                  Bench.world).1) as Hrf by now rewrite Hone.
  vm_compute in Hrf. subst rf.
  match type of Hone with
  | _ = (inr ?f0, _) =>
      destruct (download_one_mmsdm Bench.env Bench.dispatch_price f0 false
                  w0) as [r w'] eqn:Hrun;
      assert (r = (download_one_mmsdm Bench.env Bench.dispatch_price f0
                     false w0).1) as Hr by (now rewrite Hrun);
      assert (fs w0 !! clean_fi f0 = None) as Hnone
  end.
  { apply make_one_mmsdm_file_inv in Hone as (_ & _ & _ & _ & _ & _ & _ & Hmk).
    cbn [MMSDMFile.data_directory] in Hmk. unfold clean_fi.
    cbn [MMSDMFile.data_directory].
    rewrite (mkdir_lookup _ _ _ _ _ Hmk). reflexivity. }
  apply make_one_mmsdm_file_inv in Hone as (_ & _ & _ & _ & _ & _ & _ & Hmk).
  apply mkdir_inv in Hmk as [_ ->].
  vm_compute in Hr. subst r.
  match type of Hrun with
  | download_one_mmsdm _ _ ?f0 _ ?w0 = (inr (Some ?d0), _) =>
      exists f0, w0, w', d0
  end.
  split; [exact Hrun|].
  match type of Hrun with
  | download_one_mmsdm ?E0 ?t0 ?f0 _ ?w0 = (inr (Some ?d0), _) =>
      exact (proj1 (download_one_mmsdm_saves E0 t0 f0 w0 w' d0 Hnone Hrun))
  end.
Defined.

(** ** A dry run *)

Lemma download_zipfile_bind_eq {A} (E : Env) (f : MMSDMFile.t)
  (k : bool -> M A) (w : World) :
  bind (download_zipfile E f) k w =
  bind (match http_get E (MMSDMFile.url f) with
        | None => ret false
        | Some body => write (MMSDMFile.zipfile_path f) body ;;; ret true
        end) k
       {| store := store w; fs := fs w; stdout := stdout w;
          warned := warned w;
          sent := sent w ++ [(GET, MMSDMFile.url f)] |}.
Proof. reflexivity. Qed.

(** X13.  [dry_run] switches off the save and nothing else.  Whenever
    the run with persistence returns, the dry run from the same world
    returns the same answer, with the same requests sent, the same
    warnings and the same lists; the two worlds differ at most by the
    "SAVING" line and by the files [clean.parquet] and [clean.csv]. *)
Theorem download_one_mmsdm_dry_run (E : Env) (t : MMSDMTable)
  (f : MMSDMFile.t) (w w2 : World) (r : option DataFrame) :
  download_one_mmsdm E t f false w = (inr r, w2) ->
  exists w1,
    download_one_mmsdm E t f true w = (inr r, w1) /\
    store w1 = store w2 /\ sent w1 = sent w2 /\ warned w1 = warned w2 /\
    (stdout w2 = stdout w1 \/
     stdout w2 =
       stdout w1 ++ [" [green]SAVING [/] " +:+ path_str (clean_fi f)]) /\
    forall p, p <> clean_fi f ->
              p <> MMSDMFile.data_directory f // "clean.csv" ->
              fs w2 !! p = fs w1 !! p.
Proof.
  intros Hwet.
  destruct (fs w !! clean_fi f) as [node|] eqn:Hclean.
  - rewrite download_one_mmsdm_hit in Hwet |- * by (rewrite Hclean; eauto).
    rewrite Hwet. exists w2. repeat split; auto.
  - revert Hwet. unfold clean_fi in *. unfold download_one_mmsdm.
    rewrite !(bind_inr _ _ _ _ _ (exists_run _ w)).
    rewrite Hclean, bool_decide_false by (now intros [? ?]).
    erewrite !(bind_inr (print _)) by reflexivity.
    match goal with
    | |- context [bind (check_for_additional_files E f) ?k ?w0] =>
        set (wa := w0)
    end.
    destruct (check_for_additional_files_run E f wa) as (wb & Hcheck & _).
    rewrite !(bind_inr _ _ _ _ _ Hcheck).
    rewrite !download_zipfile_bind_eq.
    match goal with
    | |- context [bind _ _ ?w0 = _ -> _] => set (wc := w0)
    end.
    destruct (http_get E (MMSDMFile.url f)) as [body|].
    + intros Hwet.
      apply bind_inv in Hwet as (avail & w4 & Hdl & Hwet).
      rewrite (bind_inr _ _ _ _ _ Hdl).
      apply bind_inv in Hdl as (u & w5 & _ & Hret).
      injection Hret as <- <-. cbn [negb] in Hwet |- *.
      repeat (apply bind_inv in Hwet as (? & ? & Hstep & Hwet);
              rewrite (bind_inr _ _ _ _ _ Hstep); clear Hstep).
      apply bind_inv in Hwet as (u1 & w10 & Hsave & Hret).
      injection Hret as <- <-. cbn [negb] in Hsave |- *.
      rewrite !with_suffix_clean in Hsave.
      change ("clean" +:+ ".csv") with "clean.csv" in Hsave.
      change ("clean" +:+ ".parquet") with "clean.parquet" in Hsave.
      change (entry (MMSDMFile.data_directory f) "clean.csv")
        with (MMSDMFile.data_directory f // "clean.csv") in Hsave.
      change (entry (MMSDMFile.data_directory f) "clean.parquet")
        with (MMSDMFile.data_directory f // "clean.parquet") in Hsave.
      apply save_inv in Hsave as (Hfs & Hstore & Hout & Hwarn & Hsent).
      eexists. split; [reflexivity|].
      rewrite Hstore, Hsent, Hwarn, Hout, Hfs.
      repeat split; [now right|].
      intros p Hp Hq. now rewrite !lookup_insert_ne by congruence.
    + intros Hwet. unfold bind, ret, print in Hwet |- *.
      cbn [negb] in Hwet |- *. injection Hwet as <- <-.
      eexists. split; [reflexivity|]. repeat split; auto.
Qed.

Lemma download_one_mmsdm_dry_run_witness :
  exists f w0 w1 w2 d,
    download_one_mmsdm Bench.env Bench.dispatch_price f false w0
      = (inr (Some d), w2) /\
    download_one_mmsdm Bench.env Bench.dispatch_price f true w0
      = (inr (Some d), w1) /\
    sent w1 = sent w2.
Proof.
  set (f0 :=
         {| MMSDMFile.year := 2020; MMSDMFile.month := 1;
            MMSDMFile.table := Bench.dispatch_price;
            MMSDMFile.url := Bench.archive_url;
            MMSDMFile.csv_name := "PUBLIC_DVD_DISPATCHPRICE_202001010000.CSV";
            MMSDMFile.data_directory :=
              ["/"; "data"; "dispatch-price"; "2020-01"];
            MMSDMFile.zipfile_path :=
              ["/"; "data"; "dispatch-price"; "2020-01"; "raw.zip"] |}).
  set (wd := {| store := initial_store;
                fs := {[ ["/"; "data"; "dispatch-price"; "2020-01"] := Dir ]};
                stdout := []; warned := []; sent := [] |}).
  destruct (download_one_mmsdm Bench.env Bench.dispatch_price f0 false wd)
    as [r w2] eqn:Hrun.
  assert (r = (download_one_mmsdm Bench.env Bench.dispatch_price f0 false
                 wd).1) as Hr by now rewrite Hrun.
  vm_compute in Hr. subst r.
  match type of Hrun with
  | _ = (inr (Some ?d0), _) =>
      destruct (download_one_mmsdm_dry_run Bench.env Bench.dispatch_price
                  f0 wd w2 (Some d0) Hrun)
        as (w1 & Hdry & _ & Hsent & _);
      exists f0, wd, w1, w2, d0
  end.
  repeat split; assumption.
Defined.

(** ** URLs of the catalog *)

(** X14.  For every table of the catalog, every year and every month of
    the calendar, the URL of the file resolved holds no '#', before the
    change of names as after it. *)
Theorem mmsdm_tables_url_no_hash (E : Env) (t : MMSDMTable)
  (year month : Z) (base : Path) (w w' : World) (f : MMSDMFile.t) :
  t ∈ mmsdm_tables E -> 1 <= month <= 12 ->
  make_one_mmsdm_file year month t base w = (inr f, w') ->
  Py.has_char "#" (MMSDMFile.url f) = false.
Proof.
  intros Ht Hm Hrun.
  apply make_one_mmsdm_file_inv in Hrun as (_ & _ & _ & Hurl & _).
  rewrite Hurl. destruct (Py.pair_geb (year, month) (2024, 8)).
  - rewrite replace_hash. apply percent_encode_no_hash.
  - rewrite (zfill_month month Hm).
    rewrite list_elem_of_In in Ht. cbn [mmsdm_tables In] in Ht.
    repeat (destruct Ht as [<-|Ht];
            [cbn [legacy_table table directory String.eqb];
             rewrite !has_char_app, !str_no_hash, !two_digits_no_hash;
             reflexivity|]).
    destruct Ht.
Qed.

Lemma mmsdm_tables_url_no_hash_witness :
  exists f w',
    make_one_mmsdm_file 2024 7 Bench.predispatch Bench.base Bench.world
      = (inr f, w') /\
    Py.has_char "#" (MMSDMFile.url f) = false.
Proof.
  destruct (make_one_mmsdm_file 2024 7 Bench.predispatch Bench.base
              Bench.world) as [[e|f] w'] eqn:Hrun;
    [vm_compute in Hrun; discriminate|].
  exists f, w'. split; [reflexivity|].
  assert (1 <= 7 <= 12) as Hm by lia.
  apply (mmsdm_tables_url_no_hash Bench.env Bench.predispatch 2024 7
           Bench.base Bench.world w' f); [|exact Hm|exact Hrun].
  apply list_elem_of_In. cbn. auto.
Defined.

(** ** The artifacts of a range *)

Lemma artifacts_of_results {A} (Q : MMSDMFile.t -> A -> Prop)
  (files : list MMSDMFile.t) (rs : list (option A)) :
  Forall2 (fun f r => exists d, r = Some d /\ Q f d) files rs ->
  Forall2 Q files (omap id rs).
Proof.
  induction 1 as [|f r files rs (d & -> & Hd) _ IH]; [constructor|].
  cbn. now constructor.
Qed.

(** X15.  When every period of the range is in the cache or on the
    server, a run of [download_mmsdm] with persistence on that returns
    leaves a [clean.parquet] for every period that reads back as the data
    of the period, and the frame returned is these data put together in
    the order of the periods (the empty frame when the range has no
    period).  Unless a directory was in its place before the run, the
    [clean.parquet] of a period is a parquet file that holds the data. *)
Theorem download_mmsdm_leaves_artifacts (E : Env)
  (start end_ table_name : string) (base : Path) (w wm w1 : World)
  (c : MMSDMTable) (files : list MMSDMFile.t) (data : DataFrame) :
  find_mmsdm_table E table_name = inr c ->
  make_many_mmsdm_files E start end_ c base w = (inr files, wm) ->
  (forall f, f ∈ files ->
             is_Some (fs w !! clean_fi f) \/
             is_Some (http_get E (MMSDMFile.url f))) ->
  download_mmsdm E start end_ table_name base false w = (inr data, w1) ->
  exists ds,
    Forall2 (fun f d =>
               read_parquet E (clean_fi f) w1 = (inr d, w1) /\
               (fs w !! clean_fi f <> Some Dir ->
                fs w1 !! clean_fi f = Some (File (Parquet d))))
            files ds /\
    data = match pd_concat ds with
           | inr all => all
           | inl _ => empty_frame
           end.
Proof.
  intros Hfind Hmany Hpre Hrun.
  pose proof (find_mmsdm_table_name E _ c Hfind) as Hfind'.
  destruct (make_many_mmsdm_files_resolves E start end_ c c base w wm files
              Hfind' Hmany) as [Hres _].
  destruct (make_many_mmsdm_files_ready E start end_ c base w wm files
              Hfind' Hmany) as [Hready Hnd].
  unfold download_mmsdm in Hrun.
  rewrite (bind_inr _ _ w w c) in Hrun by (unfold lift; now rewrite Hfind).
  rewrite (bind_inr _ _ _ _ _ Hmany) in Hrun.
  apply bind_inv in Hrun as (rs & w1' & Hloop & Hrun).
  assert (w1' = w1 /\
          (match pd_concat (omap id rs) with
           | inr d => d
           | inl _ => empty_frame
           end) = data) as [-> Hdata].
  { destruct (pd_concat (omap id rs)) as [[]|d];
      cbn in Hrun; try discriminate; now injection Hrun as <- <-. }
  pose proof (first_run E c _ files wm w1 rs Hready Hnd Hloop) as Hall.
  assert (evolves anywhere wm w1) as (_ & _ & _ & _ & Hkeeps).
  { assert (preserves (evolves anywhere)
              (for_each (fun f => download_one_mmsdm E c f false) files))
      as Hp.
    { apply preserves_for_each. intros g.
      apply preserves_download_one_mmsdm; try exact I. intros x. exact I. }
    specialize (Hp wm). now rewrite Hloop in Hp. }
  exists (omap id rs). split; [|now rewrite Hdata].
  apply artifacts_of_results. apply (Forall2_impl_in _ _ _ _ Hall).
  intros f r Hf [Hl Hks].
  assert (fs wm !! clean_fi f = fs w !! clean_fi f) as Hslot.
  { apply (resolves_clean_fi base w wm f Hres).
    rewrite Forall_forall in Hready. now apply Hready. }
  destruct r as [d|]; cbn [leaves] in Hl.
  - exists d. split; [reflexivity|]. split; [exact Hl|].
    intros Hdir.
    destruct Hks as [Hkept|(_ & _ & d' & [= <-] & Hd)]; [|exact Hd].
    unfold read_parquet in Hl. rewrite Hkept, Hslot in Hl |- *.
    destruct (fs w !! clean_fi f) as [[|[b|ms|d0]]|]; try discriminate;
      [now destruct Hdir | congruence].
  - exfalso. destruct Hl as [Hnone Hget].
    destruct (Hpre f Hf) as [Hc|Ha].
    + rewrite <- Hslot in Hc. apply Hkeeps in Hc.
      rewrite Hnone in Hc. now destruct Hc.
    + rewrite Hget in Ha. now destruct Ha.
Qed.

Lemma download_mmsdm_leaves_artifacts_witness :
  exists files wm data w1 ds,
    make_many_mmsdm_files Bench.env "2020-01" "2020-01"
      Bench.dispatch_price Bench.base Bench.world = (inr files, wm) /\
    download_mmsdm Bench.env "2020-01" "2020-01" "dispatch-price" Bench.base
      false Bench.world = (inr data, w1) /\
    length files = 1%nat /\
    Forall2 (fun f d => fs w1 !! clean_fi f = Some (File (Parquet d)))
            files ds.
Proof.
  destruct (make_many_mmsdm_files Bench.env "2020-01" "2020-01"
              Bench.dispatch_price Bench.base Bench.world)
    as [rf wm] eqn:Hmany.
  assert (rf = (make_many_mmsdm_files Bench.env "2020-01" "2020-01"
                  Bench.dispatch_price Bench.base Bench.world).1) as Hrf
    by now rewrite Hmany.
  vm_compute in Hrf. subst rf.
  destruct (download_mmsdm Bench.env "2020-01" "2020-01" "dispatch-price"
              Bench.base false Bench.world) as [rd w1] eqn:Hrun.
  assert (rd = (download_mmsdm Bench.env "2020-01" "2020-01"
                  "dispatch-price" Bench.base false Bench.world).1) as Hrd
    by now rewrite Hrun.
  vm_compute in Hrd. subst rd.
  match type of Hmany with
  | _ = (inr ?fl, _) =>
      match type of Hrun with
      | _ = (inr ?d, _) =>
          destruct (download_mmsdm_leaves_artifacts Bench.env "2020-01"
                      "2020-01" "dispatch-price" Bench.base Bench.world wm
                      w1 Bench.dispatch_price fl d eq_refl Hmany)
            as (ds & Hall & _);
          [| exact Hrun | exists fl, wm, d, w1, ds ]
      end
  end.
  - intros f Hf.
    apply elem_of_cons in Hf as [->|Hf]; [|now apply elem_of_nil in Hf].
    right. vm_compute. eauto.
  - split; [reflexivity|]. split; [reflexivity|].
    split; [reflexivity|].
    apply (Forall2_impl _ _ _ _ Hall). intros f d0 [_ Hfile].
    apply Hfile. change (fs Bench.world) with (∅ : gmap Path Node).
    rewrite lookup_empty. discriminate.
Defined.
